(** * VPNaaS backend (r0mik/k8s-envoy): a shallow embedding of the Go
      packages [models], [k8s] and [api], and the properties of the
      instance orchestrator checked against them.

    Layout:
    - [fmt], [hex], [base64], [curve25519], [uuid], [strconv], [cast],
      [resource]: the library functions the backend calls, as far as the
      backend depends on their results;
    - [models]: [User], [UserStats], [NewUser];
    - the platform: a Kubernetes API server with injectable faults;
    - [VPNManager] (package k8s) and the HTTP handlers of [Server]
      (package api), in state-passing style over the outside [World];
    - the theorems. *)

From Stdlib Require Import ZArith NArith String Ascii Strings.Byte List Lia.
From stdpp Require Import gmap strings list fin_maps pretty.

Local Open Scope string_scope.
Local Open Scope Z_scope.

(** ** Bytes *)

Definition byte_to_Z (b : byte) : Z := Z.of_N (Byte.to_N b).

Definition byte_of_Z (z : Z) : byte :=
  match Byte.of_N (Z.to_N (z mod 256)) with
  | Some b => b
  | None => Byte.x00
  end.

Definition unhex (l : list Z) : list byte := map byte_of_Z l.

(** ** Package fmt: [Sprintf] restricted to the verbs the backend uses
    ([%s], [%d], [%v] and the escape [%%]). *)
Module fmt.

Inductive Arg :=
| Str (s : string)   (* a string, or an error printed through its message *)
| Int (z : Z).

Definition format_arg (verb : ascii) (a : Arg) : string :=
  match a with
  | Str s =>
      if bool_decide (verb = "s"%char ∨ verb = "v"%char) then s
      else "%!" +:+ String verb ("(string=" +:+ s +:+ ")")
  | Int z =>
      if bool_decide (verb = "d"%char ∨ verb = "v"%char) then pretty z
      else "%!" +:+ String verb ("(int=" +:+ pretty z +:+ ")")
  end.

Fixpoint Sprintf (format : string) (args : list Arg) : string :=
  match format with
  | EmptyString => EmptyString
  | String c rest =>
      if bool_decide (c = "%"%char) then
        match rest with
        | EmptyString => "%!(NOVERB)"
        | String verb rest' =>
            if bool_decide (verb = "%"%char) then String "%" (Sprintf rest' args)
            else
              match args with
              | a :: args' => format_arg verb a +:+ Sprintf rest' args'
              | [] => "%!" +:+ String verb ("(MISSING)" +:+ Sprintf rest' [])
              end
        end
      else String c (Sprintf rest args)
  end.

(** [fmt.Errorf] builds an error whose message is the formatted text. *)
Definition Errorf := Sprintf.

End fmt.

(** ** Lower-case hexadecimal, as [encoding/hex] writes it. *)
Module hex.

Definition digit (n : Z) : ascii :=
  match String.get (Z.to_nat n) "0123456789abcdef" with
  | Some c => c
  | None => "0"%char
  end.

Fixpoint EncodeToString (src : list byte) : string :=
  match src with
  | [] => ""
  | b :: rest =>
      String (digit (byte_to_Z b / 16))
        (String (digit (byte_to_Z b mod 16)) (EncodeToString rest))
  end.

End hex.

(** ** Package encoding/base64: [StdEncoding.EncodeToString]
    (RFC 4648 alphabet, [=] padding). *)
Module base64.

Definition encodeStd : string :=
  "ABCDEFGHIJKLMNOPQRSTUVWXYZabcdefghijklmnopqrstuvwxyz0123456789+/".

Definition enc (v : Z) : ascii :=
  match String.get (Z.to_nat (Z.land v 63)) encodeStd with
  | Some c => c
  | None => "="%char
  end.

Fixpoint EncodeToString (src : list byte) : string :=
  match src with
  | [] => ""
  | [a] =>
      let val := Z.shiftl (byte_to_Z a) 16 in
      String (enc (Z.shiftr val 18)) (String (enc (Z.shiftr val 12)) "==")
  | [a; b] =>
      let val := Z.lor (Z.shiftl (byte_to_Z a) 16) (Z.shiftl (byte_to_Z b) 8) in
      String (enc (Z.shiftr val 18)) (String (enc (Z.shiftr val 12))
        (String (enc (Z.shiftr val 6)) "="))
  | a :: b :: c :: rest =>
      let val := Z.lor (Z.lor (Z.shiftl (byte_to_Z a) 16) (Z.shiftl (byte_to_Z b) 8))
                       (byte_to_Z c) in
      String (enc (Z.shiftr val 18)) (String (enc (Z.shiftr val 12))
        (String (enc (Z.shiftr val 6)) (String (enc val) (EncodeToString rest))))
  end.

End base64.

(** ** Package golang.org/x/crypto/curve25519: the X25519 function of
    RFC 7748 at the base point 9, on 32-byte little-endian strings.  The
    key generator is stated over an arbitrary [ScalarBaseMult]; this is the
    instance the concrete runs use. *)
Module curve25519.

Definition p : Z := 2 ^ 255 - 19.
Definition a24 : Z := 121665.
Definition mask255 : Z := 2 ^ 255 - 1.

(** Reduction modulo [p] of a non-negative value below [2^510], by folding
    the bits above 2^255 back with 2^255 = 19 (mod p). *)
Definition fold255 (x : Z) : Z := Z.land x mask255 + 19 * Z.shiftr x 255.

Definition reduce (x : Z) : Z :=
  let y := fold255 (fold255 x) in
  if y <? p then y else y - p.

Definition fadd (a b : Z) : Z := reduce (a + b).
Definition fsub (a b : Z) : Z := reduce (a + p - b).
Definition fmul (a b : Z) : Z := reduce (a * b).

Fixpoint decodeLittleEndian (b : list byte) : Z :=
  match b with
  | [] => 0
  | x :: rest => byte_to_Z x + 256 * decodeLittleEndian rest
  end.

Fixpoint encodeLittleEndian (n : nat) (z : Z) : list byte :=
  match n with
  | O => []
  | S n' => byte_of_Z z :: encodeLittleEndian n' (Z.shiftr z 8)
  end.

(** k[0] &= 248; k[31] &= 127; k[31] |= 64 *)
Definition decodeScalar25519 (k : list byte) : Z :=
  Z.lor (Z.land (decodeLittleEndian k) (2 ^ 255 - 8)) (2 ^ 254).

Definition cswap (swap : bool) (a b : Z) : Z * Z :=
  if swap then (b, a) else (a, b).

Record ladder := { x_2 : Z; z_2 : Z; x_3 : Z; z_3 : Z; swap : bool }.

Definition ladder_step (x_1 k : Z) (t : Z) (l : ladder) : ladder :=
  let k_t := Z.testbit k t in
  let sw := xorb (swap l) k_t in
  let '(x2, x3) := cswap sw (x_2 l) (x_3 l) in
  let '(z2, z3) := cswap sw (z_2 l) (z_3 l) in
  let A := fadd x2 z2 in
  let AA := fmul A A in
  let B := fsub x2 z2 in
  let BB := fmul B B in
  let E := fsub AA BB in
  let C := fadd x3 z3 in
  let D := fsub x3 z3 in
  let DA := fmul D A in
  let CB := fmul C B in
  let S := fadd DA CB in
  let T := fsub DA CB in
  {| x_3 := fmul S S;
     z_3 := fmul x_1 (fmul T T);
     x_2 := fmul AA BB;
     z_2 := fmul E (fadd AA (fmul a24 E));
     swap := k_t |}.

Fixpoint ladder_loop (x_1 k : Z) (bits : nat) (l : ladder) : ladder :=
  match bits with
  | O => l
  | S t => ladder_loop x_1 k t (ladder_step x_1 k (Z.of_nat t) l)
  end.

(** [b ^ e] in the field, by squaring; [fuel] bounds the bits of [e]. *)
Fixpoint fpow (fuel : nat) (b e : Z) : Z :=
  match fuel with
  | O => 1
  | S fuel' =>
      if e =? 0 then 1
      else
        let h := fpow fuel' (fmul b b) (Z.shiftr e 1) in
        if Z.odd e then fmul b h else h
  end.

Definition X25519 (k : list byte) (u : Z) : list byte :=
  let x_1 := reduce (Z.land u mask255) in
  let l := ladder_loop x_1 (decodeScalar25519 k) 255
             {| x_2 := 1; z_2 := 0; x_3 := x_1; z_3 := 1; swap := false |} in
  let '(x2, _) := cswap (swap l) (x_2 l) (x_3 l) in
  let '(z2, _) := cswap (swap l) (z_2 l) (z_3 l) in
  encodeLittleEndian 32 (fmul x2 (fpow 256 z2 (p - 2))).

Definition ScalarBaseMult (scalar : list byte) : list byte := X25519 scalar 9.

End curve25519.

(** The curve operation is an interface of the key generator: the
    orchestrator's properties hold for whatever function implements it. *)
Class Curve := ScalarBaseMult : list byte → list byte.

(** ** Package github.com/google/uuid: a version-4 identifier is 16 random
    bytes with the version and variant bits set, written as 8-4-4-4-12
    lower-case hexadecimal digits. *)
Module uuid.

Definition setBits (mask set : Z) (b : byte) : byte :=
  byte_of_Z (Z.lor (Z.land (byte_to_Z b) mask) set).

(** uuid[6] = (uuid[6] & 0x0f) | 0x40; uuid[8] = (uuid[8] & 0x3f) | 0x80 *)
Definition version4 (u : list byte) : list byte :=
  alter (setBits 0x3f 0x80) 8%nat (alter (setBits 0x0f 0x40) 6%nat u).

Definition String (u : list byte) : string :=
  hex.EncodeToString (take 4 u) +:+ "-" +:+
  hex.EncodeToString (take 2 (drop 4 u)) +:+ "-" +:+
  hex.EncodeToString (take 2 (drop 6 u)) +:+ "-" +:+
  hex.EncodeToString (take 2 (drop 8 u)) +:+ "-" +:+
  hex.EncodeToString (take 6 (drop 10 u)).

End uuid.

(** ** Go values *)

(** A Go [error] is its message; [None] is [nil]. *)
Definition error := string.

(** The 64-bit [int] and [int64]: two's-complement wrap-around. *)
Definition wrap64 (z : Z) : Z := (z + 2 ^ 63) mod 2 ^ 64 - 2 ^ 63.

Definition len (s : string) : Z := Z.of_nat (String.length s).

(** The 32-bit [int32]. *)
Definition wrap32 (z : Z) : Z := (z + 2 ^ 31) mod 2 ^ 32 - 2 ^ 31.

(** A call returns, or panics with a value (its message). *)
Inductive Result (A : Type) :=
| Returns (a : A)
| Panics (v : string).

Arguments Returns {A} a.
Arguments Panics {A} v.

Definition is_digit (c : ascii) : bool :=
  let n := N_of_ascii c in ((48 <=? n) && (n <=? 57))%N.

(** The longest prefix of characters that satisfy [p], and the rest. *)
Fixpoint span (p : ascii → bool) (s : string) : string * string :=
  match s with
  | EmptyString => (EmptyString, EmptyString)
  | String c rest =>
      if p c then let '(a, b) := span p rest in (String c a, b)
      else (EmptyString, s)
  end.

(** ** Package strconv: [ParseInt] on a 64-bit platform *)
Module strconv.

Inductive Err := ErrSyntax | ErrRange.

(** lower(c) = c | ('x' - 'X') *)
Definition lower (c : ascii) : ascii := ascii_of_N (N.lor (N_of_ascii c) 32).

Definition digit (c : ascii) : option Z :=
  let n := Z.of_N (N_of_ascii c) in
  let l := Z.of_N (N_of_ascii (lower c)) in
  if (48 <=? n) && (n <=? 57) then Some (n - 48)
  else if (97 <=? l) && (l <=? 122) then Some (l - 97 + 10)
  else None.

Definition maxUint64 : Z := 2 ^ 64 - 1.

(** The loop of ParseUint over the digits, in base [base]; an underscore is
    skipped when the base was given as 0. *)
Fixpoint digits (base : Z) (base0 : bool) (n : Z) (s : string) : Z + Err :=
  match s with
  | EmptyString => inl n
  | String c rest =>
      if Ascii.eqb c "_" && base0 then digits base base0 n rest
      else
        match digit c with
        | None => inr ErrSyntax
        | Some d =>
            if base <=? d then inr ErrSyntax
            else if maxUint64 / base + 1 <=? n then inr ErrRange
            else
              let n1 := n * base + d in
              if maxUint64 <? n1 then inr ErrRange else digits base base0 n1 rest
        end
  end.

Fixpoint has_underscore (s : string) : bool :=
  match s with
  | EmptyString => false
  | String c rest => Ascii.eqb c "_" || has_underscore rest
  end.

(** underscoreOK: underscores only between digits, or between the base
    prefix and a digit.  [saw] is the last kind of character seen. *)
Inductive Saw := saw_start | saw_digit | saw_underscore | saw_other.

Fixpoint underscoreOK_from (hex : bool) (saw : Saw) (s : string) : bool :=
  match s with
  | EmptyString => match saw with saw_underscore => false | _ => true end
  | String c rest =>
      let l := Z.of_N (N_of_ascii (lower c)) in
      if is_digit c || (hex && (97 <=? l) && (l <=? 102)) then
        underscoreOK_from hex saw_digit rest
      else if Ascii.eqb c "_" then
        match saw with
        | saw_digit => underscoreOK_from hex saw_underscore rest
        | _ => false
        end
      else
        match saw with
        | saw_underscore => false
        | _ => underscoreOK_from hex saw_other rest
        end
  end.

Definition underscoreOK (s : string) : bool :=
  let s :=
    match s with
    | String c rest => if Ascii.eqb c "-" || Ascii.eqb c "+" then rest else s
    | EmptyString => s
    end in
  match s with
  | String c0 (String c1 rest) =>
      if Ascii.eqb c0 "0"
         && (Ascii.eqb (lower c1) "b" || Ascii.eqb (lower c1) "o" || Ascii.eqb (lower c1) "x")
      then underscoreOK_from (Ascii.eqb (lower c1) "x") saw_digit rest
      else underscoreOK_from false saw_start s
  | _ => underscoreOK_from false saw_start s
  end.

(** ParseUint(s, base, 64) for base 0 or 2..36.  The value returned together
    with an error is not used by the callers and is left out. *)
Definition ParseUint (s : string) (base : Z) : Z + Err :=
  match s with
  | EmptyString => inr ErrSyntax
  | String c0 rest0 =>
      let '(base', s') :=
        if base =? 0 then
          if Ascii.eqb c0 "0" then
            match rest0 with
            | String c1 (String c2 rest2) =>
                if Ascii.eqb (lower c1) "b" then (2, String c2 rest2)
                else if Ascii.eqb (lower c1) "o" then (8, String c2 rest2)
                else if Ascii.eqb (lower c1) "x" then (16, String c2 rest2)
                else (8, rest0)
            | _ => (8, rest0)
            end
          else (10, s)
        else (base, s) in
      match digits base' (base =? 0) 0 s' with
      | inr e => inr e
      | inl n =>
          if (base =? 0) && has_underscore s' && negb (underscoreOK s) then inr ErrSyntax
          else inl n
      end
  end.

(** ParseInt(s, base, 64), also ParseInt(s, base, 0). *)
Definition ParseInt (s : string) (base : Z) : Z + Err :=
  match s with
  | EmptyString => inr ErrSyntax
  | String c rest =>
      let '(neg, s') :=
        if Ascii.eqb c "+" then (false, rest)
        else if Ascii.eqb c "-" then (true, rest)
        else (false, s) in
      match ParseUint s' base with
      | inr e => inr e
      | inl un =>
          if negb neg && (2 ^ 63 <=? un) then inr ErrRange
          else if neg && (2 ^ 63 <? un) then inr ErrRange
          else inl (if neg then - un else un)
      end
  end.

End strconv.

(** ** Package github.com/spf13/cast: [ToInt] of a string *)
Module cast.

(** The loop of trimZeroDecimal, run over the reversed string: [Some r]
    when the text is cut before a point that trailing zeros follow. *)
Fixpoint trim_rev (foundZero : bool) (r : list ascii) : option (list ascii) :=
  match r with
  | [] => None
  | c :: r' =>
      if Ascii.eqb c "." then
        if foundZero then Some r' else trim_rev foundZero r'
      else if Ascii.eqb c "0" then trim_rev true r'
      else None
  end.

Definition trimZeroDecimal (s : string) : string :=
  match trim_rev false (rev (list_ascii_of_string s)) with
  | Some r => string_of_list_ascii (rev r)
  | None => s
  end.

(** ToInt(s): the integer strconv.ParseInt(trimZeroDecimal(s), 0, 0) reads,
    and 0 when it reads none. *)
Definition ToInt (s : string) : Z :=
  match strconv.ParseInt (trimZeroDecimal s) 0 with
  | inl v => v
  | inr _ => 0
  end.

End cast.

(** ** Package k8s.io/apimachinery/pkg/api/resource: [ParseQuantity] and
    [MustParse], as far as whether and how a text parses. *)
Module resource.

Inductive Format := DecimalExponent | BinarySI | DecimalSI.

Inductive Err := ErrFormatWrong | ErrNumeric | ErrSuffix.

Definition message (e : Err) : string :=
  match e with
  | ErrFormatWrong =>
      "quantities must match the regular expression '^([+-]?[0-9.]+)([eEinumkKMGTP]*[-+]?[0-9]*)$'"
  | ErrNumeric => "unable to parse numeric part of quantity"
  | ErrSuffix => "unable to parse quantity's suffix"
  end.

(** A quantity as it was read: the sign, the digits before and after the
    point, and what the suffix stands for.  The amount the Go value holds is
    a function of these. *)
Record Quantity := {
  q_positive : bool;
  q_num : string;
  q_denom : string;
  q_base : Z;
  q_exponent : Z;
  q_Format : Format
}.

Definition is_suffix_char (c : ascii) : bool :=
  existsb (Ascii.eqb c) (list_ascii_of_string "eEinumkKMGTP").

Definition is_empty (s : string) : bool :=
  match s with EmptyString => true | _ => false end.

(** The end of parseQuantityString: the suffix, an optional sign and the
    digits of an exponent. *)
Definition suffix_part (positive : bool) (value num denom rest : string)
  : option (bool * string * string * string * string) :=
  let '(_, after) := span is_suffix_char rest in
  if is_empty after then Some (positive, value, num, denom, rest)
  else
    let after :=
      match after with
      | String c r => if Ascii.eqb c "-" || Ascii.eqb c "+" then r else after
      | EmptyString => after
      end in
    let '(_, after) := span is_digit after in
    if is_empty after then Some (positive, value, num, denom, rest)
    else None.

(** parseQuantityString: (positive, value, num, denom, suffix), or [None] for
    ErrFormatWrong. *)
Definition parseQuantityString (str : string)
  : option (bool * string * string * string * string) :=
  let '(positive, sign, s1) :=
    match str with
    | String c r =>
        if Ascii.eqb c "-" then (false, "-", r)
        else if Ascii.eqb c "+" then (true, "+", r)
        else (true, "", str)
    | EmptyString => (true, "", str)
    end in
  (* strip leading zeros *)
  let '(zeros, s2) := span (Ascii.eqb "0") s1 in
  if is_empty s2 then Some (positive, "0", "0", "", "")
  else
    (* extract the numerator *)
    let '(digits, s3) := span is_digit s2 in
    if is_empty s3 then Some (positive, str, digits, "", "")
    else
      let num := if is_empty digits then "0" else digits in
      (* handle a denominator *)
      match s3 with
      | String c s4 =>
          if Ascii.eqb c "." then
            let '(denom, s5) := span is_digit s4 in
            if is_empty s5 then Some (positive, str, num, denom, "")
            else suffix_part positive (sign +:+ zeros +:+ digits +:+ "." +:+ denom)
                   num denom s5
          else suffix_part positive (sign +:+ zeros +:+ digits) num "" s3
      | EmptyString => suffix_part positive (sign +:+ zeros +:+ digits) num "" s3
      end.

Definition decSuffix (suffix : string) : option Z :=
  if String.eqb suffix "n" then Some (-9)
  else if String.eqb suffix "u" then Some (-6)
  else if String.eqb suffix "m" then Some (-3)
  else if String.eqb suffix "" then Some 0
  else if String.eqb suffix "k" then Some 3
  else if String.eqb suffix "M" then Some 6
  else if String.eqb suffix "G" then Some 9
  else if String.eqb suffix "T" then Some 12
  else if String.eqb suffix "P" then Some 15
  else if String.eqb suffix "E" then Some 18
  else None.

Definition binSuffix (suffix : string) : option Z :=
  if String.eqb suffix "Ki" then Some 10
  else if String.eqb suffix "Mi" then Some 20
  else if String.eqb suffix "Gi" then Some 30
  else if String.eqb suffix "Ti" then Some 40
  else if String.eqb suffix "Pi" then Some 50
  else if String.eqb suffix "Ei" then Some 60
  else None.

(** quantitySuffixer.interpret: (base, exponent, format) *)
Definition interpret (suffix : string) : option (Z * Z * Format) :=
  match decSuffix suffix with
  | Some e => Some (10, e, DecimalSI)
  | None =>
      match binSuffix suffix with
      | Some e => Some (2, e, BinarySI)
      | None =>
          match suffix with
          | String c (String c1 rest) =>
              if Ascii.eqb c "E" || Ascii.eqb c "e" then
                match strconv.ParseInt (String c1 rest) 10 with
                | inl parsed => Some (10, wrap32 parsed, DecimalExponent)
                | inr _ => None
                end
              else None
          | _ => None
          end
      end
  end.

(** int64Multiply(a, b) for a >= 0 and b a power of two: the product, unless
    it overflows. *)
Definition int64Multiply (a b : Z) : option Z :=
  if a * b <? 2 ^ 63 then Some (a * b) else None.

(** inf.Dec.SetString: whether the text is read to its end and holds a digit.
    [unscaled] is whether a character was collected, [dp] whether the point
    was seen, [dg] whether a digit was seen. *)
Fixpoint Dec_scan (unscaled dp dg : bool) (s : string) : bool :=
  match s with
  | EmptyString => dg
  | String ch rest =>
      if Ascii.eqb ch "+" || Ascii.eqb ch "-" then
        if unscaled || dp then false else Dec_scan true dp dg rest
      else if Ascii.eqb ch "." then
        if dp then false else Dec_scan unscaled true dg rest
      else if is_digit ch then Dec_scan true dp true rest
      else false
  end.

Definition Dec_SetString (s : string) : bool := Dec_scan false false false s.

(** ParseQuantity turns str into a Quantity, or returns an error. *)
Definition ParseQuantity (str : string) : Quantity + Err :=
  if is_empty str then inr ErrFormatWrong
  else if String.eqb str "0" then
    inl {| q_positive := true; q_num := "0"; q_denom := ""; q_base := 10;
           q_exponent := 0; q_Format := DecimalSI |}
  else
    match parseQuantityString str with
    | None => inr ErrFormatWrong
    | Some (positive, value, num, denom, suf) =>
        match interpret suf with
        | None => inr ErrSuffix
        | Some (base, exponent, format) =>
            let q := {| q_positive := positive; q_num := num; q_denom := denom;
                        q_base := base; q_exponent := exponent; q_Format := format |} in
            let '(precision, scale, mantissa) :=
              match format with
              | BinarySI =>
                  if (0 <=? exponent) && (len denom =? 0) then
                    (* int32(float32(exponent)*3/10) is exact for the binary suffixes *)
                    (wrap32 (15 - wrap32 (len num) - exponent * 3 / 10 - 1), 0, 2 ^ exponent)
                  else (-1, 0, 1)
              | _ => (wrap32 (18 - wrap32 (len num + len denom)), exponent, 1)
              end in
            (* the general path, through inf.Dec *)
            let general := if Dec_SetString value then inl q else inr ErrNumeric in
            if 0 <=? precision then
              let scale := wrap32 (scale - wrap32 (len denom)) in
              if -9 <=? scale then
                match strconv.ParseInt (num +:+ denom) 10 with
                | inr _ => inr ErrNumeric
                | inl value' =>
                    match int64Multiply value' mantissa with
                    | Some _ => inl q
                    | None => general
                    end
                end
              else general
            else general
        end
    end.

(** MustParse turns the given string into a quantity or panics. *)
Definition MustParse (str : string) : Result Quantity :=
  match ParseQuantity str with
  | inl q => Returns q
  | inr err =>
      Panics (fmt.Sprintf "cannot parse '%v': %v" [fmt.Str str; fmt.Str (message err)])
  end.

End resource.

(** ** Package models *)

Record User := {
  ID : string;
  Username : string;
  Email : string;
  Status : string;            (* active, inactive, suspended *)
  CreatedAt : Z;
  UpdatedAt : Z;
  LastLogin : Z;
  PodName : string;
  PodIP : string;
  PublicKey : string;
  PrivateKey : string;
  ConfigData : string;
  DataUsage : Z;              (* int64, bytes *)
  ConnectionCount : Z         (* int *)
}.

Record CreateUserRequest := {
  req_Username : string;
  req_Email : string
}.

Record UserStats := {
  TotalUsers : Z;
  ActiveUsers : Z;
  InactiveUsers : Z;
  SuspendedUsers : Z;
  TotalDataUsage : Z;
  TotalConnections : Z
}.

(** ** The platform: a Kubernetes API server.

    The cluster holds the config maps and pods of every namespace.  What the
    backend cannot control is scripted: each API call consumes one
    [Outcome], which lets the call through, makes it fail, or (for a read)
    lets the kubelet move the pod to a new phase first.  An exhausted script
    lets every call through.  [calls] logs the requests, most recent first. *)

Record ConfigMap := {
  cm_Name : string;
  cm_Namespace : string;
  cm_Labels : list (string * string);
  cm_Data : list (string * string)
}.

Record Container := {
  ct_Name : string;
  ct_Image : string;
  ct_Ports : list (string * Z * string);           (* name, containerPort, protocol *)
  ct_VolumeMounts : list (string * string);        (* name, mountPath *)
  ct_Capabilities : list string;
  ct_Requests : list (string * resource.Quantity);
  ct_Limits : list (string * resource.Quantity)
}.

Record Pod := {
  pod_Name : string;
  pod_Namespace : string;
  pod_Labels : list (string * string);
  pod_Containers : list Container;
  pod_Volumes : list (string * string);            (* name, config map name *)
  pod_RestartPolicy : string;
  pod_Phase : string;                              (* Status.Phase *)
  pod_PodIP : string                               (* Status.PodIP *)
}.

Inductive Call :=
| CreateConfigMap (ns name : string)
| CreatePod (ns name : string)
| GetPod (ns name : string)
| DeletePod (ns name : string).

Inductive Outcome :=
| Proceed
| Fault (msg : error)
| Progress (phase ip : string).

Record Cluster := {
  configMaps : gmap (string * string) ConfigMap;
  pods : gmap (string * string) Pod;
  script : list Outcome;
  calls : list Call
}.

Definition PodPending : string := "Pending".
Definition PodRunning : string := "Running".

Definition begin_call (c : Call) (cl : Cluster) : Outcome * Cluster :=
  (hd Proceed (script cl),
   {| configMaps := configMaps cl; pods := pods cl; script := tail (script cl);
      calls := c :: calls cl |}).

Definition set_configMaps (m : gmap (string * string) ConfigMap) (cl : Cluster) : Cluster :=
  {| configMaps := m; pods := pods cl; script := script cl; calls := calls cl |}.

Definition set_pods (m : gmap (string * string) Pod) (cl : Cluster) : Cluster :=
  {| configMaps := configMaps cl; pods := m; script := script cl; calls := calls cl |}.

Definition set_status (phase ip : string) (pod : Pod) : Pod :=
  {| pod_Name := pod_Name pod; pod_Namespace := pod_Namespace pod;
     pod_Labels := pod_Labels pod; pod_Containers := pod_Containers pod;
     pod_Volumes := pod_Volumes pod; pod_RestartPolicy := pod_RestartPolicy pod;
     pod_Phase := phase; pod_PodIP := ip |}.

(** The API server's status messages. *)
Definition quoted (s : string) : string :=
  String (ascii_of_nat 34) s +:+ String (ascii_of_nat 34) EmptyString.

Definition already_exists (resource name : string) : error :=
  resource +:+ " " +:+ quoted name +:+ " already exists".

Definition not_found (resource name : string) : error :=
  resource +:+ " " +:+ quoted name +:+ " not found".

Definition is_fault (o : Outcome) : option error :=
  match o with Fault msg => Some msg | _ => None end.

(** CoreV1().ConfigMaps(ns).Create *)
Definition ConfigMaps_Create (ns : string) (cm : ConfigMap) (cl : Cluster)
  : option error * Cluster :=
  let '(o, cl) := begin_call (CreateConfigMap ns (cm_Name cm)) cl in
  match is_fault o with
  | Some msg => (Some msg, cl)
  | None =>
      match configMaps cl !! (ns, cm_Name cm) with
      | Some _ => (Some (already_exists "configmaps" (cm_Name cm)), cl)
      | None => (None, set_configMaps (<[(ns, cm_Name cm) := cm]> (configMaps cl)) cl)
      end
  end.

(** CoreV1().Pods(ns).Create: the stored and returned pod is pending and
    has no address yet. *)
Definition Pods_Create (ns : string) (pod : Pod) (cl : Cluster)
  : (Pod + error) * Cluster :=
  let '(o, cl) := begin_call (CreatePod ns (pod_Name pod)) cl in
  match is_fault o with
  | Some msg => (inr msg, cl)
  | None =>
      match pods cl !! (ns, pod_Name pod) with
      | Some _ => (inr (already_exists "pods" (pod_Name pod)), cl)
      | None =>
          let created := set_status PodPending "" pod in
          (inl created, set_pods (<[(ns, pod_Name pod) := created]> (pods cl)) cl)
      end
  end.

(** CoreV1().Pods(ns).Get *)
Definition Pods_Get (ns name : string) (cl : Cluster) : (Pod + error) * Cluster :=
  let '(o, cl) := begin_call (GetPod ns name) cl in
  match is_fault o with
  | Some msg => (inr msg, cl)
  | None =>
      match pods cl !! (ns, name) with
      | None => (inr (not_found "pods" name), cl)
      | Some pod =>
          match o with
          | Progress phase ip =>
              let pod' := set_status phase ip pod in
              (inl pod', set_pods (<[(ns, name) := pod']> (pods cl)) cl)
          | _ => (inl pod, cl)
          end
      end
  end.

(** CoreV1().Pods(ns).Delete *)
Definition Pods_Delete (ns name : string) (cl : Cluster) : option error * Cluster :=
  let '(o, cl) := begin_call (DeletePod ns name) cl in
  match is_fault o with
  | Some msg => (Some msg, cl)
  | None =>
      match pods cl !! (ns, name) with
      | None => (Some (not_found "pods" name), cl)
      | Some _ => (None, set_pods (delete (ns, name) (pods cl)) cl)
      end
  end.

(** ** The world outside the server process. *)

Inductive Level := InfoLevel | ErrorLevel.

Record World := {
  entropy : list byte;            (* crypto/rand: the bytes it can still supply *)
  clock : Z;                      (* time.Now() *)
  viper : gmap string string;     (* the loaded configuration, each value as text *)
  cluster : Cluster;
  logs : list (Level * string)    (* logrus output, most recent first *)
}.

Definition set_entropy (e : list byte) (w : World) : World :=
  {| entropy := e; clock := clock w; viper := viper w; cluster := cluster w; logs := logs w |}.

Definition set_cluster (cl : Cluster) (w : World) : World :=
  {| entropy := entropy w; clock := clock w; viper := viper w; cluster := cl; logs := logs w |}.

Definition logrus (l : Level) (msg : string) (w : World) : World :=
  {| entropy := entropy w; clock := clock w; viper := viper w; cluster := cluster w;
     logs := (l, msg) :: logs w |}.

(** Run a platform call against the world's cluster. *)
Definition on_cluster {A} (f : Cluster → A * Cluster) (w : World) : A * World :=
  let '(a, cl) := f (cluster w) in (a, set_cluster cl w).

(** crypto/rand.Read(buf) with len(buf) = n, which up to Go 1.23 is
    io.ReadFull on the source: all [n] bytes, or the error of a source that
    ends before. *)
Definition rand_Read (n : nat) (w : World) : (list byte + error) * World :=
  if decide (n ≤ length (entropy w))%nat
  then (inl (take n (entropy w)), set_entropy (drop n (entropy w)) w)
  else (inr (match entropy w with [] => "EOF" | _ => "unexpected EOF" end), w).

(** uuid.New(): [None] is the panic of uuid.Must when the random source fails. *)
Definition uuid_New (w : World) : option (list byte * World) :=
  match rand_Read 16 w with
  | (inl b, w') => Some (uuid.version4 b, w')
  | (inr _, _) => None
  end.

(** Package config: [GetString] and [GetInt] read the loaded values; a missing
    key reads as the zero value. *)
Module config.

Definition GetString (w : World) (key : string) : string :=
  default "" (viper w !! key).

Definition GetInt (w : World) (key : string) : Z :=
  match viper w !! key with
  | Some s => cast.ToInt s
  | None => 0
  end.

End config.

(** ** Package models: constructors and field updates.

    A [*models.User] is shared between the handler and the registry map;
    an assignment through the pointer is a functional update of the record
    the map holds. *)

Definition set_keys (pub priv : string) (u : User) : User :=
  {| ID := ID u; Username := Username u; Email := Email u; Status := Status u;
     CreatedAt := CreatedAt u; UpdatedAt := UpdatedAt u; LastLogin := LastLogin u;
     PodName := PodName u; PodIP := PodIP u;
     PublicKey := pub; PrivateKey := priv;
     ConfigData := ConfigData u; DataUsage := DataUsage u;
     ConnectionCount := ConnectionCount u |}.

Definition set_ConfigData (cfg : string) (u : User) : User :=
  {| ID := ID u; Username := Username u; Email := Email u; Status := Status u;
     CreatedAt := CreatedAt u; UpdatedAt := UpdatedAt u; LastLogin := LastLogin u;
     PodName := PodName u; PodIP := PodIP u;
     PublicKey := PublicKey u; PrivateKey := PrivateKey u;
     ConfigData := cfg; DataUsage := DataUsage u;
     ConnectionCount := ConnectionCount u |}.

Definition set_pod (name ip : string) (u : User) : User :=
  {| ID := ID u; Username := Username u; Email := Email u; Status := Status u;
     CreatedAt := CreatedAt u; UpdatedAt := UpdatedAt u; LastLogin := LastLogin u;
     PodName := name; PodIP := ip;
     PublicKey := PublicKey u; PrivateKey := PrivateKey u;
     ConfigData := ConfigData u; DataUsage := DataUsage u;
     ConnectionCount := ConnectionCount u |}.

Definition set_Status (st : string) (u : User) : User :=
  {| ID := ID u; Username := Username u; Email := Email u; Status := st;
     CreatedAt := CreatedAt u; UpdatedAt := UpdatedAt u; LastLogin := LastLogin u;
     PodName := PodName u; PodIP := PodIP u;
     PublicKey := PublicKey u; PrivateKey := PrivateKey u;
     ConfigData := ConfigData u; DataUsage := DataUsage u;
     ConnectionCount := ConnectionCount u |}.

(** NewUser creates a new user with default values.  [None]: uuid.New
    panicked. *)
Definition NewUser (username email : string) (w : World) : option (User * World) :=
  let now := clock w in
  match uuid_New w with
  | None => None
  | Some (id, w') =>
      Some ({| ID := uuid.String id; Username := username; Email := email;
               Status := "active"; CreatedAt := now; UpdatedAt := now; LastLogin := 0;
               PodName := ""; PodIP := ""; PublicKey := ""; PrivateKey := "";
               ConfigData := ""; DataUsage := 0; ConnectionCount := 0 |}, w')
  end.

(** ** Package k8s: VPNManager *)

Record VPNManager := { namespace : string }.

Record WireGuardKeys := {
  keys_PrivateKey : string;
  keys_PublicKey : string
}.

Definition NewVPNManager (w : World) : VPNManager :=
  let namespace := config.GetString w "k8s.namespace" in
  {| namespace := if String.eqb namespace "" then "vpnaas" else namespace |}.

(** retry.OnError(backoff, retriable, fn) with a [retriable] that accepts
    every error: [fn] runs until it succeeds, at most [steps] times; when the
    attempts are used up the last error is returned.  retry.DefaultRetry has
    5 steps. *)
Fixpoint retry_OnError (steps : nat) (fn : World → option error * World)
    (lastErr : option error) (w : World) : option error * World :=
  match steps with
  | O => (lastErr, w)
  | S steps' =>
      match fn w with
      | (None, w') => (None, w')
      | (Some err, w') => retry_OnError steps' fn (Some err) w'
      end
  end.

Definition DefaultRetry_Steps : nat := 5.

Definition wg_template : string :=
"[Interface]
PrivateKey = %s
Address = %s/24
ListenPort = %s
PostUp = iptables -A FORWARD -i %%i -j ACCEPT; iptables -t nat -A POSTROUTING -o eth0 -j MASQUERADE
PostDown = iptables -D FORWARD -i %%i -j ACCEPT; iptables -t nat -D POSTROUTING -o eth0 -j MASQUERADE

[Peer]
PublicKey = %s
AllowedIPs = 0.0.0.0/0
Endpoint = %s:%s
PersistentKeepalive = 25
".

Section VPNManager.

Context `{!Curve}.
Variable vm : VPNManager.

(** generateWireGuardKeys generates a new WireGuard key pair *)
Definition generateWireGuardKeys (w : World) : (WireGuardKeys + error) * World :=
  match rand_Read 32 w with
  | (inr err, w') => (inr err, w')
  | (inl privateKey, w') =>
      let publicKey := ScalarBaseMult privateKey in
      (inl {| keys_PrivateKey := base64.EncodeToString privateKey;
              keys_PublicKey := base64.EncodeToString publicKey |}, w')
  end.

(** The address of a user: fmt.Sprintf("10.0.0.%d", len(user.ID)%254+1) *)
Definition userIP (user : User) : string :=
  fmt.Sprintf "10.0.0.%d" [fmt.Int (Z.rem (len (ID user)) 254 + 1)].

(** generateWireGuardConfig generates WireGuard configuration for a user *)
Definition generateWireGuardConfig (w : World) (user : User) (keys : WireGuardKeys)
  : string + error :=
  let config := fmt.Sprintf wg_template
    [fmt.Str (keys_PrivateKey keys);
     fmt.Str (userIP user);
     fmt.Str (config.GetString w "vpn.wireguard_port");
     fmt.Str (keys_PublicKey keys);
     fmt.Str (config.GetString w "vpn.endpoint");
     fmt.Str (config.GetString w "vpn.wireguard_port")] in
  inl config.

(** waitForPodReady waits for a pod to be ready *)
Definition waitForPodReady (podName : string) (w : World) : option error * World :=
  retry_OnError DefaultRetry_Steps
    (λ w,
       match on_cluster (Pods_Get (namespace vm) podName) w with
       | (inr err, w') => (Some err, w')
       | (inl pod, w') =>
           if String.eqb (pod_Phase pod) PodRunning then (None, w')
           else (Some (fmt.Errorf "pod not ready yet" []), w')
       end)
    None w.

Definition vpn_labels (user : User) : list (string * string) :=
  [("app", "vpnaas"); ("component", "vpn"); ("user", ID user)].

(** The Resources of the container: the four quantities, parsed in the
    order the literal is written; the first text that is no quantity makes
    MustParse panic. *)
Definition pod_resources (w : World)
  : Result (list (string * resource.Quantity) * list (string * resource.Quantity)) :=
  match resource.MustParse (config.GetString w "vpn.pod_cpu_request") with
  | Panics v => Panics v
  | Returns cpu_request =>
  match resource.MustParse (config.GetString w "vpn.pod_memory_request") with
  | Panics v => Panics v
  | Returns memory_request =>
  match resource.MustParse (config.GetString w "vpn.pod_cpu_limit") with
  | Panics v => Panics v
  | Returns cpu_limit =>
  match resource.MustParse (config.GetString w "vpn.pod_memory_limit") with
  | Panics v => Panics v
  | Returns memory_limit =>
      Returns ([("cpu", cpu_request); ("memory", memory_request)],
               [("cpu", cpu_limit); ("memory", memory_limit)])
  end end end end.

(** createVPNPod creates a Kubernetes pod for VPN *)
Definition createVPNPod (user : User) (w : World) : Result (Pod + error) * World :=
  let podName := fmt.Sprintf "vpn-%s" [fmt.Str (ID user)] in
  let configMap :=
    {| cm_Name := fmt.Sprintf "vpn-config-%s" [fmt.Str (ID user)];
       cm_Namespace := namespace vm;
       cm_Labels := vpn_labels user;
       cm_Data := [("wg0.conf", ConfigData user)] |} in
  match on_cluster (ConfigMaps_Create (namespace vm) configMap) w with
  | (Some err, w) =>
      (Returns (inr (fmt.Errorf "failed to create ConfigMap: %v" [fmt.Str err])), w)
  | (None, w) =>
      match pod_resources w with
      | Panics v => (Panics v, w)
      | Returns (requests, limits) =>
          let pod :=
            {| pod_Name := podName;
               pod_Namespace := namespace vm;
               pod_Labels := vpn_labels user;
               pod_Containers :=
                 [{| ct_Name := "wireguard";
                     ct_Image := config.GetString w "vpn.image";
                     ct_Ports :=
                       [("wireguard", wrap32 (config.GetInt w "vpn.wireguard_port"), "UDP")];
                     ct_VolumeMounts := [("config", "/config/wg_confs")];
                     ct_Capabilities := ["NET_ADMIN"; "SYS_MODULE"];
                     ct_Requests := requests;
                     ct_Limits := limits |}];
               pod_Volumes := [("config", cm_Name configMap)];
               pod_RestartPolicy := "Always";
               pod_Phase := "";
               pod_PodIP := "" |} in
          match on_cluster (Pods_Create (namespace vm) pod) w with
          | (inr err, w) => (Returns (inr err), w)
          | (inl createdPod, w) =>
              match waitForPodReady (pod_Name createdPod) w with
              | (Some err, w) => (Returns (inr err), w)
              | (None, w) => (Returns (inl createdPod), w)
              end
          end
      end
  end.

(** CreateUserVPN creates a VPN pod for a user.  The user is returned as
    the calls so far have left it, also on an error and on a panic. *)
Definition CreateUserVPN (user : User) (w : World)
  : User * Result (option error) * World :=
  match generateWireGuardKeys w with
  | (inr err, w) =>
      (user,
       Returns (Some (fmt.Errorf "failed to generate WireGuard keys: %v" [fmt.Str err])), w)
  | (inl keys, w) =>
      let user := set_keys (keys_PublicKey keys) (keys_PrivateKey keys) user in
      match generateWireGuardConfig w user keys with
      | inr err =>
          (user,
           Returns (Some (fmt.Errorf "failed to generate WireGuard config: %v"
                            [fmt.Str err])), w)
      | inl config =>
          let user := set_ConfigData config user in
          match createVPNPod user w with
          | (Panics v, w) => (user, Panics v, w)
          | (Returns (inr err), w) =>
              (user,
               Returns (Some (fmt.Errorf "failed to create VPN pod: %v" [fmt.Str err])), w)
          | (Returns (inl pod), w) =>
              let user := set_pod (pod_Name pod) (pod_PodIP pod) user in
              let w := logrus InfoLevel
                         (fmt.Sprintf "Created VPN pod %s for user %s"
                            [fmt.Str (pod_Name pod); fmt.Str (Username user)]) w in
              (user, Returns None, w)
          end
      end
  end.

(** DeleteUserVPN deletes a VPN pod for a user *)
Definition DeleteUserVPN (user : User) (w : World) : option error * World :=
  if String.eqb (PodName user) "" then (None, w)
  else
    match on_cluster (Pods_Delete (namespace vm) (PodName user)) w with
    | (Some err, w) => (Some (fmt.Errorf "failed to delete VPN pod: %v" [fmt.Str err]), w)
    | (None, w) =>
        let w := logrus InfoLevel
                   (fmt.Sprintf "Deleted VPN pod %s for user %s"
                      [fmt.Str (PodName user); fmt.Str (Username user)]) w in
        (None, w)
    end.

(** GetPodStatus returns the status of a VPN pod *)
Definition GetPodStatus (podName : string) (w : World) : (string + error) * World :=
  match on_cluster (Pods_Get (namespace vm) podName) w with
  | (inr err, w) => (inr err, w)
  | (inl pod, w) => (inl (pod_Phase pod), w)
  end.

End VPNManager.

(** ** Package api: the server and its handlers.

    A handler maps the request context, the server and the world to the new
    server, the new world and the response written to the context.  The
    Prometheus counters the handlers feed are write-only for them and are
    left out. *)

#[warnings="-register-all"]
Inductive JSON :=
| JNum (z : Z)
| JStr (s : string)
| JTime (t : Z)
| JArr (l : list JSON)
| JObj (fields : list (string * JSON)).

Inductive Body :=
| NoBody
| JSONBody (j : JSON)
| StringBody (s : string).

Record Response := {
  status : Z;
  headers : list (string * string);
  body : Body
}.

(** gin.Context: the path parameters, and what ShouldBindJSON makes of the
    request body. *)
Record Context := {
  Params : gmap string string;
  ShouldBindJSON : CreateUserRequest + error
}.

Definition Param (c : Context) (key : string) : string := default "" (Params c !! key).

Definition StatusOK : Z := 200.
Definition StatusCreated : Z := 201.
Definition StatusBadRequest : Z := 400.
Definition StatusNotFound : Z := 404.
Definition StatusConflict : Z := 409.
Definition StatusInternalServerError : Z := 500.

(** c.JSON(code, gin.H{...}): the keys of a gin.H are written in sorted order. *)
Definition c_JSON (code : Z) (h : list (string * JSON)) : Response :=
  {| status := code; headers := []; body := JSONBody (JObj h) |}.

(** encoding/json on a [User], following the struct tags: [omitempty] drops
    an empty string; it has no effect on a time. *)
Definition omitempty (key value : string) : list (string * JSON) :=
  if String.eqb value "" then [] else [(key, JStr value)].

Definition user_fields (u : User) : list (string * JSON) :=
  [("id", JStr (ID u)); ("username", JStr (Username u)); ("email", JStr (Email u));
   ("status", JStr (Status u)); ("created_at", JTime (CreatedAt u));
   ("updated_at", JTime (UpdatedAt u)); ("last_login", JTime (LastLogin u))]
  ++ omitempty "pod_name" (PodName u)
  ++ omitempty "pod_ip" (PodIP u)
  ++ omitempty "public_key" (PublicKey u)
  ++ omitempty "private_key" (PrivateKey u)
  ++ omitempty "config_data" (ConfigData u)
  ++ [("data_usage", JNum (DataUsage u)); ("connection_count", JNum (ConnectionCount u))].

Definition user_json (u : User) : JSON := JObj (user_fields u).

Definition stats_json (st : UserStats) : JSON :=
  JObj [("total_users", JNum (TotalUsers st)); ("active_users", JNum (ActiveUsers st));
        ("inactive_users", JNum (InactiveUsers st));
        ("suspended_users", JNum (SuspendedUsers st));
        ("total_data_usage", JNum (TotalDataUsage st));
        ("total_connections", JNum (TotalConnections st))].

Record Server := {
  vpnManager : VPNManager;
  users : gmap string User          (* In-memory storage for demo *)
}.

Definition NewServer (vpnManager : VPNManager) : Server :=
  {| vpnManager := vpnManager; users := ∅ |}.

Definition set_users (m : gmap string User) (s : Server) : Server :=
  {| vpnManager := vpnManager s; users := m |}.

(** for _, user := range s.users: the records in the order of one traversal. *)
Definition range_users (s : Server) : list User := (map_to_list (users s)).*2.

(** The loop of CreateUser that looks for an existing user. *)
Fixpoint user_exists (req : CreateUserRequest) (l : list User) : bool :=
  match l with
  | [] => false
  | user :: rest =>
      if String.eqb (Username user) (req_Username req)
         || String.eqb (Email user) (req_Email req)
      then true
      else user_exists req rest
  end.

(** One iteration of the loop of calculateStats. *)
Definition calculateStats_step (stats : UserStats) (user : User) : UserStats :=
  let stats :=
    {| TotalUsers := wrap64 (TotalUsers stats + 1);
       ActiveUsers := ActiveUsers stats;
       InactiveUsers := InactiveUsers stats;
       SuspendedUsers := SuspendedUsers stats;
       TotalDataUsage := wrap64 (TotalDataUsage stats + DataUsage user);
       TotalConnections := wrap64 (TotalConnections stats + ConnectionCount user) |} in
  if String.eqb (Status user) "active" then
    {| TotalUsers := TotalUsers stats;
       ActiveUsers := wrap64 (ActiveUsers stats + 1);
       InactiveUsers := InactiveUsers stats;
       SuspendedUsers := SuspendedUsers stats;
       TotalDataUsage := TotalDataUsage stats;
       TotalConnections := TotalConnections stats |}
  else if String.eqb (Status user) "inactive" then
    {| TotalUsers := TotalUsers stats;
       ActiveUsers := ActiveUsers stats;
       InactiveUsers := wrap64 (InactiveUsers stats + 1);
       SuspendedUsers := SuspendedUsers stats;
       TotalDataUsage := TotalDataUsage stats;
       TotalConnections := TotalConnections stats |}
  else if String.eqb (Status user) "suspended" then
    {| TotalUsers := TotalUsers stats;
       ActiveUsers := ActiveUsers stats;
       InactiveUsers := InactiveUsers stats;
       SuspendedUsers := wrap64 (SuspendedUsers stats + 1);
       TotalDataUsage := TotalDataUsage stats;
       TotalConnections := TotalConnections stats |}
  else stats.

Definition zero_stats : UserStats :=
  {| TotalUsers := 0; ActiveUsers := 0; InactiveUsers := 0; SuspendedUsers := 0;
     TotalDataUsage := 0; TotalConnections := 0 |}.

(** The loop of calculateStats over the records in traversal order. *)
Definition calculateStats_loop (l : list User) : UserStats :=
  fold_left calculateStats_step l zero_stats.

(** calculateStats calculates system statistics *)
Definition calculateStats (s : Server) : UserStats :=
  calculateStats_loop (range_users s).

Section Handlers.

Context `{!Curve}.

(** ListUsers returns all users *)
Definition ListUsers (c : Context) (s : Server) (w : World) : Server * World * Response :=
  let users := range_users s in
  (s, w, c_JSON StatusOK
           [("total", JNum (Z.of_nat (length users)));
            ("users", JArr (map user_json users))]).

(** CreateUser creates a new user *)
Definition CreateUser (c : Context) (s : Server) (w : World) : Server * World * Response :=
  match ShouldBindJSON c with
  | inr err => (s, w, c_JSON StatusBadRequest [("error", JStr err)])
  | inl req =>
      if user_exists req (range_users s) then
        (s, w, c_JSON StatusConflict [("error", JStr "User already exists")])
      else
        match NewUser (req_Username req) (req_Email req) w with
        | None =>
            (* the panic is caught by the router's recovery middleware *)
            (s, w, {| status := StatusInternalServerError; headers := []; body := NoBody |})
        | Some (user, w) =>
            match CreateUserVPN (vpnManager s) user w with
            | (user, Panics _, w) =>
                (* recovered by the router as well; what was done stays done *)
                (s, w, {| status := StatusInternalServerError; headers := []; body := NoBody |})
            | (user, Returns (Some err), w) =>
                let w := logrus ErrorLevel
                           (fmt.Sprintf "Failed to create VPN for user %s: %v"
                              [fmt.Str (Username user); fmt.Str err]) w in
                (s, w, c_JSON StatusInternalServerError
                         [("error", JStr "Failed to create VPN")])
            | (user, Returns None, w) =>
                (set_users (<[ID user := user]> (users s)) s, w,
                 c_JSON StatusCreated
                   [("message", JStr "User created successfully");
                    ("user", user_json user)])
            end
        end
  end.

(** GetUser returns a specific user *)
Definition GetUser (c : Context) (s : Server) (w : World) : Server * World * Response :=
  let userID := Param c "id" in
  match users s !! userID with
  | None => (s, w, c_JSON StatusNotFound [("error", JStr "User not found")])
  | Some user =>
      let '(user, w) :=
        if negb (String.eqb (PodName user) "") then
          match GetPodStatus (vpnManager s) (PodName user) w with
          | (inl status, w) => (set_Status status user, w)
          | (inr _, w) => (user, w)
          end
        else (user, w) in
      (set_users (<[userID := user]> (users s)) s, w,
       c_JSON StatusOK [("user", user_json user)])
  end.

(** DeleteUser deletes a user *)
Definition DeleteUser (c : Context) (s : Server) (w : World) : Server * World * Response :=
  let userID := Param c "id" in
  match users s !! userID with
  | None => (s, w, c_JSON StatusNotFound [("error", JStr "User not found")])
  | Some user =>
      let w :=
        match DeleteUserVPN (vpnManager s) user w with
        | (Some err, w) =>
            logrus ErrorLevel
              (fmt.Sprintf "Failed to delete VPN for user %s: %v"
                 [fmt.Str (Username user); fmt.Str err]) w
        | (None, w) => w
        end in
      (set_users (delete userID (users s)) s, w,
       c_JSON StatusOK [("message", JStr "User deleted successfully")])
  end.

(** GetUserConfig returns the VPN configuration for a user *)
Definition GetUserConfig (c : Context) (s : Server) (w : World) : Server * World * Response :=
  let userID := Param c "id" in
  match users s !! userID with
  | None => (s, w, c_JSON StatusNotFound [("error", JStr "User not found")])
  | Some user =>
      if String.eqb (ConfigData user) "" then
        (s, w, c_JSON StatusNotFound [("error", JStr "VPN configuration not found")])
      else
        (s, w,
         {| status := StatusOK;
            headers :=
              [("Content-Disposition",
                "attachment; filename=vpn-" +:+ Username user +:+ ".conf");
               ("Content-Type", "text/plain")];
            body := StringBody (ConfigData user) |})
  end.

(** GetStats returns system statistics *)
Definition GetStats (c : Context) (s : Server) (w : World) : Server * World * Response :=
  let stats := calculateStats s in
  (s, w, c_JSON StatusOK [("stats", stats_json stats)]).

End Handlers.

(** ** The administration surface as a transition system *)

Inductive Request :=
| GET_users
| POST_users
| GET_user
| DELETE_user
| GET_user_config
| GET_stats.

Definition handle `{!Curve} (r : Request) : Context → Server → World → Server * World * Response :=
  match r with
  | GET_users => ListUsers
  | POST_users => CreateUser
  | GET_user => GetUser
  | DELETE_user => DeleteUser
  | GET_user_config => GetUserConfig
  | GET_stats => GetStats
  end.

(** GET /metrics only refreshes the Prometheus gauges from the platform's
    pod list; it has no part in the transition system. *)

(** The servers that requests can produce.  The world is whatever it is when
    a request arrives: between two requests the cluster, the clock and the
    random source move on their own. *)
Inductive reachable `{!Curve} : Server → Prop :=
| reachable_new vm : reachable (NewServer vm)
| reachable_handle r c s w : reachable s → reachable (handle r c s w).1.1.

(** ** Vocabulary of the statements *)

(** A record is stored under key [k]. *)
Definition stored (s : Server) (k : string) (u : User) : Prop := users s !! k = Some u.

(** What a provisioned record looks like under its key [k]. *)
Definition wf_user (k : string) (u : User) : Prop :=
  ID u = k ∧ String.length (ID u) = 36%nat ∧ PrivateKey u ≠ "" ∧
  ∃ port endpoint,
    ConfigData u =
      fmt.Sprintf wg_template
        [fmt.Str (PrivateKey u); fmt.Str (userIP u); fmt.Str port;
         fmt.Str (PublicKey u); fmt.Str endpoint; fmt.Str port].

(** No two records share a username or an email. *)
Definition unique_identities (s : Server) : Prop :=
  ∀ k1 k2 u1 u2, stored s k1 u1 → stored s k2 u2 →
    Username u1 = Username u2 ∨ Email u1 = Email u2 → k1 = k2.

(** The invariant of the registry. *)
Definition Inv (s : Server) : Prop :=
  (∀ k u, stored s k u → wf_user k u) ∧ unique_identities s.

(** The records of an identity. *)
Definition records_of (username email : string) (s : Server) : gmap string User :=
  filter (λ kv, Username kv.2 = username ∧ Email kv.2 = email) (users s).

(** Sum of a field over a list of records. *)
Definition Zsum (f : User → Z) (l : list User) : Z :=
  foldr (λ u acc, f u + acc) 0 l.

(** Number of records in a status. *)
Definition count_status (st : string) (l : list User) : Z :=
  Z.of_nat (length (filter (λ u, Status u = st) l)).

Definition in_int64 (z : Z) : Prop := - 2 ^ 63 <= z < 2 ^ 63.

(** The user objects of a list response. *)
Definition listed_objects (r : Response) : list (list (string * JSON)) :=
  match body r with
  | JSONBody (JObj [("total", _); ("users", JArr l)]) =>
      map (λ j, match j with JObj fields => fields | _ => [] end) l
  | _ => []
  end.

(** The address written into a rendered configuration: the text between
    the Address key and the prefix length. *)
Fixpoint until_slash (s : string) : string :=
  match s with
  | EmptyString => EmptyString
  | String c rest => if Ascii.eqb c "/" then EmptyString else String c (until_slash rest)
  end.

Fixpoint after_prefix (p s : string) : option string :=
  match p with
  | EmptyString => Some s
  | String c p' =>
      match s with
      | String d s' => if Ascii.eqb c d then after_prefix p' s' else None
      | EmptyString => None
      end
  end.

Fixpoint config_address (cfg : string) : option string :=
  match after_prefix "Address = " cfg with
  | Some rest => Some (until_slash rest)
  | None =>
      match cfg with
      | EmptyString => None
      | String _ rest => config_address rest
      end
  end.

(** The address of a stored instance. *)
Definition assignedAddress (u : User) : option string := config_address (ConfigData u).

(** The value of a field of a JSON object. *)
Fixpoint field (key : string) (fields : list (string * JSON)) : option JSON :=
  match fields with
  | [] => None
  | (k, v) :: rest => if String.eqb k key then Some v else field key rest
  end.

(** A list response that shows no private key. *)
Definition hides_private_key (r : Response) : Prop :=
  ∀ fields, fields ∈ listed_objects r → field "private_key" fields = None.

(** The addresses the stored instances hold. *)
Definition addresses_in_use (s : Server) : list (option string) :=
  assignedAddress <$> range_users s.

(** The status polls among the calls made to the platform. *)
Definition is_GetPod (c : Call) : bool :=
  match c with GetPod _ _ => true | _ => false end.

(** The names of the config map and of the pod of an instance. *)
Definition configMap_name (id : string) : string := fmt.Sprintf "vpn-config-%s" [fmt.Str id].
Definition pod_name (id : string) : string := fmt.Sprintf "vpn-%s" [fmt.Str id].

(** The identifier the next uuid.New() yields. *)
Definition next_id (w : World) : string := uuid.String (uuid.version4 (take 16 (entropy w))).

(** What the provisioning workflow is to leave behind when the platform
    refuses the pod of instance [id]: a record in status Failed, no config
    map, and as many addresses in use as before. *)
Definition failed_and_cleaned_up (id : string) (before : Server)
    (after : Server * World) : Prop :=
  (∃ u, stored after.1 id u ∧ Status u = "Failed")
  ∧ configMaps (cluster after.2) !! (namespace (vpnManager after.1), configMap_name id) = None
  ∧ length (addresses_in_use after.1) = length (addresses_in_use before).

(** What a teardown is to leave behind when the platform deletion fails:
    the record still stored, and a response that is not a success. *)
Definition kept_and_surfaced (id : string) (after : Server * World * Response) : Prop :=
  is_Some (users after.1.1 !! id) ∧ status after.2 ≠ StatusOK.

(** The resource settings of the pod, and what makes them usable: each
    reads as a quantity. *)
Definition pod_settings : list string :=
  ["vpn.pod_cpu_request"; "vpn.pod_memory_request";
   "vpn.pod_cpu_limit"; "vpn.pod_memory_limit"].

Definition valid_quantities (w : World) : Prop :=
  Forall (λ key, ∃ q, resource.MustParse (config.GetString w key) = Returns q) pod_settings.

(** ** Concrete runs *)

Module Run.

#[export] Instance x25519 : Curve := curve25519.ScalarBaseMult.

Definition bytes_from (start : Z) (n : nat) : list byte :=
  map (λ i, byte_of_Z (start + Z.of_nat i)) (seq 0 n).

Definition settings : gmap string string :=
  list_to_map
    [("vpn.wireguard_port", "51820"); ("vpn.endpoint", "vpn.example.com");
     ("vpn.image", "linuxserver/wireguard:latest");
     ("vpn.pod_cpu_limit", "100m"); ("vpn.pod_memory_limit", "128Mi");
     ("vpn.pod_cpu_request", "50m"); ("vpn.pod_memory_request", "64Mi");
     ("k8s.namespace", "vpnaas")].

Definition empty_cluster (sc : list Outcome) : Cluster :=
  {| configMaps := ∅; pods := ∅; script := sc; calls := [] |}.

(** A world whose platform creates the config map and the pod and reports
    the pod running at the first poll. *)
Definition friendly (seed : Z) (cl : Cluster) : World :=
  {| entropy := bytes_from seed 48; clock := 1700000000; viper := settings;
     cluster :=
       {| configMaps := configMaps cl; pods := pods cl;
          script := [Proceed; Proceed; Progress PodRunning "10.244.0.7"];
          calls := calls cl |};
     logs := [] |}.

Definition with_script (sc : list Outcome) (w : World) : World :=
  set_cluster
    {| configMaps := configMaps (cluster w); pods := pods (cluster w);
       script := sc; calls := calls (cluster w) |} w.

Definition post (username email : string) : Context :=
  {| Params := ∅;
     ShouldBindJSON := inl {| req_Username := username; req_Email := email |} |}.

Definition with_id (id : string) : Context :=
  {| Params := {[ "id" := id ]}; ShouldBindJSON := inr "EOF" |}.

Definition w0 : World := friendly 1 (empty_cluster []).
Definition s0 : Server := NewServer (NewVPNManager w0).

(** alice is created on the empty server, then bob. *)
Definition alice_id : string := "01020304-0506-4708-890a-0b0c0d0e0f10".
Definition bob_id : string := "65666768-696a-4b6c-ad6e-6f7071727374".

Definition after_alice : Server * World * Response := CreateUser (post "alice" "alice@x.com") s0 w0.
Definition s1 : Server := after_alice.1.1.
Definition w1 : World := friendly 101 (cluster after_alice.1.2).
Definition after_bob : Server * World * Response := CreateUser (post "bob" "bob@x.com") s1 w1.
Definition s2 : Server := after_bob.1.1.

(** A registry filled by hand: records with traffic, one of them in a
    status reconciled from the platform. *)
Definition record (id name st : string) (usage conns : Z) : User :=
  {| ID := id; Username := name; Email := name +:+ "@x.com"; Status := st;
     CreatedAt := 0; UpdatedAt := 0; LastLogin := 0; PodName := ""; PodIP := "";
     PublicKey := ""; PrivateKey := ""; ConfigData := "";
     DataUsage := usage; ConnectionCount := conns |}.

Definition sample : Server :=
  {| vpnManager := {| namespace := "vpnaas" |};
     users :=
       list_to_map
         [("a", record "a" "ann" "active" 1000 3);
          ("b", record "b" "ben" "inactive" 250 1);
          ("c", record "c" "cy" "Running" 50 2);
          ("d", record "d" "dee" "suspended" 0 4)] |}.

(** Two records whose data usage adds up to 2^63. *)
Definition heavy : Server :=
  {| vpnManager := {| namespace := "vpnaas" |};
     users :=
       list_to_map
         [("a", record "a" "ann" "active" (2 ^ 62) 0);
          ("b", record "b" "ben" "active" (2 ^ 62) 0)] |}.

(** The platform accepts the config map and refuses the pod. *)
Definition w_pod_refused : World :=
  with_script [Proceed; Fault "the server is currently unable to handle the request"] w0.

Definition alice_refused : Server * World * Response :=
  CreateUser (post "alice" "alice@x.com") s0 w_pod_refused.

(** The platform cannot be reached for the deletion. *)
Definition w_unreachable : World :=
  with_script [Fault "connection refused"] (friendly 201 (cluster after_alice.1.2)).

Definition alice_deleted : Server * World * Response :=
  DeleteUser (with_id alice_id) s1 w_unreachable.

End Run.


(** ** Package models: the methods of a user *)

(** IsActive returns true if the user is active *)
Definition IsActive (u : User) : bool := String.eqb (Status u) "active".

(** IncrementConnectionCount increments the connection count *)
Definition IncrementConnectionCount (u : User) (w : World) : User :=
  {| ID := ID u; Username := Username u; Email := Email u; Status := Status u;
     CreatedAt := CreatedAt u; UpdatedAt := clock w; LastLogin := LastLogin u;
     PodName := PodName u; PodIP := PodIP u;
     PublicKey := PublicKey u; PrivateKey := PrivateKey u;
     ConfigData := ConfigData u; DataUsage := DataUsage u;
     ConnectionCount := wrap64 (ConnectionCount u + 1) |}.

(** AddDataUsage adds data usage in bytes *)
Definition AddDataUsage (bytes : Z) (u : User) (w : World) : User :=
  {| ID := ID u; Username := Username u; Email := Email u; Status := Status u;
     CreatedAt := CreatedAt u; UpdatedAt := clock w; LastLogin := LastLogin u;
     PodName := PodName u; PodIP := PodIP u;
     PublicKey := PublicKey u; PrivateKey := PrivateKey u;
     ConfigData := ConfigData u; DataUsage := wrap64 (DataUsage u + bytes);
     ConnectionCount := ConnectionCount u |}.

(** ** Package api: updateUserMetrics *)

(** One iteration of the loop of updateUserMetrics over the counters
    active, inactive, suspended. *)
Definition updateUserMetrics_step (acc : Z * Z * Z) (user : User) : Z * Z * Z :=
  let '(active, inactive, suspended) := acc in
  if String.eqb (Status user) "active" then (wrap64 (active + 1), inactive, suspended)
  else if String.eqb (Status user) "inactive" then (active, wrap64 (inactive + 1), suspended)
  else if String.eqb (Status user) "suspended" then (active, inactive, wrap64 (suspended + 1))
  else acc.

(** updateUserMetrics updates user-related metrics: the four numbers it
    hands to metrics.UpdateUserMetrics (total, active, inactive, suspended). *)
Definition updateUserMetrics (s : Server) : Z * Z * Z * Z :=
  let total := Z.of_nat (size (users s)) in
  let '(active, inactive, suspended) :=
    fold_left updateUserMetrics_step (range_users s) (0, 0, 0) in
  (total, active, inactive, suspended).

(** ** The dashboard: the state of UserContext.js

    The state of the provider and its reducer; the asynchronous operations
    are the actions they dispatch, given how the request ended. *)
Module frontend.

Record State := {
  st_users : list JSON;
  st_loading : bool;
  st_error : option string;
  st_stats : option JSON
}.

Definition initialState : State :=
  {| st_users := []; st_loading := false; st_error := None; st_stats := None |}.

Inductive Action :=
| SET_LOADING (payload : bool)
| SET_ERROR (payload : string)
| SET_USERS (payload : list JSON)
| ADD_USER (payload : JSON)
| DELETE_USER (payload : string)
| SET_STATS (payload : JSON)
| OTHER (type : string).

(** user.id *)
Definition user_id (user : JSON) : option JSON :=
  match user with
  | JObj fields => field "id" fields
  | _ => None
  end.

(** user.id !== payload, for a payload that is a string *)
Definition id_differs (payload : string) (user : JSON) : bool :=
  match user_id user with
  | Some (JStr id) => negb (String.eqb id payload)
  | _ => true
  end.

Definition userReducer (state : State) (action : Action) : State :=
  match action with
  | SET_LOADING payload =>
      {| st_users := st_users state; st_loading := payload;
         st_error := st_error state; st_stats := st_stats state |}
  | SET_ERROR payload =>
      {| st_users := st_users state; st_loading := false;
         st_error := Some payload; st_stats := st_stats state |}
  | SET_USERS payload =>
      {| st_users := payload; st_loading := false;
         st_error := None; st_stats := st_stats state |}
  | ADD_USER payload =>
      {| st_users := st_users state ++ [payload]; st_loading := st_loading state;
         st_error := st_error state; st_stats := st_stats state |}
  | DELETE_USER payload =>
      {| st_users := List.filter (id_differs payload) (st_users state);
         st_loading := st_loading state;
         st_error := st_error state; st_stats := st_stats state |}
  | SET_STATS payload =>
      {| st_users := st_users state; st_loading := st_loading state;
         st_error := st_error state; st_stats := Some payload |}
  | OTHER _ => state
  end.

Definition dispatch_all (state : State) (actions : list Action) : State :=
  fold_left userReducer actions state.

(** fetchUsers: [inl users] is response.data.users of a successful GET
    /users, [inr message] the message of the error caught. *)
Definition fetchUsers (result : list JSON + string) : list Action :=
  SET_LOADING true ::
  match result with
  | inl users => [SET_USERS users]
  | inr message => [SET_ERROR message]
  end.

(** createUser: [inl user] is response.data.user of a successful POST. *)
Definition createUser (result : JSON + string) : list Action :=
  SET_LOADING true ::
  match result with
  | inl user => [ADD_USER user]
  | inr message => [SET_ERROR message]
  end.

(** deleteUser: [None] is a successful DELETE. *)
Definition deleteUser (userId : string) (result : option string) : list Action :=
  match result with
  | None => [DELETE_USER userId]
  | Some _ => []
  end.

(** fetchStats *)
Definition fetchStats (result : JSON + string) : list Action :=
  match result with
  | inl stats => [SET_STATS stats]
  | inr _ => []
  end.

(** response.data.users and response.data.user of a JSON response. *)
Definition data_users (r : Response) : list JSON :=
  match body r with
  | JSONBody (JObj h) =>
      match field "users" h with
      | Some (JArr l) => l
      | _ => []
      end
  | _ => []
  end.

Definition data_user (r : Response) : option JSON :=
  match body r with
  | JSONBody (JObj h) => field "user" h
  | _ => None
  end.

End frontend.

(** ** More vocabulary *)

(** One poll of waitForPodReady. *)
Definition poll (vm : VPNManager) (podName : string) (w : World) : option error * World :=
  match on_cluster (Pods_Get (namespace vm) podName) w with
  | (inr err, w') => (Some err, w')
  | (inl pod, w') =>
      if String.eqb (pod_Phase pod) PodRunning then (None, w')
      else (Some (fmt.Errorf "pod not ready yet" []), w')
  end.


(** The outcome of a poll that shows the pod running. *)
Definition reports_running (o : Outcome) : bool :=
  match o with
  | Progress phase _ => String.eqb phase PodRunning
  | _ => false
  end.

(** The outcomes scripted for the polls of a creation: those after the two
    creation calls, as far as the retry budget reaches. *)
Definition polls_of (w : World) : list Outcome :=
  take DefaultRetry_Steps (tail (tail (script (cluster w)))).

(** The pod is there and is not running. *)
Definition waiting (vm : VPNManager) (name : string) (w : World) : Prop :=
  ∃ pod, pods (cluster w) !! (namespace vm, name) = Some pod
         ∧ pod_Phase pod ≠ PodRunning.

(** The handlers touch the platform in their own namespace only. *)
Definition same_elsewhere (ns : string) (cl cl' : Cluster) : Prop :=
  ∀ ns' name, ns' ≠ ns →
    pods cl' !! (ns', name) = pods cl !! (ns', name)
    ∧ configMaps cl' !! (ns', name) = configMaps cl !! (ns', name).

(** The line feed. *)
Definition LF : ascii := ascii_of_nat 10.

(** A string without the character [c]. *)
Fixpoint lacks (c : ascii) (s : string) : Prop :=
  match s with
  | EmptyString => True
  | String d rest => d ≠ c ∧ lacks c rest
  end.

Fixpoint lacksb (c : ascii) (s : string) : bool :=
  match s with
  | EmptyString => true
  | String d rest => negb (Ascii.eqb d c) && lacksb c rest
  end.

(** ** More concrete runs *)
Module Scenario.

(** The random source runs dry after the identifier has been drawn. *)
Definition w_dry : World :=
  {| entropy := Run.bytes_from 1 40; clock := clock Run.w0; viper := viper Run.w0;
     cluster := cluster Run.w0; logs := [] |}.

(** The platform refuses the config map. *)
Definition w_configMap_refused : World :=
  Run.with_script [Fault "configmaps is forbidden"] Run.w0.

(** The platform accepts the config map and the pod; the pod stays pending
    through four polls and one poll fails. *)
Definition w_pending : World :=
  Run.with_script
    [Proceed; Proceed; Progress PodPending ""; Progress PodPending "";
     Fault "context deadline exceeded"; Progress PodPending ""; Progress PodPending "";
     Progress PodRunning "10.244.0.9"]
    Run.w0.

(** The same platform, with the pod running at the fourth poll. *)
Definition w_slow : World :=
  Run.with_script
    [Proceed; Proceed; Progress PodPending ""; Fault "context deadline exceeded";
     Progress PodPending ""; Progress PodRunning "10.244.0.9"]
    Run.w0.

(** The platform would accept everything and report the pod running at the
    first poll, but one resource setting of the pod is no quantity. *)
Definition w_lots : World :=
  {| entropy := entropy Run.w0; clock := clock Run.w0;
     viper := <["vpn.pod_cpu_limit" := "lots"]> (viper Run.w0);
     cluster := cluster Run.w0; logs := [] |}.

(** A list of the interface with one user, and a user to add. *)
Definition ann : JSON := JObj [("id", JStr "a"); ("username", JStr "ann")].
Definition ben : JSON := JObj [("id", JStr "b"); ("username", JStr "ben")].

Definition one_user : frontend.State :=
  {| frontend.st_users := [ann]; frontend.st_loading := false;
     frontend.st_error := None; frontend.st_stats := None |}.

(** The interface after it has fetched the users of a server. *)
Definition fetched (s : Server) : frontend.State :=
  frontend.dispatch_all frontend.initialState
    (frontend.fetchUsers
       (inl (frontend.data_users (ListUsers (Run.with_id "") s Run.w0).2))).

End Scenario.

(** ** The dashboard: Dashboard.js *)
Module dashboard.

(** user.status === 'active' *)
Definition is_active (user : JSON) : bool :=
  match user with
  | JObj fields =>
      match field "status" fields with
      | Some (JStr st) => String.eqb st "active"
      | _ => false
      end
  | _ => false
  end.

(** const activeUsers = users.filter(user => user.status === 'active').length *)
Definition activeUsers (users : list JSON) : nat := length (List.filter is_active users).

(** The value of the Total Users card: users.length *)
Definition totalUsers (users : list JSON) : nat := length users.

End dashboard.
(** * Properties *)

(** ** The library functions at their published test vectors *)

(** RFC 7748, section 6.1: Alice's private and public key. *)
Example curve25519_rfc7748 :
  hex.EncodeToString
    (curve25519.ScalarBaseMult
       (unhex [0x77;0x07;0x6d;0x0a;0x73;0x18;0xa5;0x7d;0x3c;0x16;0xc1;0x72;0x51;0xb2;0x66;0x45;
               0xdf;0x4c;0x2f;0x87;0xeb;0xc0;0x99;0x2a;0xb1;0x77;0xfb;0xa5;0x1d;0xb9;0x2c;0x2a]))
  = "8520f0098930a754748b7ddcb43ef75a0dbf3a0d26381af4eba4a98eaa9b4e6a".
Proof. vm_compute. reflexivity. Qed.

(** RFC 4648, section 10. *)
Example base64_rfc4648 :
  map base64.EncodeToString
    (map unhex [[]; [0x66]; [0x66;0x6f]; [0x66;0x6f;0x6f]; [0x66;0x6f;0x6f;0x62];
                [0x66;0x6f;0x6f;0x62;0x61]; [0x66;0x6f;0x6f;0x62;0x61;0x72]])
  = [""; "Zg=="; "Zm8="; "Zm9v"; "Zm9vYg=="; "Zm9vYmE="; "Zm9vYmFy"].
Proof. vm_compute. reflexivity. Qed.

Example Sprintf_address : fmt.Sprintf "10.0.0.%d" [fmt.Int 37] = "10.0.0.37".
Proof. vm_compute. reflexivity. Qed.

Example Sprintf_escape :
  fmt.Sprintf "-i %%i %s:%s" [fmt.Str "host"; fmt.Str "51820"] = "-i %i host:51820".
Proof. vm_compute. reflexivity. Qed.

Example uuid_String_example :
  uuid.String (uuid.version4 (unhex [1;2;3;4;5;6;7;8;9;10;11;12;13;14;15;16]))
  = "01020304-0506-4708-890a-0b0c0d0e0f10".
Proof. vm_compute. reflexivity. Qed.

(** ** Strings and identifiers *)

Lemma length_append (a b : string) :
  String.length (a +:+ b) = (String.length a + String.length b)%nat.
Proof. induction a as [|c a IH]; simpl; [reflexivity | now rewrite IH]. Qed.

Lemma hex_length (l : list byte) :
  String.length (hex.EncodeToString l) = (2 * length l)%nat.
Proof. induction l as [|b l IH]; simpl; [reflexivity | rewrite IH; lia]. Qed.

Lemma version4_length (u : list byte) : length (uuid.version4 u) = length u.
Proof. unfold uuid.version4. now rewrite !length_alter. Qed.

(** The canonical text of a 16-byte identifier has 36 characters. *)
Lemma uuid_String_length (u : list byte) :
  length u = 16%nat → String.length (uuid.String u) = 36%nat.
Proof.
  intros Hu. unfold uuid.String.
  rewrite !length_append, !hex_length, !length_take, !length_drop, Hu.
  reflexivity.
Qed.

Lemma rand_Read_ok n w b w' :
  rand_Read n w = (inl b, w') →
  b = take n (entropy w) ∧ length b = n ∧ w' = set_entropy (drop n (entropy w)) w
  ∧ (n ≤ length (entropy w))%nat.
Proof.
  unfold rand_Read. case_decide as Hn; [|discriminate].
  intros [= <- <-]. rewrite length_take. repeat split; [lia | done].
Qed.

Lemma rand_Read_err n w e w' :
  rand_Read n w = (inr e, w') → w' = w ∧ (length (entropy w) < n)%nat.
Proof.
  unfold rand_Read. case_decide as Hn; [discriminate|].
  intros [= <- <-]. split; [done | lia].
Qed.

Lemma NewUser_Some username email w user w' :
  NewUser username email w = Some (user, w') →
  ID user = next_id w ∧ String.length (ID user) = 36%nat
  ∧ Username user = username ∧ Email user = email
  ∧ Status user = "active" ∧ DataUsage user = 0 ∧ ConnectionCount user = 0
  ∧ w' = set_entropy (drop 16 (entropy w)) w.
Proof.
  unfold NewUser, uuid_New.
  destruct (rand_Read 16 w) as [[b|e] w1] eqn:Hr; [|discriminate].
  apply rand_Read_ok in Hr as (-> & Hlen & -> & _).
  intros [= <- <-]. simpl. repeat split.
  apply uuid_String_length. now rewrite version4_length.
Qed.

(** The address of an identifier of 36 characters. *)
Lemma userIP_36 (u : User) : String.length (ID u) = 36%nat → userIP u = "10.0.0.37".
Proof. intros H. unfold userIP, len. rewrite H. reflexivity. Qed.

(** ** The loops over the registry *)

Lemma elem_of_range_users (s : Server) (u : User) :
  u ∈ range_users s ↔ ∃ k, stored s k u.
Proof.
  unfold range_users, stored. rewrite list_elem_of_fmap. split.
  - intros [[k v] [-> Hin]]. exists k. now apply elem_of_map_to_list.
  - intros [k Hk]. exists (k, u). split; [done | now apply elem_of_map_to_list].
Qed.

Lemma user_exists_true (req : CreateUserRequest) (l : list User) :
  user_exists req l = true ↔
  ∃ u, u ∈ l ∧ (Username u = req_Username req ∨ Email u = req_Email req).
Proof.
  induction l as [|x l IH]; simpl.
  - split; [discriminate | intros (u & Hu & _); inversion Hu].
  - destruct (_ || _) eqn:Hx.
    + split; [intros _ | done]. exists x. split; [left|].
      apply orb_true_iff in Hx as [Hx|Hx]; apply String.eqb_eq in Hx; auto.
    + rewrite IH. apply orb_false_iff in Hx as [H1 H2].
      apply String.eqb_neq in H1, H2.
      split; intros (u & Hu & Hm).
      * exists u. split; [now right | done].
      * apply elem_of_cons in Hu as [->|Hu]; [tauto | eauto].
Qed.

Lemma user_exists_false (req : CreateUserRequest) (l : list User) :
  user_exists req l = false ↔
  ∀ u, u ∈ l → Username u ≠ req_Username req ∧ Email u ≠ req_Email req.
Proof.
  rewrite <-not_true_iff_false, user_exists_true. split.
  - intros Hn u Hu. split; intros He; apply Hn; eauto.
  - intros Hall (u & Hu & Hm). destruct (Hall u Hu). tauto.
Qed.

(** ** Provisioning *)

Lemma base64_nonempty (l : list byte) : l ≠ [] → base64.EncodeToString l ≠ "".
Proof. destruct l as [|a [|b [|c l]]]; [done | discriminate ..]. Qed.

Section Provisioning.

Context `{!Curve}.

Lemma generateWireGuardKeys_ok w keys w' :
  generateWireGuardKeys w = (inl keys, w') →
  keys_PrivateKey keys = base64.EncodeToString (take 32 (entropy w))
  ∧ keys_PublicKey keys = base64.EncodeToString (ScalarBaseMult (take 32 (entropy w)))
  ∧ length (take 32 (entropy w)) = 32%nat
  ∧ w' = set_entropy (drop 32 (entropy w)) w.
Proof.
  unfold generateWireGuardKeys.
  destruct (rand_Read 32 w) as [[b|e] w1] eqn:Hr; [|discriminate].
  apply rand_Read_ok in Hr as (-> & Hlen & -> & _).
  now intros [= <- <-].
Qed.

(** A successful CreateUserVPN fills in the keys, the configuration and the
    pod, and leaves the identity of the record alone. *)
Lemma CreateUserVPN_ok vm user w user' w' :
  CreateUserVPN vm user w = (user', Returns None, w') →
  ID user' = ID user ∧ Username user' = Username user ∧ Email user' = Email user
  ∧ Status user' = Status user ∧ DataUsage user' = DataUsage user
  ∧ ConnectionCount user' = ConnectionCount user
  ∧ PrivateKey user' = base64.EncodeToString (take 32 (entropy w))
  ∧ PublicKey user' = base64.EncodeToString (ScalarBaseMult (take 32 (entropy w)))
  ∧ PrivateKey user' ≠ ""
  ∧ ConfigData user' =
      fmt.Sprintf wg_template
        [fmt.Str (PrivateKey user'); fmt.Str (userIP user');
         fmt.Str (config.GetString w "vpn.wireguard_port");
         fmt.Str (PublicKey user');
         fmt.Str (config.GetString w "vpn.endpoint");
         fmt.Str (config.GetString w "vpn.wireguard_port")].
Proof.
  unfold CreateUserVPN.
  destruct (generateWireGuardKeys w) as [[keys|e] w1] eqn:Hk; [|discriminate].
  apply generateWireGuardKeys_ok in Hk as (Hpriv & Hpub & Hlen & ->).
  unfold generateWireGuardConfig.
  destruct (createVPNPod _ _ _) as [[[pod|e]|v] w2]; [|discriminate..].
  intros [= <- <-]. simpl. rewrite Hpriv, Hpub. repeat split.
  apply base64_nonempty. intros Hnil. now rewrite Hnil in Hlen.
Qed.

(** CreateUser either leaves the registry as it is, or stores one new,
    well-provisioned record whose name and address no stored record has. *)
Lemma CreateUser_cases c s w :
  (CreateUser c s w).1.1 = s ∨
  ∃ req user,
    ShouldBindJSON c = inl req
    ∧ user_exists req (range_users s) = false
    ∧ (CreateUser c s w).1.1 = set_users (<[ID user := user]> (users s)) s
    ∧ status (CreateUser c s w).2 = StatusCreated
    ∧ ID user = next_id w
    ∧ Username user = req_Username req ∧ Email user = req_Email req
    ∧ Status user = "active" ∧ DataUsage user = 0 ∧ ConnectionCount user = 0
    ∧ wf_user (ID user) user.
Proof.
  unfold CreateUser.
  destruct (ShouldBindJSON c) as [req|e]; [|now left].
  destruct (user_exists req (range_users s)) eqn:Hex; [now left|].
  destruct (NewUser _ _ w) as [[user w1]|] eqn:Hnew; [|now left].
  apply NewUser_Some in Hnew as (Hid & Hlen & Hname & Hmail & Hst & Hdu & Hcc & _).
  destruct (CreateUserVPN _ user w1) as [[user' [[e|]|v]] w2] eqn:Hvpn;
    [now left | | now left].
  apply CreateUserVPN_ok in Hvpn
    as (Hid' & Hname' & Hmail' & Hst' & Hdu' & Hcc' & _ & _ & Hne & Hcfg).
  right. exists req, user'. simpl.
  repeat split; try congruence.
  eexists _, _. exact Hcfg.
Qed.

Lemma Inv_new vm : Inv (NewServer vm).
Proof.
  split; [intros k u Hs | intros k1 k2 u1 u2 Hs]; unfold stored in Hs; simpl in Hs;
    now rewrite lookup_empty in Hs.
Qed.

Lemma Inv_insert_fresh s user :
  Inv s → wf_user (ID user) user →
  (∀ u, u ∈ range_users s → Username u ≠ Username user ∧ Email u ≠ Email user) →
  Inv (set_users (<[ID user := user]> (users s)) s).
Proof.
  intros [Hwf Huniq] Hu Hfresh. split.
  - intros k u. unfold stored. simpl. rewrite lookup_insert.
    case_decide as Hk; [intros [= <-]; now subst | apply Hwf].
  - assert (Hold : ∀ k u, stored s k u →
              Username u ≠ Username user ∧ Email u ≠ Email user).
    { intros k u Hk. apply Hfresh, elem_of_range_users. eauto. }
    intros k1 k2 u1 u2. unfold stored. simpl. rewrite !lookup_insert.
    repeat case_decide; subst.
    + done.
    + intros [= <-] H2 Heq. destruct (Hold _ _ H2). intuition congruence.
    + intros H1 [= <-] Heq. destruct (Hold _ _ H1). intuition congruence.
    + apply Huniq.
Qed.

Lemma Inv_set_Status s k u st :
  Inv s → stored s k u → Inv (set_users (<[k := set_Status st u]> (users s)) s).
Proof.
  intros [Hwf Huniq] Hk. split.
  - intros k' u'. unfold stored. simpl. rewrite lookup_insert.
    case_decide as Hkk; [|apply Hwf]. subst k'. intros [= <-].
    exact (Hwf _ _ Hk).
  - intros k1 k2 u1 u2. unfold stored. simpl. rewrite !lookup_insert.
    repeat case_decide; subst.
    + done.
    + intros [= <-] H2. simpl. apply (Huniq _ _ _ _ Hk H2).
    + intros H1 [= <-]. simpl. apply (Huniq _ _ _ _ H1 Hk).
    + apply Huniq.
Qed.

Lemma Inv_delete s k : Inv s → Inv (set_users (delete k (users s)) s).
Proof.
  intros [Hwf Huniq]. split.
  - intros k' u'. unfold stored. simpl. rewrite lookup_delete.
    case_decide; [discriminate | apply Hwf].
  - intros k1 k2 u1 u2. unfold stored. simpl. rewrite !lookup_delete.
    repeat case_decide; try discriminate. apply Huniq.
Qed.

Lemma GetUser_registry c s w :
  (GetUser c s w).1.1 = s ∨
  ∃ u st, stored s (Param c "id") u
    ∧ (GetUser c s w).1.1 = set_users (<[Param c "id" := set_Status st u]> (users s)) s.
Proof.
  unfold GetUser.
  destruct (users s !! Param c "id") as [u|] eqn:Hu; [|now left].
  assert (Hsame : set_users (<[Param c "id" := u]> (users s)) s = s).
  { destruct s as [vm us]. unfold set_users. simpl in *. f_equal.
    now apply insert_id. }
  destruct (negb _).
  - destruct (GetPodStatus _ _ w) as [[st|e] w1]; simpl.
    + right. now exists u, st.
    + now left.
  - now left.
Qed.

Lemma DeleteUser_registry c s w :
  (DeleteUser c s w).1.1 = s ∨
  (DeleteUser c s w).1.1 = set_users (delete (Param c "id") (users s)) s.
Proof.
  unfold DeleteUser. destruct (users s !! Param c "id"); [now right | now left].
Qed.

(** Every reachable server keeps its records well-provisioned and its
    identities unique. *)
Lemma reachable_Inv s : reachable s → Inv s.
Proof.
  induction 1 as [vm | r c s w Hs IH]; [apply Inv_new|].
  destruct r; simpl; try exact IH.
  - destruct (CreateUser_cases c s w) as [-> | (req & user & _ & Hex & -> & _ & _ & Hn & Hm & _ & _ & _ & Hwf)];
      [exact IH|].
    apply Inv_insert_fresh; [done | done |].
    rewrite Hn, Hm. now apply user_exists_false.
  - destruct (GetUser_registry c s w) as [-> | (u & st & Hu & ->)]; [exact IH|].
    now apply Inv_set_Status.
  - destruct (DeleteUser_registry c s w) as [-> | ->]; [exact IH|].
    now apply Inv_delete.
  - unfold GetUserConfig. destruct (users s !! _); [destruct (String.eqb _ _)|]; exact IH.
Qed.

(** Every instance of a reachable server has the same address. *)
Lemma reachable_userIP s k u : reachable s → stored s k u → userIP u = "10.0.0.37".
Proof.
  intros Hs Hk. apply reachable_Inv in Hs as [Hwf _].
  destruct (Hwf _ _ Hk) as (_ & Hlen & _). now apply userIP_36.
Qed.

End Provisioning.

(** ** Aggregate statistics *)

Lemma wrap64_small (z : Z) : in_int64 z → wrap64 z = z.
Proof. unfold in_int64, wrap64. intros H. rewrite Z.mod_small; lia. Qed.

Lemma wrap64_add_l (a b : Z) : wrap64 (wrap64 a + b) = wrap64 (a + b).
Proof.
  unfold wrap64. f_equal.
  replace ((a + 2 ^ 63) mod 2 ^ 64 - 2 ^ 63 + b + 2 ^ 63)
    with ((a + 2 ^ 63) mod 2 ^ 64 + b) by lia.
  rewrite Zplus_mod_idemp_l. f_equal. lia.
Qed.

Lemma Zsum_snoc (f : User → Z) (l : list User) (x : User) :
  Zsum f (l ++ [x]) = Zsum f l + f x.
Proof. unfold Zsum. induction l as [|y l IH]; simpl; [lia | rewrite IH; lia]. Qed.

Lemma count_status_snoc (st : string) (l : list User) (x : User) :
  count_status st (l ++ [x]) =
  count_status st l + (if decide (Status x = st) then 1 else 0).
Proof.
  unfold count_status. rewrite filter_app, length_app.
  rewrite filter_cons. case_decide; simpl; lia.
Qed.

Lemma count_status_le (st : string) (l : list User) :
  0 <= count_status st l <= Z.of_nat (length l).
Proof. unfold count_status. pose proof (length_filter (λ u, Status u = st) l). lia. Qed.

(** The loop in closed form: every counter is the exact total, reduced to
    64 bits. *)
Lemma calculateStats_loop_wrap (l : list User) :
  calculateStats_loop l =
  {| TotalUsers := wrap64 (Z.of_nat (length l));
     ActiveUsers := wrap64 (count_status "active" l);
     InactiveUsers := wrap64 (count_status "inactive" l);
     SuspendedUsers := wrap64 (count_status "suspended" l);
     TotalDataUsage := wrap64 (Zsum DataUsage l);
     TotalConnections := wrap64 (Zsum ConnectionCount l) |}.
Proof.
  unfold calculateStats_loop.
  induction l as [|x l IH] using rev_ind; [reflexivity|].
  rewrite fold_left_app. simpl. rewrite IH. clear IH.
  rewrite length_app, !Zsum_snoc, !count_status_snoc. simpl.
  replace (Z.of_nat (length l + 1)) with (Z.of_nat (length l) + 1) by lia.
  unfold calculateStats_step. simpl. rewrite !wrap64_add_l.
  destruct (String.eqb (Status x) "active") eqn:Ha.
  { apply String.eqb_eq in Ha. rewrite Ha. simpl. now rewrite !Z.add_0_r. }
  destruct (String.eqb (Status x) "inactive") eqn:Hi.
  { apply String.eqb_eq in Hi. rewrite Hi. simpl. now rewrite !Z.add_0_r. }
  destruct (String.eqb (Status x) "suspended") eqn:Hs.
  { apply String.eqb_eq in Hs. rewrite Hs. simpl. now rewrite !Z.add_0_r. }
  apply String.eqb_neq in Ha, Hi, Hs.
  rewrite !decide_False by done. now rewrite !Z.add_0_r.
Qed.

Lemma Zsum_Permutation (f : User → Z) (l1 l2 : list User) :
  l1 ≡ₚ l2 → Zsum f l1 = Zsum f l2.
Proof. unfold Zsum. induction 1; simpl; lia. Qed.

(** The order in which the map is traversed does not matter. *)
Lemma calculateStats_loop_Permutation (l1 l2 : list User) :
  l1 ≡ₚ l2 → calculateStats_loop l1 = calculateStats_loop l2.
Proof.
  intros Hp. rewrite !calculateStats_loop_wrap. unfold count_status.
  now rewrite !(Zsum_Permutation _ _ _ Hp), Hp.
Qed.

Lemma length_range_users (s : Server) : length (range_users s) = size (users s).
Proof. unfold range_users. now rewrite length_fmap, length_map_to_list. Qed.

(** C9.  For every registry whose totals fit the 64-bit counters, the
    statistics are exact: TotalUsers is the number of stored records,
    TotalDataUsage and TotalConnections are the sums of the records' data
    usage and connection counts, and the three status counters are the
    numbers of records in status active, inactive and suspended; GetStats
    answers 200 with these statistics and changes nothing. *)
Theorem calculateStats_correct (c : Context) (s : Server) (w : World) :
  Z.of_nat (size (users s)) < 2 ^ 63 →
  in_int64 (Zsum DataUsage (range_users s)) →
  in_int64 (Zsum ConnectionCount (range_users s)) →
  let stats :=
    {| TotalUsers := Z.of_nat (size (users s));
       ActiveUsers := count_status "active" (range_users s);
       InactiveUsers := count_status "inactive" (range_users s);
       SuspendedUsers := count_status "suspended" (range_users s);
       TotalDataUsage := Zsum DataUsage (range_users s);
       TotalConnections := Zsum ConnectionCount (range_users s) |} in
  calculateStats s = stats
  ∧ GetStats c s w = (s, w, c_JSON StatusOK [("stats", stats_json stats)]).
Proof.
  intros Hsize Hdata Hconn stats.
  assert (Hcalc : calculateStats s = stats).
  { unfold calculateStats. rewrite calculateStats_loop_wrap.
    assert (Hcount : ∀ st, in_int64 (count_status st (range_users s))).
    { intros st. pose proof (count_status_le st (range_users s)) as Hle.
      rewrite length_range_users in Hle. unfold in_int64. lia. }
    rewrite length_range_users, !wrap64_small; [done | try done ..].
    unfold in_int64. lia. }
  split; [exact Hcalc|]. unfold GetStats. now rewrite Hcalc.
Qed.

(** ** Creation *)

(** C2.  A create request that binds and whose username and email are
    those of a stored record is answered 409 and changes nothing, neither the
    registry nor the world; in every reachable server the registry then
    holds exactly one record of that identity. *)
Theorem CreateUser_conflict `{!Curve} (c : Context) (s : Server) (w : World)
    (req : CreateUserRequest) :
  ShouldBindJSON c = inl req →
  (∃ k u, stored s k u ∧ Username u = req_Username req ∧ Email u = req_Email req) →
  CreateUser c s w =
    (s, w, c_JSON StatusConflict [("error", JStr "User already exists")])
  ∧ (reachable s →
     size (records_of (req_Username req) (req_Email req) (CreateUser c s w).1.1) = 1%nat).
Proof.
  intros Hbind (k & u & Hk & Hname & Hmail).
  assert (Hrun : CreateUser c s w =
            (s, w, c_JSON StatusConflict [("error", JStr "User already exists")])).
  { unfold CreateUser. rewrite Hbind.
    replace (user_exists req (range_users s)) with true; [reflexivity|].
    symmetry. apply user_exists_true. exists u. split; [|now left].
    apply elem_of_range_users. eauto. }
  split; [exact Hrun|]. rewrite Hrun. simpl.
  intros [_ Huniq]%reachable_Inv.
  replace (records_of (req_Username req) (req_Email req) s) with ({[ k := u ]} : gmap string User);
    [apply map_size_singleton|].
  apply map_eq. intros i. apply option_eq. intros x.
  unfold records_of. rewrite map_lookup_filter_Some, lookup_singleton_Some. simpl.
  split.
  - now intros [<- <-].
  - intros (Hi & Hn & He).
    assert (i = k) as -> by (apply (Huniq _ _ _ _ Hi Hk); left; congruence).
    split; [done|]. unfold stored in Hk. congruence.
Qed.

(** ** Deletion *)

(** C6.  Deleting an identifier the registry does not hold is answered 404
    and changes nothing; the handler is a total function, it has no failing
    path. *)
Theorem DeleteUser_not_found (c : Context) (s : Server) (w : World) :
  users s !! Param c "id" = None →
  DeleteUser c s w = (s, w, c_JSON StatusNotFound [("error", JStr "User not found")]).
Proof. intros Hnone. unfold DeleteUser. now rewrite Hnone. Qed.

(** C10.  For a user without a pod name DeleteUserVPN returns nil and
    leaves the world as it is: no call reaches the platform. *)
Theorem DeleteUserVPN_no_pod (vm : VPNManager) (user : User) (w : World) :
  PodName user = "" →
  DeleteUserVPN vm user w = (None, w)
  ∧ calls (cluster (DeleteUserVPN vm user w).2) = calls (cluster w).
Proof. intros Hpod. unfold DeleteUserVPN. rewrite Hpod. simpl. done. Qed.

(** ** Keys and configuration *)

(** C7.  generateWireGuardKeys reads 32 bytes from the random source; when
    it gets them, the private key is their base64 text and the public key
    is the base64 text of ScalarBaseMult of these 32 bytes; it returns an
    error exactly when the source cannot supply 32 bytes. *)
Theorem generateWireGuardKeys_spec `{!Curve} (w : World) :
  match generateWireGuardKeys w with
  | (inl keys, w') =>
      ∃ privateKey,
        rand_Read 32 w = (inl privateKey, w')
        ∧ length privateKey = 32%nat
        ∧ keys_PrivateKey keys = base64.EncodeToString privateKey
        ∧ keys_PublicKey keys = base64.EncodeToString (ScalarBaseMult privateKey)
  | (inr err, w') => rand_Read 32 w = (inr err, w') ∧ w' = w
  end
  ∧ ((∃ err w', generateWireGuardKeys w = (inr err, w'))
     ↔ (length (entropy w) < 32)%nat).
Proof.
  unfold generateWireGuardKeys.
  destruct (rand_Read 32 w) as [[b|e] w1] eqn:Hr.
  - pose proof (rand_Read_ok _ _ _ _ Hr) as (_ & Hlen & _ & Hle). split.
    + now exists b.
    + split; [intros (err & w' & [=]) | lia].
  - pose proof (rand_Read_err _ _ _ _ Hr) as [-> Hlt]. split; [done|].
    split; [done | eauto].
Qed.

(** C8.  The rendered configuration is a function of the identifier of the
    instance, of the two keys and of the configured endpoint and port, and
    of nothing else: two invocations that agree on these return the same
    text. *)
Theorem generateWireGuardConfig_deterministic (w1 w2 : World) (u1 u2 : User)
    (keys1 keys2 : WireGuardKeys) :
  ID u1 = ID u2 →
  keys1 = keys2 →
  config.GetString w1 "vpn.endpoint" = config.GetString w2 "vpn.endpoint" →
  config.GetString w1 "vpn.wireguard_port" = config.GetString w2 "vpn.wireguard_port" →
  generateWireGuardConfig w1 u1 keys1 = generateWireGuardConfig w2 u2 keys2.
Proof.
  intros Hid -> Hendpoint Hport.
  unfold generateWireGuardConfig, userIP. now rewrite Hid, Hendpoint, Hport.
Qed.

(** ** Listing *)

Lemma elem_of_omitempty (key value : string) (f : string * JSON) :
  f ∈ omitempty key value ↔ value ≠ "" ∧ f = (key, JStr value).
Proof.
  unfold omitempty. destruct (String.eqb value "") eqn:He.
  - apply String.eqb_eq in He. split; [inversion 1 | tauto].
  - apply String.eqb_neq in He. rewrite list_elem_of_singleton. tauto.
Qed.

Lemma private_key_field (u : User) (v : JSON) :
  ("private_key", v) ∈ user_fields u ↔ PrivateKey u ≠ "" ∧ v = JStr (PrivateKey u).
Proof.
  unfold user_fields.
  rewrite !elem_of_app, !elem_of_omitempty, !elem_of_cons, elem_of_nil.
  split.
  - intros Hin. repeat destruct Hin as [Hin|Hin]; try discriminate;
      try (destruct Hin as [_ [=]]; fail); try done.
    destruct Hin as [Hne [= ->]]. done.
  - intros [Hne ->]. naive_solver.
Qed.

(** C3, as the code has it.  ListUsers answers 200 with every stored record
    in full and changes nothing: the object of a record has a private_key
    field exactly when the stored private key is not empty, and the field
    carries the key.  No record of a reachable server has an empty private
    key.  GetUserConfig returns the stored configuration text. *)
Theorem ListUsers_lists_private_key `{!Curve} (c : Context) (s : Server) (w : World) :
  ListUsers c s w =
    (s, w, c_JSON StatusOK
             [("total", JNum (Z.of_nat (size (users s))));
              ("users", JArr (map user_json (range_users s)))])
  ∧ listed_objects (ListUsers c s w).2 = map user_fields (range_users s)
  ∧ (∀ u v, u ∈ range_users s →
       ("private_key", v) ∈ user_fields u ↔ PrivateKey u ≠ "" ∧ v = JStr (PrivateKey u))
  ∧ (reachable s → ∀ u, u ∈ range_users s → PrivateKey u ≠ "")
  ∧ (∀ u, stored s (Param c "id") u → ConfigData u ≠ "" →
       body (GetUserConfig c s w).2 = StringBody (ConfigData u)).
Proof.
  assert (Hrun : ListUsers c s w =
    (s, w, c_JSON StatusOK
             [("total", JNum (Z.of_nat (size (users s))));
              ("users", JArr (map user_json (range_users s)))])).
  { unfold ListUsers. now rewrite length_range_users. }
  split; [exact Hrun|]. rewrite Hrun. simpl. split; [|split; [|split]].
  - unfold listed_objects. simpl. rewrite map_map. reflexivity.
  - intros u v _. apply private_key_field.
  - intros [Hwf _]%reachable_Inv u [k Hk]%elem_of_range_users.
    now destruct (Hwf _ _ Hk) as (_ & _ & Hne & _).
  - intros u Hu Hcfg. unfold GetUserConfig. unfold stored in Hu. rewrite Hu.
    apply String.eqb_neq in Hcfg. now rewrite Hcfg.
Qed.

(** ** Teardown *)

(** C5, as the code has it.  Deleting a stored identifier always removes
    the registry entry and answers 200; an error of the platform deletion is
    written to the log and goes no further. *)
Theorem DeleteUser_removes_entry (c : Context) (s : Server) (w : World) (user : User) :
  stored s (Param c "id") user →
  users (DeleteUser c s w).1.1 = delete (Param c "id") (users s)
  ∧ users (DeleteUser c s w).1.1 !! Param c "id" = None
  ∧ (DeleteUser c s w).2 = c_JSON StatusOK [("message", JStr "User deleted successfully")]
  ∧ (∀ err w', DeleteUserVPN (vpnManager s) user w = (Some err, w') →
       (DeleteUser c s w).1.2 =
         logrus ErrorLevel
           (fmt.Sprintf "Failed to delete VPN for user %s: %v"
              [fmt.Str (Username user); fmt.Str err]) w').
Proof.
  intros Hu. unfold stored in Hu. unfold DeleteUser. rewrite Hu. simpl.
  repeat split.
  - apply lookup_delete_eq.
  - intros err w' ->. reflexivity.
Qed.

(** ** Failed provisioning *)

Lemma ConfigMaps_Create_ok ns cm cl :
  is_fault (hd Proceed (script cl)) = None →
  configMaps cl !! (ns, cm_Name cm) = None →
  ConfigMaps_Create ns cm cl =
    (None, {| configMaps := <[(ns, cm_Name cm) := cm]> (configMaps cl);
              pods := pods cl; script := tail (script cl);
              calls := CreateConfigMap ns (cm_Name cm) :: calls cl |}).
Proof.
  intros Hok Hfree. unfold ConfigMaps_Create, begin_call. rewrite Hok. simpl.
  now rewrite Hfree.
Qed.

Lemma Pods_Create_refused ns pod cl :
  is_Some (is_fault (hd Proceed (script cl))) ∨ is_Some (pods cl !! (ns, pod_Name pod)) →
  ∃ err, Pods_Create ns pod cl =
    (inr err, {| configMaps := configMaps cl; pods := pods cl;
                 script := tail (script cl);
                 calls := CreatePod ns (pod_Name pod) :: calls cl |}).
Proof.
  intros Href. unfold Pods_Create, begin_call.
  destruct (is_fault (hd Proceed (script cl))) as [msg|]; [eauto|]. simpl.
  destruct Href as [[? [=]]|[p Hp]]. rewrite Hp. eauto.
Qed.

Lemma NewUser_ok username email w :
  (16 ≤ length (entropy w))%nat →
  ∃ user, NewUser username email w = Some (user, set_entropy (drop 16 (entropy w)) w)
          ∧ ID user = next_id w ∧ Username user = username.
Proof.
  intros Hlen. unfold NewUser, uuid_New, rand_Read.
  rewrite decide_True by done. eexists. split; [reflexivity | done].
Qed.

Lemma pod_resources_viper (w w' : World) :
  viper w' = viper w → pod_resources w' = pod_resources w.
Proof. intros Hv. unfold pod_resources, config.GetString. now rewrite Hv. Qed.

Lemma valid_quantities_viper (w w' : World) :
  viper w' = viper w → valid_quantities w' ↔ valid_quantities w.
Proof. intros Hv. unfold valid_quantities, config.GetString. now rewrite Hv. Qed.

(** With four quantities the Resources are built; without, building them
    panics. *)
Lemma pod_resources_Returns (w : World) :
  valid_quantities w ↔ ∃ r, pod_resources w = Returns r.
Proof.
  unfold valid_quantities, pod_settings, pod_resources.
  rewrite !Forall_cons, Forall_nil. split.
  - intros ((q1 & ->) & (q2 & ->) & (q3 & ->) & (q4 & ->) & _). eauto.
  - intros [r Hr].
    destruct (resource.MustParse (config.GetString w "vpn.pod_cpu_request"));
      [|discriminate].
    destruct (resource.MustParse (config.GetString w "vpn.pod_memory_request"));
      [|discriminate].
    destruct (resource.MustParse (config.GetString w "vpn.pod_cpu_limit"));
      [|discriminate].
    destruct (resource.MustParse (config.GetString w "vpn.pod_memory_limit"));
      [|discriminate].
    eauto 10.
Qed.

Lemma pod_resources_Panics (w : World) :
  ¬ valid_quantities w ↔ ∃ v, pod_resources w = Panics v.
Proof.
  rewrite pod_resources_Returns.
  destruct (pod_resources w) as [r|v]; split.
  - intros Hno. destruct Hno. eauto.
  - intros [v [=]].
  - eauto.
  - intros _ [r [=]].
Qed.

(** The settings are checked by running the parser on each. *)
Lemma valid_quantities_check (w : World) :
  valid_quantities w ↔
  forallb (λ key, match resource.MustParse (config.GetString w key) with
                  | Returns _ => true
                  | Panics _ => false
                  end) pod_settings = true.
Proof.
  unfold valid_quantities. rewrite forallb_forall, Forall_forall.
  split; intros Hall key Hkey.
  - apply list_elem_of_In in Hkey. destruct (Hall key Hkey) as [q ->]. reflexivity.
  - apply list_elem_of_In in Hkey. specialize (Hall key Hkey).
    destruct (resource.MustParse (config.GetString w key)) as [q|v]; [eauto | discriminate].
Qed.

#[local] Arguments pod_resources : simpl never.

(** C4, as the code has it.  When the resource settings of the pod are
    quantities and the platform accepts the config map of a new instance and
    refuses its pod, CreateUser answers 500 and stores no record: the
    registry, and with it the set of addresses in use, is what it was.  The
    config map stays on the platform; the attempt makes the two creation
    calls and no other. *)
Theorem CreateUser_pod_refused `{!Curve} (c : Context) (s : Server) (w : World)
    (req : CreateUserRequest) :
  let ns := namespace (vpnManager s) in
  let id := next_id w in
  ShouldBindJSON c = inl req →
  user_exists req (range_users s) = false →
  (48 ≤ length (entropy w))%nat →
  valid_quantities w →
  is_fault (hd Proceed (script (cluster w))) = None →
  configMaps (cluster w) !! (ns, configMap_name id) = None →
  is_Some (is_fault (hd Proceed (tail (script (cluster w)))))
    ∨ is_Some (pods (cluster w) !! (ns, pod_name id)) →
  (CreateUser c s w).1.1 = s
  ∧ (CreateUser c s w).2 =
      c_JSON StatusInternalServerError [("error", JStr "Failed to create VPN")]
  ∧ is_Some (configMaps (cluster (CreateUser c s w).1.2) !! (ns, configMap_name id))
  ∧ pods (cluster (CreateUser c s w).1.2) = pods (cluster w)
  ∧ calls (cluster (CreateUser c s w).1.2) =
      CreatePod ns (pod_name id) :: CreateConfigMap ns (configMap_name id)
        :: calls (cluster w).
Proof.
  intros ns id Hbind Hnew Hent Hq Hcm Hfree Hpod.
  unfold CreateUser. rewrite Hbind, Hnew.
  destruct (NewUser_ok (req_Username req) (req_Email req) w) as (user & -> & Hid & _);
    [lia|].
  unfold CreateUserVPN, generateWireGuardKeys, rand_Read. simpl.
  rewrite decide_True by (rewrite length_drop; lia).
  unfold generateWireGuardConfig, createVPNPod, on_cluster. simpl.
  rewrite Hid. fold id. fold ns. fold (configMap_name id).
  match goal with |- context [ConfigMaps_Create ns ?cm (cluster w)] =>
    rewrite (ConfigMaps_Create_ok ns cm (cluster w) Hcm Hfree) end.
  simpl.
  match goal with |- context [pod_resources ?w'] =>
    rewrite (pod_resources_viper w w' eq_refl) end.
  apply pod_resources_Returns in Hq as [[requests limits] ->].
  simpl. fold (pod_name id).
  match goal with |- context [Pods_Create ns ?pod ?cl] =>
    destruct (Pods_Create_refused ns pod cl) as [err ->]; [exact Hpod|] end.
  simpl. repeat split. rewrite lookup_insert_eq. eauto.
Qed.

(** ** The concrete runs *)

Import Run.

Lemma s1_reachable : reachable s1.
Proof.
  exact (reachable_handle POST_users (post "alice" "alice@x.com") s0 w0
           (reachable_new (NewVPNManager w0))).
Qed.

Lemma s2_reachable : reachable s2.
Proof. exact (reachable_handle POST_users (post "bob" "bob@x.com") s1 w1 s1_reachable). Qed.

(** Both creations succeed. *)
Example alice_and_bob_created :
  status after_alice.2 = StatusCreated ∧ status after_bob.2 = StatusCreated
  ∧ ID <$> range_users s2 = [bob_id; alice_id].
Proof. vm_compute. repeat split. Qed.

(** The record stored for alice, field by field. *)
Example alice_fields :
  (λ u, (ID u, Username u, Email u, Status u, PodName u, PodIP u, PrivateKey u,
         DataUsage u, ConnectionCount u, assignedAddress u))
    <$> users s1 !! alice_id
  = Some (alice_id, "alice", "alice@x.com", "active", pod_name alice_id, "",
          "ERITFBUWFxgZGhscHR4fICEiIyQlJicoKSorLC0uLzA=", 0, 0, Some "10.0.0.37").
Proof. vm_compute. reflexivity. Qed.

(** C1, on the code.  alice and bob are created one after the other on an
    empty server, by a platform that accepts everything.  Both records are
    stored, under distinct identifiers, and the configuration of each
    carries the address 10.0.0.37. *)
Theorem address_collision :
  reachable s2
  ∧ alice_id ≠ bob_id
  ∧ Username <$> users s2 !! alice_id = Some "alice"
  ∧ Username <$> users s2 !! bob_id = Some "bob"
  ∧ assignedAddress <$> users s2 !! alice_id = Some (Some "10.0.0.37")
  ∧ assignedAddress <$> users s2 !! bob_id = Some (Some "10.0.0.37").
Proof.
  split; [exact s2_reachable|]. split; [discriminate|].
  vm_compute. repeat split.
Qed.

Example listed_private_key :
  field "private_key" <$> listed_objects (ListUsers (with_id "") s1 w1).2
    = [Some (JStr "ERITFBUWFxgZGhscHR4fICEiIyQlJicoKSorLC0uLzA=")]
  ∧ PrivateKey <$> users s1 !! alice_id
    = Some "ERITFBUWFxgZGhscHR4fICEiIyQlJicoKSorLC0uLzA=".
Proof. vm_compute. split; reflexivity. Qed.

(** C3, the claim refuted: the list response of the server that holds alice
    shows her private key, the one her configuration carries. *)
Lemma ListUsers_exposes_private_key :
  ¬ hides_private_key (ListUsers (with_id "") s1 w1).2.
Proof.
  intros Hhide.
  assert (HF : Forall (λ o, o = None)
                 (field "private_key" <$> listed_objects (ListUsers (with_id "") s1 w1).2)).
  { apply Forall_fmap, Forall_forall. exact Hhide. }
  rewrite (proj1 listed_private_key) in HF.
  inversion HF as [|? ? Hhd _]. discriminate Hhd.
Qed.

(** C4, the claim refuted: the platform accepts alice's config map and
    refuses her pod; afterwards no record is in status Failed and the
    config map is still there. *)
Lemma CreateUser_failure_leaves_configMap :
  ¬ failed_and_cleaned_up alice_id s0 alice_refused.1.
Proof.
  intros (_ & Hcm & _).
  assert (Hthere : cm_Name <$> configMaps (cluster alice_refused.1.2)
                                !! (namespace (vpnManager alice_refused.1.1),
                                    configMap_name alice_id)
                    = Some (configMap_name alice_id))
    by (vm_compute; reflexivity).
  rewrite Hcm in Hthere. discriminate Hthere.
Qed.

Example alice_refused_run :
  users alice_refused.1.1 = ∅
  ∧ status alice_refused.2 = StatusInternalServerError
  ∧ calls (cluster alice_refused.1.2) =
      [CreatePod "vpnaas" (pod_name alice_id);
       CreateConfigMap "vpnaas" (configMap_name alice_id)]
  ∧ cm_Name <$> configMaps (cluster alice_refused.1.2) !! ("vpnaas", configMap_name alice_id)
      = Some (configMap_name alice_id).
Proof. vm_compute. repeat split. Qed.

(** C5, the claim refuted: the platform cannot be reached when alice is
    deleted; DeleteUserVPN returns the error, and the record is gone and the
    response is 200 all the same. *)
Lemma DeleteUser_ignores_platform_error :
  ((λ user, (DeleteUserVPN (vpnManager s1) user w_unreachable).1) <$> users s1 !! alice_id)
    = Some (Some "failed to delete VPN pod: connection refused")
  ∧ ¬ kept_and_surfaced alice_id alice_deleted.
Proof.
  split; [vm_compute; reflexivity|].
  intros [[u Hu] _].
  assert (Hgone : users alice_deleted.1.1 !! alice_id = None) by (vm_compute; reflexivity).
  congruence.
Qed.

(** ** Witnesses: the theorems at the concrete runs *)

(** C2 at the server that holds alice: a second request for alice. *)
Lemma CreateUser_conflict_witness :
  ShouldBindJSON (post "alice" "alice@x.com")
    = inl {| req_Username := "alice"; req_Email := "alice@x.com" |}
  ∧ CreateUser (post "alice" "alice@x.com") s1 w1 =
      (s1, w1, c_JSON StatusConflict [("error", JStr "User already exists")])
  ∧ size (records_of "alice" "alice@x.com"
            (CreateUser (post "alice" "alice@x.com") s1 w1).1.1) = 1%nat.
Proof.
  assert (Hname : Username <$> users s1 !! alice_id = Some "alice")
    by (vm_compute; reflexivity).
  assert (Hmail : Email <$> users s1 !! alice_id = Some "alice@x.com")
    by (vm_compute; reflexivity).
  assert (Hstored : ∃ k u, stored s1 k u ∧ Username u = "alice" ∧ Email u = "alice@x.com").
  { unfold stored. destruct (users s1 !! alice_id) as [u|] eqn:Hu; [|discriminate Hname].
    exists alice_id, u. split; [exact Hu|].
    split; [now inversion Hname | now inversion Hmail]. }
  destruct (CreateUser_conflict (post "alice" "alice@x.com") s1 w1
              {| req_Username := "alice"; req_Email := "alice@x.com" |}
              eq_refl Hstored) as [Hrun Hone].
  split; [reflexivity|]. split; [exact Hrun|].
  apply Hone.
  exact (reachable_handle POST_users (post "alice" "alice@x.com") s0 w0
           (reachable_new (NewVPNManager w0))).
Defined.

(** C6 at the server that holds alice only: bob's identifier is deleted. *)
Lemma DeleteUser_not_found_witness :
  users s1 !! Param (with_id bob_id) "id" = None
  ∧ DeleteUser (with_id bob_id) s1 w1 =
      (s1, w1, c_JSON StatusNotFound [("error", JStr "User not found")]).
Proof.
  assert (Habsent : users s1 !! Param (with_id bob_id) "id" = None)
    by (vm_compute; reflexivity).
  split; [exact Habsent|].
  exact (DeleteUser_not_found (with_id bob_id) s1 w1 Habsent).
Defined.

(** C10 at a record that has no pod, with a platform that cannot be reached. *)
Lemma DeleteUserVPN_no_pod_witness :
  PodName (record "a" "ann" "active" 1000 3) = ""
  ∧ DeleteUserVPN (vpnManager s1) (record "a" "ann" "active" 1000 3) w_unreachable
      = (None, w_unreachable)
  ∧ calls (cluster (DeleteUserVPN (vpnManager s1) (record "a" "ann" "active" 1000 3)
                      w_unreachable).2)
      = calls (cluster w_unreachable).
Proof.
  split; [reflexivity|].
  exact (DeleteUserVPN_no_pod (vpnManager s1) (record "a" "ann" "active" 1000 3)
           w_unreachable eq_refl).
Defined.

(** C8 at two worlds and two records that share the identifier a. *)
Lemma generateWireGuardConfig_deterministic_witness :
  generateWireGuardConfig w0 (record "a" "ann" "active" 1000 3)
    {| keys_PrivateKey := "ERITFBUWFxgZGhscHR4fICEiIyQlJicoKSorLC0uLzA=";
       keys_PublicKey := "TSe87jE1xJRLKNJ92Amwe+EMNRYNIBMcqn6FV1SY0Hw=" |}
  = generateWireGuardConfig w_unreachable (record "a" "ben" "inactive" 0 0)
    {| keys_PrivateKey := "ERITFBUWFxgZGhscHR4fICEiIyQlJicoKSorLC0uLzA=";
       keys_PublicKey := "TSe87jE1xJRLKNJ92Amwe+EMNRYNIBMcqn6FV1SY0Hw=" |}.
Proof.
  apply generateWireGuardConfig_deterministic.
  - reflexivity.
  - reflexivity.
  - vm_compute; reflexivity.
  - vm_compute; reflexivity.
Defined.

(** C9 at the registry filled by hand. *)
Lemma calculateStats_correct_witness :
  calculateStats sample =
    {| TotalUsers := 4; ActiveUsers := 1; InactiveUsers := 1; SuspendedUsers := 1;
       TotalDataUsage := 1300; TotalConnections := 10 |}
  ∧ GetStats (with_id "") sample w0 =
      (sample, w0,
       c_JSON StatusOK
         [("stats",
           stats_json
             {| TotalUsers := 4; ActiveUsers := 1; InactiveUsers := 1; SuspendedUsers := 1;
                TotalDataUsage := 1300; TotalConnections := 10 |})]).
Proof.
  assert (Hsize : Z.of_nat (size (users sample)) < 2 ^ 63) by (vm_compute; reflexivity).
  assert (Hdata : in_int64 (Zsum DataUsage (range_users sample)))
    by (vm_compute; split; [discriminate | reflexivity]).
  assert (Hconn : in_int64 (Zsum ConnectionCount (range_users sample)))
    by (vm_compute; split; [discriminate | reflexivity]).
  exact (calculateStats_correct (with_id "") sample w0 Hsize Hdata Hconn).
Defined.

(** C5 at the deletion of alice with the platform out of reach. *)
Lemma DeleteUser_removes_entry_witness :
  is_Some (users s1 !! Param (with_id alice_id) "id")
  ∧ users (DeleteUser (with_id alice_id) s1 w_unreachable).1.1
      = delete (Param (with_id alice_id) "id") (users s1)
  ∧ users (DeleteUser (with_id alice_id) s1 w_unreachable).1.1
      !! Param (with_id alice_id) "id" = None
  ∧ (DeleteUser (with_id alice_id) s1 w_unreachable).2
      = c_JSON StatusOK [("message", JStr "User deleted successfully")].
Proof.
  assert (Hname : Username <$> users s1 !! Param (with_id alice_id) "id" = Some "alice")
    by (vm_compute; reflexivity).
  destruct (users s1 !! Param (with_id alice_id) "id") as [u|] eqn:Hu;
    [|discriminate Hname].
  destruct (DeleteUser_removes_entry (with_id alice_id) s1 w_unreachable u Hu)
    as (Hdel & Hgone & Hresp & _).
  split; [eexists; reflexivity|]. split; [exact Hdel|]. split; [exact Hgone | exact Hresp].
Defined.

(** C4 at alice's creation with the pod refused. *)
Lemma CreateUser_pod_refused_witness :
  let c := post "alice" "alice@x.com" in
  let ns := namespace (vpnManager s0) in
  let id := next_id w_pod_refused in
  (CreateUser c s0 w_pod_refused).1.1 = s0
  ∧ (CreateUser c s0 w_pod_refused).2 =
      c_JSON StatusInternalServerError [("error", JStr "Failed to create VPN")]
  ∧ is_Some (configMaps (cluster (CreateUser c s0 w_pod_refused).1.2)
               !! (ns, configMap_name id))
  ∧ pods (cluster (CreateUser c s0 w_pod_refused).1.2) = pods (cluster w_pod_refused)
  ∧ calls (cluster (CreateUser c s0 w_pod_refused).1.2) =
      CreatePod ns (pod_name id) :: CreateConfigMap ns (configMap_name id)
        :: calls (cluster w_pod_refused).
Proof.
  assert (Hnew : user_exists {| req_Username := "alice"; req_Email := "alice@x.com" |}
                   (range_users s0) = false) by (vm_compute; reflexivity).
  assert (Hent : (48 ≤ length (entropy w_pod_refused))%nat) by (vm_compute; lia).
  assert (Hfree : configMaps (cluster w_pod_refused)
                    !! (namespace (vpnManager s0), configMap_name (next_id w_pod_refused))
                  = None) by (vm_compute; reflexivity).
  assert (Hpod : is_Some (is_fault (hd Proceed (tail (script (cluster w_pod_refused)))))
                 ∨ is_Some (pods (cluster w_pod_refused)
                              !! (namespace (vpnManager s0),
                                  pod_name (next_id w_pod_refused))))
    by (left; vm_compute; eexists; reflexivity).
  assert (Hq : valid_quantities w_pod_refused)
    by (apply valid_quantities_check; vm_compute; reflexivity).
  exact (CreateUser_pod_refused (post "alice" "alice@x.com") s0 w_pod_refused
           {| req_Username := "alice"; req_Email := "alice@x.com" |}
           eq_refl Hnew Hent Hq eq_refl Hfree Hpod).
Defined.

(** ** Further runs *)

(** Without enough random bytes there are no keys. *)
Example generateWireGuardKeys_starved :
  (generateWireGuardKeys (set_entropy (bytes_from 1 31) w0)).1 = inr "unexpected EOF".
Proof. vm_compute. reflexivity. Qed.

(** Beyond the 64-bit range the counters wrap around. *)
Example calculateStats_wraps :
  Zsum DataUsage (range_users heavy) = 2 ^ 63
  ∧ TotalDataUsage (calculateStats heavy) = - 2 ^ 63.
Proof. vm_compute. split; reflexivity. Qed.

(** GetUser reconciles the status with the phase of the pod. *)
Example GetUser_reconciles :
  Status <$> users (GetUser (with_id alice_id) s1 w1).1.1 !! alice_id = Some "Running".
Proof. vm_compute. reflexivity. Qed.

(** The pod that never runs is polled five times. *)
Example waitForPodReady_budget :
  let r := CreateUser (post "alice" "alice@x.com") s0
             (with_script [Proceed; Proceed] w0) in
  status r.2 = StatusInternalServerError
  ∧ length (List.filter is_GetPod (calls (cluster r.1.2))) = 5%nat.
Proof. vm_compute. split; reflexivity. Qed.

(** * Further properties of the code *)

#[local] Arguments fmt.Sprintf : simpl never.

(** ** The registry *)

(** X1.  In every reachable server each record is stored under its own
    identifier, an identifier has 36 characters, and no two records share a
    username or an email. *)
Theorem registry_invariant `{!Curve} (s : Server) :
  reachable s →
  (∀ k u, stored s k u → ID u = k ∧ String.length k = 36%nat)
  ∧ (∀ k1 k2 u1 u2, stored s k1 u1 → stored s k2 u2 →
       Username u1 = Username u2 ∨ Email u1 = Email u2 → k1 = k2).
Proof.
  intros [Hwf Huniq]%reachable_Inv. split; [|exact Huniq].
  intros k u Hk. destruct (Hwf k u Hk) as (Hid & Hlen & _). subst k. done.
Qed.

(** ** Creation *)

Lemma ConfigMaps_Create_refused ns cm cl :
  is_Some (is_fault (hd Proceed (script cl))) ∨ is_Some (configMaps cl !! (ns, cm_Name cm)) →
  ∃ err, ConfigMaps_Create ns cm cl =
    (Some err, {| configMaps := configMaps cl; pods := pods cl;
                  script := tail (script cl);
                  calls := CreateConfigMap ns (cm_Name cm) :: calls cl |}).
Proof.
  intros Href. unfold ConfigMaps_Create, begin_call.
  destruct (is_fault (hd Proceed (script cl))) as [msg|]; [eauto|]. simpl.
  destruct Href as [[? [=]]|[p Hp]]. rewrite Hp. eauto.
Qed.

Section Creation.

Context `{!Curve}.

(** X2.  A create request that binds is answered 409 exactly when a stored
    record has its username or its email, either of them; the server and
    the world are then unchanged. *)
Theorem CreateUser_409_exactly (c : Context) (s : Server) (w : World)
    (req : CreateUserRequest) :
  ShouldBindJSON c = inl req →
  (status (CreateUser c s w).2 = StatusConflict ↔
   ∃ k u, stored s k u ∧ (Username u = req_Username req ∨ Email u = req_Email req))
  ∧ (status (CreateUser c s w).2 = StatusConflict →
     (CreateUser c s w).1 = (s, w)).
Proof.
  intros Hbind. unfold CreateUser. rewrite Hbind.
  destruct (user_exists req (range_users s)) eqn:Hex.
  - split; [|done]. split; [intros _|done].
    apply user_exists_true in Hex as (u & [k Hk]%elem_of_range_users & Hm). eauto.
  - assert (Hnone : ¬ ∃ k u, stored s k u
                      ∧ (Username u = req_Username req ∨ Email u = req_Email req)).
    { intros (k & u & Hk & Hm).
      pose proof (proj1 (user_exists_false req _) Hex u) as Hu.
      destruct Hu as [? ?]; [apply elem_of_range_users; eauto | tauto]. }
    destruct (NewUser _ _ w) as [[user w1]|]; simpl.
    + destruct (CreateUserVPN _ user w1) as [[user' [[e|]|v]] w2]; simpl;
        (split; [split; [discriminate | tauto] | discriminate]).
    + split; [split; [discriminate | tauto] | discriminate].
Qed.

(** X3.  CreateUser answers 201, 400, 409 or 500.  Unless it answers 201
    the registry is what it was; with 201 exactly one record is written, under
    the identifier drawn for it, with the name and email of the request, and
    the response carries this record. *)
Theorem CreateUser_registry (c : Context) (s : Server) (w : World) :
  (status (CreateUser c s w).2 ∈
     [StatusCreated; StatusBadRequest; StatusConflict; StatusInternalServerError])
  ∧ (status (CreateUser c s w).2 ≠ StatusCreated → (CreateUser c s w).1.1 = s)
  ∧ (status (CreateUser c s w).2 = StatusCreated →
     ∃ req user,
       ShouldBindJSON c = inl req
       ∧ ID user = next_id w
       ∧ Username user = req_Username req ∧ Email user = req_Email req
       ∧ users (CreateUser c s w).1.1 = <[ID user := user]> (users s)
       ∧ vpnManager (CreateUser c s w).1.1 = vpnManager s
       ∧ (CreateUser c s w).2 =
           c_JSON StatusCreated
             [("message", JStr "User created successfully"); ("user", user_json user)]).
Proof.
  unfold CreateUser.
  destruct (ShouldBindJSON c) as [req|e] eqn:Hbind; simpl.
  2:{ split; [set_solver|]. split; [done | discriminate]. }
  destruct (user_exists req (range_users s)); simpl.
  { split; [set_solver|]. split; [done | discriminate]. }
  destruct (NewUser _ _ w) as [[user w1]|] eqn:Hnew; simpl.
  2:{ split; [set_solver|]. split; [done | discriminate]. }
  apply NewUser_Some in Hnew as (Hid & _ & Hname & Hmail & _).
  destruct (CreateUserVPN _ user w1) as [[user' [[e|]|v]] w2] eqn:Hvpn; simpl.
  { split; [set_solver|]. split; [done | discriminate]. }
  2:{ split; [set_solver|]. split; [done | discriminate]. }
  apply CreateUserVPN_ok in Hvpn as (Hid' & Hname' & Hmail' & _).
  split; [set_solver|]. split; [done|]. intros _.
  exists req, user'. repeat split; congruence.
Qed.

(** X4.  When the random source holds fewer than the 48 bytes a creation
    draws (16 for the identifier, 32 for the key), CreateUser answers 500,
    stores nothing and makes no call to the platform. *)
Theorem CreateUser_entropy_exhausted (c : Context) (s : Server) (w : World)
    (req : CreateUserRequest) :
  ShouldBindJSON c = inl req →
  user_exists req (range_users s) = false →
  (length (entropy w) < 48)%nat →
  status (CreateUser c s w).2 = StatusInternalServerError
  ∧ (CreateUser c s w).1.1 = s
  ∧ cluster (CreateUser c s w).1.2 = cluster w.
Proof.
  intros Hbind Hnew Hlen. unfold CreateUser. rewrite Hbind, Hnew.
  unfold NewUser, uuid_New, rand_Read.
  case_decide as H16; simpl; [|done].
  unfold CreateUserVPN, generateWireGuardKeys, rand_Read. simpl.
  rewrite decide_False by (rewrite length_drop; lia). simpl. done.
Qed.

(** X5.  When the platform refuses the config map of a new instance,
    CreateUser answers 500 and stores nothing; the platform holds no new
    resource, and the pod is not even requested. *)
Theorem CreateUser_configMap_refused (c : Context) (s : Server) (w : World)
    (req : CreateUserRequest) :
  let ns := namespace (vpnManager s) in
  let id := next_id w in
  ShouldBindJSON c = inl req →
  user_exists req (range_users s) = false →
  (48 ≤ length (entropy w))%nat →
  is_Some (is_fault (hd Proceed (script (cluster w))))
    ∨ is_Some (configMaps (cluster w) !! (ns, configMap_name id)) →
  status (CreateUser c s w).2 = StatusInternalServerError
  ∧ (CreateUser c s w).1.1 = s
  ∧ configMaps (cluster (CreateUser c s w).1.2) = configMaps (cluster w)
  ∧ pods (cluster (CreateUser c s w).1.2) = pods (cluster w)
  ∧ calls (cluster (CreateUser c s w).1.2) =
      CreateConfigMap ns (configMap_name id) :: calls (cluster w).
Proof.
  intros ns id Hbind Hnew Hent Href.
  unfold CreateUser. rewrite Hbind, Hnew.
  destruct (NewUser_ok (req_Username req) (req_Email req) w) as (user & -> & Hid & _);
    [lia|].
  unfold CreateUserVPN, generateWireGuardKeys, rand_Read. simpl.
  rewrite decide_True by (rewrite length_drop; lia).
  unfold generateWireGuardConfig, createVPNPod, on_cluster. simpl.
  rewrite Hid. fold id. fold ns. fold (configMap_name id).
  match goal with |- context [ConfigMaps_Create ns ?cm (cluster w)] =>
    destruct (ConfigMaps_Create_refused ns cm (cluster w) Href) as [err ->] end.
  simpl. done.
Qed.

End Creation.

(** ** The platform calls, one by one *)

Lemma same_elsewhere_refl ns cl : same_elsewhere ns cl cl.
Proof. intros ns' name _. done. Qed.

Lemma same_elsewhere_trans ns cl1 cl2 cl3 :
  same_elsewhere ns cl1 cl2 → same_elsewhere ns cl2 cl3 → same_elsewhere ns cl1 cl3.
Proof.
  intros H12 H23 ns' name Hne.
  destruct (H12 ns' name Hne) as [E1 E2]. destruct (H23 ns' name Hne) as [F1 F2].
  split; congruence.
Qed.

Lemma ConfigMaps_Create_effect ns cm cl :
  pods (ConfigMaps_Create ns cm cl).2 = pods cl
  ∧ calls (ConfigMaps_Create ns cm cl).2 = CreateConfigMap ns (cm_Name cm) :: calls cl
  ∧ script (ConfigMaps_Create ns cm cl).2 = tail (script cl)
  ∧ same_elsewhere ns cl (ConfigMaps_Create ns cm cl).2
  ∧ match (ConfigMaps_Create ns cm cl).1 with
    | None => configMaps (ConfigMaps_Create ns cm cl).2 = <[(ns, cm_Name cm) := cm]> (configMaps cl)
    | Some _ => configMaps (ConfigMaps_Create ns cm cl).2 = configMaps cl
    end.
Proof.
  unfold ConfigMaps_Create, begin_call.
  destruct (is_fault _); simpl.
  { split_and!; done. }
  destruct (configMaps cl !! _) eqn:Hl; simpl.
  { split_and!; done. }
  split_and!; try done.
  intros ns' name Hne. simpl. split; [done|].
  apply lookup_insert_ne. congruence.
Qed.

Lemma Pods_Create_effect ns pod cl :
  configMaps (Pods_Create ns pod cl).2 = configMaps cl
  ∧ calls (Pods_Create ns pod cl).2 = CreatePod ns (pod_Name pod) :: calls cl
  ∧ script (Pods_Create ns pod cl).2 = tail (script cl)
  ∧ same_elsewhere ns cl (Pods_Create ns pod cl).2
  ∧ match (Pods_Create ns pod cl).1 with
    | inl created =>
        created = set_status PodPending "" pod
        ∧ pods cl !! (ns, pod_Name pod) = None
        ∧ pods (Pods_Create ns pod cl).2 = <[(ns, pod_Name pod) := created]> (pods cl)
    | inr _ => pods (Pods_Create ns pod cl).2 = pods cl
    end.
Proof.
  unfold Pods_Create, begin_call.
  destruct (is_fault _); simpl.
  { split_and!; done. }
  destruct (pods cl !! _) eqn:Hl; simpl.
  { split_and!; done. }
  split_and!; try done.
  intros ns' name Hne. simpl. split; [|done].
  apply lookup_insert_ne. congruence.
Qed.

Lemma Pods_Get_effect ns name cl :
  configMaps (Pods_Get ns name cl).2 = configMaps cl
  ∧ calls (Pods_Get ns name cl).2 = GetPod ns name :: calls cl
  ∧ script (Pods_Get ns name cl).2 = tail (script cl)
  ∧ same_elsewhere ns cl (Pods_Get ns name cl).2
  ∧ dom (pods (Pods_Get ns name cl).2) = dom (pods cl)
  ∧ match (Pods_Get ns name cl).1 with
    | inl pod => pods (Pods_Get ns name cl).2 !! (ns, name) = Some pod
    | inr _ => pods (Pods_Get ns name cl).2 = pods cl
    end.
Proof.
  unfold Pods_Get, begin_call.
  destruct (is_fault _) eqn:Hf; simpl.
  { split_and!; done. }
  destruct (pods cl !! (ns, name)) as [pod|] eqn:Hl; simpl.
  2:{ split_and!; done. }
  destruct (hd Proceed (script cl)) as [|msg|phase ip]; simpl; try (split_and!; done).
  split_and!; try done.
  - intros ns' name' Hne. simpl. split; [|done].
    apply lookup_insert_ne. congruence.
  - apply dom_insert_lookup_L. eauto.
  - apply lookup_insert_eq.
Qed.

Lemma Pods_Delete_effect ns name cl :
  configMaps (Pods_Delete ns name cl).2 = configMaps cl
  ∧ calls (Pods_Delete ns name cl).2 = DeletePod ns name :: calls cl
  ∧ script (Pods_Delete ns name cl).2 = tail (script cl)
  ∧ same_elsewhere ns cl (Pods_Delete ns name cl).2
  ∧ match (Pods_Delete ns name cl).1 with
    | None => pods (Pods_Delete ns name cl).2 = delete (ns, name) (pods cl)
              ∧ is_Some (pods cl !! (ns, name))
    | Some _ => pods (Pods_Delete ns name cl).2 = pods cl
    end.
Proof.
  unfold Pods_Delete, begin_call.
  destruct (is_fault _); simpl.
  { split_and!; done. }
  destruct (pods cl !! (ns, name)) as [pod|] eqn:Hl; simpl.
  2:{ split_and!; done. }
  split_and!; try done; eauto.
  intros ns' name' Hne. simpl. split; [|done].
  apply lookup_delete_ne. congruence.
Qed.

(** ** Waiting for the pod *)

Lemma waitForPodReady_poll vm podName w :
  waitForPodReady vm podName w = retry_OnError DefaultRetry_Steps (poll vm podName) None w.
Proof. reflexivity. Qed.

Lemma poll_effect vm name w :
  entropy (poll vm name w).2 = entropy w
  ∧ logs (poll vm name w).2 = logs w
  ∧ viper (poll vm name w).2 = viper w
  ∧ clock (poll vm name w).2 = clock w
  ∧ configMaps (cluster (poll vm name w).2) = configMaps (cluster w)
  ∧ calls (cluster (poll vm name w).2) = GetPod (namespace vm) name :: calls (cluster w)
  ∧ same_elsewhere (namespace vm) (cluster w) (cluster (poll vm name w).2)
  ∧ dom (pods (cluster (poll vm name w).2)) = dom (pods (cluster w))
  ∧ ((poll vm name w).1 = None →
     ∃ pod, pods (cluster (poll vm name w).2) !! (namespace vm, name) = Some pod
            ∧ pod_Phase pod = PodRunning).
Proof.
  unfold poll, on_cluster.
  pose proof (Pods_Get_effect (namespace vm) name (cluster w)) as (Hcm & Hcalls & _ & Hns & Hdom & Hres).
  destruct (Pods_Get (namespace vm) name (cluster w)) as [[pod|err] cl'] eqn:Hget;
    simpl in *.
  - destruct (String.eqb (pod_Phase pod) PodRunning) eqn:Hph; simpl;
      split_and!; try done.
    intros _. exists pod. split; [done|]. now apply String.eqb_eq.
  - split_and!; done.
Qed.

Lemma retry_OnError_effect vm name n last w :
  entropy (retry_OnError n (poll vm name) last w).2 = entropy w
  ∧ logs (retry_OnError n (poll vm name) last w).2 = logs w
  ∧ viper (retry_OnError n (poll vm name) last w).2 = viper w
  ∧ clock (retry_OnError n (poll vm name) last w).2 = clock w
  ∧ configMaps (cluster (retry_OnError n (poll vm name) last w).2) = configMaps (cluster w)
  ∧ same_elsewhere (namespace vm) (cluster w)
      (cluster (retry_OnError n (poll vm name) last w).2)
  ∧ dom (pods (cluster (retry_OnError n (poll vm name) last w).2)) = dom (pods (cluster w))
  ∧ (∃ k, (k ≤ n)%nat ∧ (n ≠ O → k ≠ O)
          ∧ calls (cluster (retry_OnError n (poll vm name) last w).2)
            = (replicate k (GetPod (namespace vm) name) ++ calls (cluster w))%list)
  ∧ ((retry_OnError n (poll vm name) last w).1 = None →
     (n = O ∧ last = None)
     ∨ ∃ pod, pods (cluster (retry_OnError n (poll vm name) last w).2) !! (namespace vm, name)
                = Some pod
              ∧ pod_Phase pod = PodRunning).
Proof.
  revert last w. induction n as [|n IH]; intros last w; simpl.
  { split_and!; try done; try apply same_elsewhere_refl;
      try (exists O; done); try (intros ->; now left). }
  pose proof (poll_effect vm name w) as (He & Hl & Hv & Hc & Hcm & Hcalls & Hns & Hdom & Hrun).
  destruct (poll vm name w) as [[err|] w'] eqn:Hp; simpl in *.
  - destruct (IH (Some err) w') as (He' & Hl' & Hv' & Hc' & Hcm' & Hns' & Hdom' & (k & Hk & _ & Hcalls') & Hrun').
    split_and!; try congruence; try (eapply same_elsewhere_trans; eassumption).
    + exists (S k). split; [lia|]. split; [done|].
      rewrite Hcalls', Hcalls. simpl. clear.
      induction k as [|k IHk]; simpl; [done | now rewrite IHk].
    + intros Hnone. right. destruct (Hrun' Hnone) as [[_ [=]]|Hpod]. exact Hpod.
  - split_and!; try done; try (intros _; right; now apply Hrun).
    exists 1%nat. split; [lia|]. split; [done|]. rewrite Hcalls. done.
Qed.

Lemma existsb_take_S {A} (f : A → bool) (d : A) (n : nat) (l : list A) :
  f d = false →
  existsb f (take (S n) l) = f (hd d l) || existsb f (take n (tail l)).
Proof. intros Hd. destruct l as [|x l]; simpl; [now rewrite Hd, take_nil | done]. Qed.

Lemma poll_waiting vm name w :
  waiting vm name w →
  script (cluster (poll vm name w).2) = tail (script (cluster w))
  ∧ if reports_running (hd Proceed (script (cluster w)))
    then (poll vm name w).1 = None
    else is_Some (poll vm name w).1 ∧ waiting vm name (poll vm name w).2.
Proof.
  intros (pod & Hpod & Hph). unfold poll, on_cluster, Pods_Get, begin_call. simpl.
  destruct (hd Proceed (script (cluster w))) as [|msg|phase ip] eqn:Ho; simpl.
  - rewrite Hpod. simpl. apply String.eqb_neq in Hph. rewrite Hph. simpl.
    split; [done|]. split; [eauto|]. exists pod. split; [done|].
    now apply String.eqb_neq.
  - split; [done|]. split; [eauto|]. exists pod. done.
  - rewrite Hpod. simpl. destruct (String.eqb phase PodRunning) eqn:He; simpl.
    + done.
    + split; [done|]. split; [eauto|]. eexists. split; [apply lookup_insert_eq|].
      simpl. now apply String.eqb_neq.
Qed.

Lemma retry_waiting vm name n last w :
  waiting vm name w →
  if existsb reports_running (take n (script (cluster w)))
  then (retry_OnError n (poll vm name) last w).1 = None
  else ((n ≠ O ∨ is_Some last) → is_Some (retry_OnError n (poll vm name) last w).1)
       ∧ waiting vm name (retry_OnError n (poll vm name) last w).2
       ∧ calls (cluster (retry_OnError n (poll vm name) last w).2)
         = (replicate n (GetPod (namespace vm) name) ++ calls (cluster w))%list.
Proof.
  revert last w. induction n as [|n IH]; intros last w Hw.
  { simpl. split_and!; [intros [[]|]; done | done | done]. }
  rewrite (existsb_take_S reports_running Proceed) by done.
  destruct (poll_waiting vm name w Hw) as [Hscript Hpoll].
  pose proof (poll_effect vm name w) as (_ & _ & _ & _ & _ & Hcalls & _).
  simpl. destruct (poll vm name w) as [[err|] w'] eqn:Hp; simpl in *.
  - destruct (reports_running (hd Proceed (script (cluster w)))); [discriminate|].
    simpl. destruct Hpoll as [_ Hw'].
    specialize (IH (Some err) w' Hw'). rewrite Hscript in IH.
    destruct (existsb reports_running (take n (tail (script (cluster w))))); [done|].
    destruct IH as (Herr & Hw'' & Hcalls'). split_and!; [eauto | done |].
    rewrite Hcalls', Hcalls. clear.
    induction n as [|n IHn]; simpl; [done | now rewrite IHn].
  - destruct (reports_running (hd Proceed (script (cluster w)))); [done|].
    destruct Hpoll as [[? [=]] _].
Qed.

(** X6.  waitForPodReady polls the pod at least once and at most five
    times and does nothing else: the config maps and the set of pods are what
    they were.  It returns nil only when its last poll found the pod in
    phase Running. *)
Theorem waitForPodReady_bounded (vm : VPNManager) (podName : string) (w : World) :
  (∃ k, (1 ≤ k ≤ 5)%nat
        ∧ calls (cluster (waitForPodReady vm podName w).2)
          = (replicate k (GetPod (namespace vm) podName) ++ calls (cluster w))%list)
  ∧ configMaps (cluster (waitForPodReady vm podName w).2) = configMaps (cluster w)
  ∧ dom (pods (cluster (waitForPodReady vm podName w).2)) = dom (pods (cluster w))
  ∧ ((waitForPodReady vm podName w).1 = None →
     ∃ pod, pods (cluster (waitForPodReady vm podName w).2) !! (namespace vm, podName)
              = Some pod
            ∧ pod_Phase pod = PodRunning).
Proof.
  rewrite waitForPodReady_poll.
  destruct (retry_OnError_effect vm podName DefaultRetry_Steps None w)
    as (_ & _ & _ & _ & Hcm & _ & Hdom & (k & Hk & Hk0 & Hcalls) & Hrun).
  split; [|split; [exact Hcm | split; [exact Hdom|]]].
  - exists k. split; [|exact Hcalls]. unfold DefaultRetry_Steps in *.
    assert (k ≠ O) by (apply Hk0; discriminate). lia.
  - intros Hnone. destruct (Hrun Hnone) as [[[=] _]|Hpod]. exact Hpod.
Qed.

(** ** What a creation leaves on the platform *)

#[local] Arguments retry_OnError : simpl never.

Section Provisioned.

Context `{!Curve}.

Lemma createVPNPod_effect vm user w :
  entropy (createVPNPod vm user w).2 = entropy w
  ∧ logs (createVPNPod vm user w).2 = logs w
  ∧ same_elsewhere (namespace vm) (cluster w) (cluster (createVPNPod vm user w).2)
  ∧ match (createVPNPod vm user w).1 with
    | Returns (inl pod) =>
        pod_Name pod = pod_name (ID user)
        ∧ pod_PodIP pod = ""
        ∧ (∃ cm, configMaps (cluster (createVPNPod vm user w).2)
                   !! (namespace vm, configMap_name (ID user)) = Some cm
                 ∧ cm_Data cm = [("wg0.conf", ConfigData user)])
        ∧ (∃ running, pods (cluster (createVPNPod vm user w).2)
                        !! (namespace vm, pod_name (ID user)) = Some running
                      ∧ pod_Phase running = PodRunning)
        ∧ configMaps (cluster w) !! (namespace vm, configMap_name (ID user)) = None
        ∧ pods (cluster w) !! (namespace vm, pod_name (ID user)) = None
    | _ => True
    end.
Proof.
  unfold createVPNPod, on_cluster.
  fold (configMap_name (ID user)). fold (pod_name (ID user)).
  match goal with |- context [ConfigMaps_Create (namespace vm) ?cm (cluster w)] =>
    pose proof (ConfigMaps_Create_effect (namespace vm) cm (cluster w))
      as (Hp1 & _ & _ & Hns1 & Hres1);
    destruct (ConfigMaps_Create (namespace vm) cm (cluster w)) as [[e|] cl1] eqn:Hcm
  end; simpl in *.
  { split_and!; done. }
  destruct (pod_resources _) as [[requests limits]|v]; simpl in *.
  2:{ split_and!; done. }
  match goal with |- context [Pods_Create (namespace vm) ?pod cl1] =>
    pose proof (Pods_Create_effect (namespace vm) pod cl1)
      as (Hc2 & _ & _ & Hns2 & Hres2);
    destruct (Pods_Create (namespace vm) pod cl1) as [[created|e] cl2] eqn:Hpod
  end; simpl in *.
  2:{ split_and!; try done. eapply same_elsewhere_trans; eassumption. }
  destruct Hres2 as (-> & Hfree & Hp2). simpl.
  rewrite waitForPodReady_poll.
  match goal with |- context [retry_OnError ?n (poll vm ?name) None ?w2] =>
    pose proof (retry_OnError_effect vm name n None w2)
      as (He & Hl & _ & _ & Hcm3 & Hns3 & _ & _ & Hrun);
    destruct (retry_OnError n (poll vm name) None w2) as [[e|] w3]
  end; simpl in *.
  { split_and!; try done.
    eapply same_elsewhere_trans; [|exact Hns3].
    eapply same_elsewhere_trans; eassumption. }
  split_and!; try done.
  - eapply same_elsewhere_trans; [|exact Hns3].
    eapply same_elsewhere_trans; eassumption.
  - rewrite Hcm3, Hc2, Hres1, lookup_insert_eq. eauto.
  - destruct (Hrun eq_refl) as [[[=] _]|Hpod']. exact Hpod'.
  - unfold ConfigMaps_Create, begin_call in Hcm.
    destruct (is_fault _); [discriminate|]. simpl in Hcm.
    destruct (configMaps (cluster w) !! _) eqn:Hl0; [discriminate | done].
  - congruence.
Qed.

Lemma CreateUser_201_facts (c : Context) (s : Server) (w : World) :
  status (CreateUser c s w).2 = StatusCreated →
  ∃ user,
    users (CreateUser c s w).1.1 = <[next_id w := user]> (users s)
    ∧ vpnManager (CreateUser c s w).1.1 = vpnManager s
    ∧ (CreateUser c s w).2 =
        c_JSON StatusCreated
          [("message", JStr "User created successfully"); ("user", user_json user)]
    ∧ ID user = next_id w
    ∧ Status user = "active" ∧ DataUsage user = 0 ∧ ConnectionCount user = 0
    ∧ PodName user = pod_name (next_id w) ∧ PodIP user = ""
    ∧ (∃ cm, configMaps (cluster (CreateUser c s w).1.2)
               !! (namespace (vpnManager s), configMap_name (next_id w)) = Some cm
             ∧ cm_Data cm = [("wg0.conf", ConfigData user)])
    ∧ (∃ pod, pods (cluster (CreateUser c s w).1.2)
                !! (namespace (vpnManager s), PodName user) = Some pod
              ∧ pod_Phase pod = PodRunning)
    ∧ configMaps (cluster w) !! (namespace (vpnManager s), configMap_name (next_id w)) = None
    ∧ pods (cluster w) !! (namespace (vpnManager s), pod_name (next_id w)) = None.
Proof.
  unfold CreateUser.
  destruct (ShouldBindJSON c) as [req|e]; [|discriminate].
  destruct (user_exists req (range_users s)); [discriminate|].
  destruct (NewUser _ _ w) as [[user w1]|] eqn:Hnew; [|discriminate].
  apply NewUser_Some in Hnew as (Hid & _ & _ & _ & Hst & Hdu & Hcc & ->).
  unfold CreateUserVPN.
  destruct (generateWireGuardKeys _) as [[keys|e] w2] eqn:Hk; [|discriminate].
  apply generateWireGuardKeys_ok in Hk as (_ & _ & _ & ->).
  unfold generateWireGuardConfig.
  match goal with |- context [createVPNPod ?vm ?u ?w0] =>
    pose proof (createVPNPod_effect vm u w0) as (_ & _ & _ & Hres);
    destruct (createVPNPod vm u w0) as [[[pod|e]|v] w3]
  end; [|discriminate..].
  simpl in Hres. destruct Hres as (Hpn & Hip & Hcm & Hrun & Hfree1 & Hfree2).
  intros _. simpl. rewrite <-Hid.
  eexists. split; [reflexivity|]. simpl.
  rewrite Hpn, Hip. split_and!; done.
Qed.

(** X7.  After a 201 the platform holds what the record says: a config map
    named after the identifier whose wg0.conf is the configuration text of
    the stored record, and a pod named as the record's PodName, in phase
    Running at the moment CreateUser returns.  Neither existed before.  The
    record is active, has no traffic, and has no pod address. *)
Theorem CreateUser_provisions (c : Context) (s : Server) (w : World) :
  status (CreateUser c s w).2 = StatusCreated →
  let ns := namespace (vpnManager s) in
  let id := next_id w in
  ∃ user,
    stored (CreateUser c s w).1.1 id user
    ∧ ID user = id
    ∧ Status user = "active" ∧ DataUsage user = 0 ∧ ConnectionCount user = 0
    ∧ PodName user = pod_name id ∧ PodIP user = ""
    ∧ (∃ cm, configMaps (cluster (CreateUser c s w).1.2) !! (ns, configMap_name id) = Some cm
             ∧ cm_Data cm = [("wg0.conf", ConfigData user)])
    ∧ (∃ pod, pods (cluster (CreateUser c s w).1.2) !! (ns, PodName user) = Some pod
              ∧ pod_Phase pod = PodRunning)
    ∧ configMaps (cluster w) !! (ns, configMap_name id) = None
    ∧ pods (cluster w) !! (ns, pod_name id) = None.
Proof.
  intros Hcreated ns id.
  destruct (CreateUser_201_facts c s w Hcreated)
    as (user & Husers & _ & _ & Hrest).
  exists user. split; [|exact Hrest].
  unfold stored. rewrite Husers. apply lookup_insert_eq.
Qed.

End Provisioned.

(** ** The readiness wait decides the creation *)

Section Readiness.

Context `{!Curve}.

(** What the two creation calls leave for the wait, when the platform
    accepts both, and how the wait decides the response. *)
Lemma CreateUser_accepted (c : Context) (s : Server) (w : World) (req : CreateUserRequest) :
  let ns := namespace (vpnManager s) in
  let id := next_id w in
  ShouldBindJSON c = inl req →
  user_exists req (range_users s) = false →
  (48 ≤ length (entropy w))%nat →
  valid_quantities w →
  is_fault (hd Proceed (script (cluster w))) = None →
  configMaps (cluster w) !! (ns, configMap_name id) = None →
  is_fault (hd Proceed (tail (script (cluster w)))) = None →
  pods (cluster w) !! (ns, pod_name id) = None →
  ∃ w2,
    waiting (vpnManager s) (pod_name id) w2
    ∧ script (cluster w2) = tail (tail (script (cluster w)))
    ∧ calls (cluster w2) = CreatePod ns (pod_name id) :: CreateConfigMap ns (configMap_name id)
                             :: calls (cluster w)
    ∧ is_Some (configMaps (cluster w2) !! (ns, configMap_name id))
    ∧ cluster (CreateUser c s w).1.2
      = cluster (retry_OnError DefaultRetry_Steps (poll (vpnManager s) (pod_name id)) None w2).2
    ∧ match (retry_OnError DefaultRetry_Steps (poll (vpnManager s) (pod_name id)) None w2).1 with
      | Some _ =>
          (CreateUser c s w).2 =
            c_JSON StatusInternalServerError [("error", JStr "Failed to create VPN")]
          ∧ (CreateUser c s w).1.1 = s
      | None => status (CreateUser c s w).2 = StatusCreated
      end.
Proof.
  intros ns id Hbind Hnew Hent Hq Hcm Hfree Hpodok Hpodfree.
  unfold CreateUser. rewrite Hbind, Hnew.
  destruct (NewUser_ok (req_Username req) (req_Email req) w) as (user & -> & Hid & Hname);
    [lia|].
  unfold CreateUserVPN, generateWireGuardKeys, rand_Read. simpl.
  rewrite decide_True by (rewrite length_drop; lia).
  unfold generateWireGuardConfig, createVPNPod, on_cluster. simpl.
  rewrite Hid. fold id. fold ns. fold (configMap_name id). fold (pod_name id).
  match goal with |- context [ConfigMaps_Create ns ?cm (cluster w)] =>
    rewrite (ConfigMaps_Create_ok ns cm (cluster w) Hcm Hfree) end.
  simpl.
  match goal with |- context [pod_resources ?w'] =>
    rewrite (pod_resources_viper w w' eq_refl) end.
  apply pod_resources_Returns in Hq as [[requests limits] ->].
  simpl.
  unfold Pods_Create, begin_call. simpl. rewrite Hpodok, Hpodfree. simpl.
  rewrite waitForPodReady_poll.
  match goal with |- context [retry_OnError _ _ None ?w2] => exists w2 end.
  simpl. split_and!; try done.
  - eexists. split; [apply lookup_insert_eq|]. discriminate.
  - rewrite lookup_insert_eq. eauto.
  - match goal with |- context [retry_OnError ?n ?f None ?w2] =>
      destruct (retry_OnError n f None w2) as [[err|] w3] end; reflexivity.
  - match goal with |- context [retry_OnError ?n ?f None ?w2] =>
      destruct (retry_OnError n f None w2) as [[err|] w3] end; simpl; done.
Qed.

(** When a resource setting is no quantity the pod literal is never built:
    the panic leaves the config map behind and the router answers for the
    handler. *)
Lemma CreateUser_quantity_panics (c : Context) (s : Server) (w : World)
    (req : CreateUserRequest) :
  let ns := namespace (vpnManager s) in
  let id := next_id w in
  ShouldBindJSON c = inl req →
  user_exists req (range_users s) = false →
  (48 ≤ length (entropy w))%nat →
  is_fault (hd Proceed (script (cluster w))) = None →
  configMaps (cluster w) !! (ns, configMap_name id) = None →
  ¬ valid_quantities w →
  (CreateUser c s w).2
    = {| status := StatusInternalServerError; headers := []; body := NoBody |}
  ∧ (CreateUser c s w).1.1 = s
  ∧ is_Some (configMaps (cluster (CreateUser c s w).1.2) !! (ns, configMap_name id))
  ∧ pods (cluster (CreateUser c s w).1.2) = pods (cluster w)
  ∧ calls (cluster (CreateUser c s w).1.2)
    = CreateConfigMap ns (configMap_name id) :: calls (cluster w).
Proof.
  intros ns id Hbind Hnew Hent Hcm Hfree Hq.
  unfold CreateUser. rewrite Hbind, Hnew.
  destruct (NewUser_ok (req_Username req) (req_Email req) w) as (user & -> & Hid & Hname);
    [lia|].
  unfold CreateUserVPN, generateWireGuardKeys, rand_Read. simpl.
  rewrite decide_True by (rewrite length_drop; lia).
  unfold generateWireGuardConfig, createVPNPod, on_cluster. simpl.
  rewrite Hid. fold id. fold ns. fold (configMap_name id). fold (pod_name id).
  match goal with |- context [ConfigMaps_Create ns ?cm (cluster w)] =>
    rewrite (ConfigMaps_Create_ok ns cm (cluster w) Hcm Hfree) end.
  simpl.
  match goal with |- context [pod_resources ?w'] =>
    rewrite (pod_resources_viper w w' eq_refl) end.
  apply pod_resources_Panics in Hq as [v ->].
  simpl. split_and!; try done. rewrite lookup_insert_eq. eauto.
Qed.

(** X8.  When the platform accepts the config map of a new instance and
    is ready to accept its pod, CreateUser answers 201 exactly when the four
    resource settings of the pod are quantities and one of the first five
    polls reports the pod running; whatever else the polls report (errors,
    other phases) is retried.  Otherwise it answers 500; when a setting is
    no quantity the 500 has no body and the pod is never requested. *)
Theorem CreateUser_awaits_running (c : Context) (s : Server) (w : World)
    (req : CreateUserRequest) :
  let ns := namespace (vpnManager s) in
  let id := next_id w in
  ShouldBindJSON c = inl req →
  user_exists req (range_users s) = false →
  (48 ≤ length (entropy w))%nat →
  is_fault (hd Proceed (script (cluster w))) = None →
  configMaps (cluster w) !! (ns, configMap_name id) = None →
  is_fault (hd Proceed (tail (script (cluster w)))) = None →
  pods (cluster w) !! (ns, pod_name id) = None →
  (status (CreateUser c s w).2 = StatusCreated
   ↔ valid_quantities w ∧ existsb reports_running (polls_of w) = true)
  ∧ (status (CreateUser c s w).2 = StatusCreated
     ∨ status (CreateUser c s w).2 = StatusInternalServerError)
  ∧ (¬ valid_quantities w →
     (CreateUser c s w).2
       = {| status := StatusInternalServerError; headers := []; body := NoBody |}
     ∧ calls (cluster (CreateUser c s w).1.2)
       = CreateConfigMap ns (configMap_name id) :: calls (cluster w)).
Proof.
  intros ns id Hbind Hnew Hent Hcm Hfree Hpodok Hpodfree.
  assert (Hpanic : ¬ valid_quantities w →
            (CreateUser c s w).2
              = {| status := StatusInternalServerError; headers := []; body := NoBody |}
            ∧ calls (cluster (CreateUser c s w).1.2)
              = CreateConfigMap ns (configMap_name id) :: calls (cluster w)).
  { intros Hq.
    destruct (CreateUser_quantity_panics c s w req Hbind Hnew Hent Hcm Hfree Hq)
      as (Hresp & _ & _ & _ & Hcalls).
    now split. }
  destruct (pod_resources w) as [r|v] eqn:Hres.
  - assert (Hq : valid_quantities w) by (apply pod_resources_Returns; eauto).
    destruct (CreateUser_accepted c s w req Hbind Hnew Hent Hq Hcm Hfree Hpodok Hpodfree)
      as (w2 & Hw & Hscript & _ & _ & _ & Hout).
    pose proof (retry_waiting (vpnManager s) (pod_name (next_id w)) DefaultRetry_Steps
                  None w2 Hw) as Hretry.
    rewrite Hscript in Hretry. fold (polls_of w) in Hretry.
    destruct (existsb reports_running (polls_of w)).
    + rewrite Hretry in Hout. split_and!; [done | now left | done].
    + destruct Hretry as (Herr & _). destruct Herr as [err Herr]; [left; discriminate|].
      rewrite Herr in Hout. destruct Hout as [Hresp _]. rewrite Hresp. simpl.
      split_and!; [split; [discriminate | intros [_ [=]]] | now right | done].
  - assert (Hq : ¬ valid_quantities w) by (apply pod_resources_Panics; eauto).
    destruct (Hpanic Hq) as [Hresp Hcalls]. rewrite Hresp. simpl.
    split_and!; [split; [discriminate | tauto] | now right | done].
Qed.

(** X9.  When the resource settings of the pod are quantities, the
    platform accepts the config map and the pod, and none of the five polls
    reports the pod running, CreateUser answers 500 and stores nothing, after
    exactly five polls; the config map and the pod it created are left on
    the platform. *)
Theorem CreateUser_never_ready (c : Context) (s : Server) (w : World)
    (req : CreateUserRequest) :
  let ns := namespace (vpnManager s) in
  let id := next_id w in
  ShouldBindJSON c = inl req →
  user_exists req (range_users s) = false →
  (48 ≤ length (entropy w))%nat →
  valid_quantities w →
  is_fault (hd Proceed (script (cluster w))) = None →
  configMaps (cluster w) !! (ns, configMap_name id) = None →
  is_fault (hd Proceed (tail (script (cluster w)))) = None →
  pods (cluster w) !! (ns, pod_name id) = None →
  existsb reports_running (polls_of w) = false →
  (CreateUser c s w).2 =
    c_JSON StatusInternalServerError [("error", JStr "Failed to create VPN")]
  ∧ (CreateUser c s w).1.1 = s
  ∧ is_Some (configMaps (cluster (CreateUser c s w).1.2) !! (ns, configMap_name id))
  ∧ is_Some (pods (cluster (CreateUser c s w).1.2) !! (ns, pod_name id))
  ∧ calls (cluster (CreateUser c s w).1.2) =
      (replicate 5 (GetPod ns (pod_name id))
       ++ CreatePod ns (pod_name id) :: CreateConfigMap ns (configMap_name id)
       :: calls (cluster w))%list.
Proof.
  intros ns id Hbind Hnew Hent Hq Hcm Hfree Hpodok Hpodfree Hnever.
  destruct (CreateUser_accepted c s w req Hbind Hnew Hent Hq Hcm Hfree Hpodok Hpodfree)
    as (w2 & Hw & Hscript & Hcalls & Hcms & Hcl & Hres).
  pose proof (retry_waiting (vpnManager s) (pod_name (next_id w)) DefaultRetry_Steps None w2 Hw)
    as Hretry.
  pose proof (retry_OnError_effect (vpnManager s) (pod_name (next_id w))
                DefaultRetry_Steps None w2) as (_ & _ & _ & _ & Hcm3 & _).
  rewrite Hscript in Hretry. fold (polls_of w) in Hretry. rewrite Hnever in Hretry.
  destruct Hretry as (Herr & (pod & Hpod & _) & Hcalls3).
  destruct Herr as [err Herr]; [left; discriminate|].
  rewrite Herr in Hres. destruct Hres as [Hresp Hreg].
  rewrite Hcl. split_and!; try done; eauto.
  - rewrite Hcm3. exact Hcms.
  - rewrite Hcalls3, Hcalls. reflexivity.
Qed.

End Readiness.

(** ** Teardown and queries *)

Lemma DeleteUserVPN_effect vm user w :
  entropy (DeleteUserVPN vm user w).2 = entropy w
  ∧ configMaps (cluster (DeleteUserVPN vm user w).2) = configMaps (cluster w)
  ∧ same_elsewhere (namespace vm) (cluster w) (cluster (DeleteUserVPN vm user w).2)
  ∧ match (DeleteUserVPN vm user w).1 with
    | None =>
        (PodName user = "" ∧ cluster (DeleteUserVPN vm user w).2 = cluster w)
        ∨ (PodName user ≠ ""
           ∧ pods (cluster (DeleteUserVPN vm user w).2)
             = delete (namespace vm, PodName user) (pods (cluster w))
           ∧ calls (cluster (DeleteUserVPN vm user w).2)
             = DeletePod (namespace vm) (PodName user) :: calls (cluster w))
    | Some _ =>
        PodName user ≠ ""
        ∧ pods (cluster (DeleteUserVPN vm user w).2) = pods (cluster w)
        ∧ calls (cluster (DeleteUserVPN vm user w).2)
          = DeletePod (namespace vm) (PodName user) :: calls (cluster w)
    end.
Proof.
  unfold DeleteUserVPN. destruct (String.eqb (PodName user) "") eqn:He.
  { apply String.eqb_eq in He. simpl. split_and!; try done. now left. }
  apply String.eqb_neq in He. unfold on_cluster.
  pose proof (Pods_Delete_effect (namespace vm) (PodName user) (cluster w))
    as (Hcm & Hcalls & _ & Hns & Hres).
  destruct (Pods_Delete _ _ (cluster w)) as [[err|] cl'] eqn:Hd; simpl in *.
  - split_and!; done.
  - destruct Hres as [Hpods _]. split_and!; try done. right. done.
Qed.

(** X10.  DeleteUser never touches a config map: the config maps of the
    platform are what they were, whatever the request.  Of the pods it
    removes at most the one named in the record, and it makes at most that
    one call. *)
Theorem DeleteUser_platform (c : Context) (s : Server) (w : World) :
  configMaps (cluster (DeleteUser c s w).1.2) = configMaps (cluster w)
  ∧ (cluster (DeleteUser c s w).1.2 = cluster w
     ∨ ∃ user,
         stored s (Param c "id") user ∧ PodName user ≠ ""
         ∧ calls (cluster (DeleteUser c s w).1.2)
           = DeletePod (namespace (vpnManager s)) (PodName user) :: calls (cluster w)
         ∧ (pods (cluster (DeleteUser c s w).1.2) = pods (cluster w)
            ∨ pods (cluster (DeleteUser c s w).1.2)
              = delete (namespace (vpnManager s), PodName user) (pods (cluster w)))).
Proof.
  unfold DeleteUser.
  destruct (users s !! Param c "id") as [user|] eqn:Hu; simpl; [|split; [done | now left]].
  pose proof (DeleteUserVPN_effect (vpnManager s) user w) as (_ & Hcm & _ & Hres).
  destruct (DeleteUserVPN (vpnManager s) user w) as [[err|] w'] eqn:Hd; simpl in *.
  - destruct Hres as (Hne & Hpods & Hcalls). split; [done|]. right.
    exists user. split_and!; try done. now left.
  - split; [done|]. destruct Hres as [[_ Hcl]|(Hne & Hpods & Hcalls)]; [now left|].
    right. exists user. split_and!; try done. now right.
Qed.

(** X11.  Once DeleteUser has run for an identifier, that identifier is
    unknown to every handler: DeleteUser, GetUser and GetUserConfig answer
    404 for it and change nothing, in whatever world they run. *)
Theorem DeleteUser_then_unknown (c : Context) (s : Server) (w w' : World) :
  let s' := (DeleteUser c s w).1.1 in
  DeleteUser c s' w' = (s', w', c_JSON StatusNotFound [("error", JStr "User not found")])
  ∧ GetUser c s' w' = (s', w', c_JSON StatusNotFound [("error", JStr "User not found")])
  ∧ GetUserConfig c s' w'
    = (s', w', c_JSON StatusNotFound [("error", JStr "User not found")]).
Proof.
  intros s'.
  assert (Hgone : users s' !! Param c "id" = None).
  { unfold s', DeleteUser. destruct (users s !! Param c "id") eqn:Hu; simpl; [|done].
    apply lookup_delete_eq. }
  unfold DeleteUser, GetUser, GetUserConfig. rewrite Hgone. done.
Qed.

(** X12.  GetUser answers 200 for a stored identifier and changes nothing
    but the status of that one record: every other record, and every other
    field of the record, is what it was.  The status is either what it was
    or the phase the platform shows for the pod named in the record; the
    response carries the record as it is stored afterwards. *)
Theorem GetUser_reconciles_status (c : Context) (s : Server) (w : World) (user : User) :
  stored s (Param c "id") user →
  ∃ st,
    users (GetUser c s w).1.1 = <[Param c "id" := set_Status st user]> (users s)
    ∧ (GetUser c s w).2 = c_JSON StatusOK [("user", user_json (set_Status st user))]
    ∧ (st = Status user
       ∨ (PodName user ≠ ""
          ∧ ∃ pod, pods (cluster (GetUser c s w).1.2)
                     !! (namespace (vpnManager s), PodName user) = Some pod
                   ∧ st = pod_Phase pod))
    ∧ configMaps (cluster (GetUser c s w).1.2) = configMaps (cluster w)
    ∧ dom (pods (cluster (GetUser c s w).1.2)) = dom (pods (cluster w)).
Proof.
  intros Hu. unfold stored in Hu. unfold GetUser. rewrite Hu.
  assert (Hsame : set_Status (Status user) user = user) by (now destruct user).
  destruct (String.eqb (PodName user) "") eqn:He; simpl.
  { exists (Status user). rewrite Hsame. split_and!; try done. now left. }
  apply String.eqb_neq in He. unfold GetPodStatus, on_cluster.
  pose proof (Pods_Get_effect (namespace (vpnManager s)) (PodName user) (cluster w))
    as (Hcm & _ & _ & _ & Hdom & Hres).
  destruct (Pods_Get _ _ (cluster w)) as [[pod|err] cl'] eqn:Hg; simpl in *.
  - exists (pod_Phase pod). split_and!; try done. right. eauto.
  - exists (Status user). rewrite Hsame. split_and!; try done. now left.
Qed.

Lemma Sprintf_wg_template_nonempty (args : list fmt.Arg) :
  fmt.Sprintf wg_template args ≠ "".
Proof.
  intros Heq.
  apply (f_equal (λ s, match s with EmptyString => true | String _ _ => false end)) in Heq.
  cbv in Heq. discriminate Heq.
Qed.

(** X13.  In a reachable server GetUserConfig answers 200 exactly for the
    stored identifiers: every stored record has a configuration text, and it
    is served as an attachment named vpn-<username>.conf.  The handler
    changes nothing. *)
Theorem GetUserConfig_reachable `{!Curve} (c : Context) (s : Server) (w : World) :
  reachable s →
  (GetUserConfig c s w).1 = (s, w)
  ∧ (status (GetUserConfig c s w).2 = StatusOK ↔ is_Some (users s !! Param c "id"))
  ∧ (∀ user, stored s (Param c "id") user →
       ConfigData user ≠ ""
       ∧ (GetUserConfig c s w).2 =
           {| status := StatusOK;
              headers :=
                [("Content-Disposition",
                  "attachment; filename=vpn-" +:+ Username user +:+ ".conf");
                 ("Content-Type", "text/plain")];
              body := StringBody (ConfigData user) |}).
Proof.
  intros [Hwf _]%reachable_Inv. unfold GetUserConfig, stored.
  destruct (users s !! Param c "id") as [user|] eqn:Hu.
  - destruct (Hwf _ _ Hu) as (_ & _ & _ & port & endpoint & Hcfg).
    assert (Hne : ConfigData user ≠ "")
      by (rewrite Hcfg; apply Sprintf_wg_template_nonempty).
    apply String.eqb_neq in Hne as Hb. rewrite Hb. simpl.
    split; [done|]. split.
    + split; eauto.
    + intros ? [= <-]. split; done.
  - simpl. split; [done|]. split; [|done].
    split; [discriminate | intros [? [=]]].
Qed.

(** ** Whole life cycles *)

Section LifeCycle.

Context `{!Curve}.

(** X14.  A record that was created and is then deleted leaves its config
    map behind: after a 201, DeleteUser for the new identifier answers 200
    and gives back the registry as it was before the creation (the
    identifier being new), and the config map of the instance is still on
    the platform. *)
Theorem create_then_delete (c c' : Context) (s : Server) (w w' : World) :
  status (CreateUser c s w).2 = StatusCreated →
  Param c' "id" = next_id w →
  users s !! next_id w = None →
  configMaps (cluster w') = configMaps (cluster (CreateUser c s w).1.2) →
  (DeleteUser c' (CreateUser c s w).1.1 w').1.1 = s
  ∧ status (DeleteUser c' (CreateUser c s w).1.1 w').2 = StatusOK
  ∧ is_Some (configMaps (cluster (DeleteUser c' (CreateUser c s w).1.1 w').1.2)
               !! (namespace (vpnManager s), configMap_name (next_id w))).
Proof.
  intros Hcreated Hid Hfresh Hcms.
  destruct (CreateUser_201_facts c s w Hcreated)
    as (user & Husers & Hvm & _ & _ & _ & _ & _ & _ & _ & (cm & Hcm & _) & _).
  pose proof (DeleteUserVPN_effect (vpnManager (CreateUser c s w).1.1) user w')
    as (_ & Hkeep & _).
  unfold DeleteUser. rewrite Hid, Husers, lookup_insert_eq. simpl.
  split_and!.
  - destruct s as [vm us], (CreateUser c {| vpnManager := vm; users := us |} w).1.1
      as [vm1 us1]. unfold set_users. simpl in *. subst vm1 us1.
    f_equal. rewrite delete_insert_eq. now apply delete_id.
  - done.
  - destruct (DeleteUserVPN _ user w') as [[err|] w'']; simpl in *;
      rewrite Hkeep, Hcms, Hcm; eauto.
Qed.

(** X15.  The record a 201 response carries is the record the listing
    shows afterwards: its object is among the objects ListUsers returns for
    the new server, under the identifier drawn for it. *)
Theorem CreateUser_response_listed (c c' : Context) (s : Server) (w w' : World) :
  status (CreateUser c s w).2 = StatusCreated →
  ∃ fields,
    (CreateUser c s w).2 =
      c_JSON StatusCreated
        [("message", JStr "User created successfully"); ("user", JObj fields)]
    ∧ field "id" fields = Some (JStr (next_id w))
    ∧ fields ∈ listed_objects (ListUsers c' (CreateUser c s w).1.1 w').2.
Proof.
  intros Hcreated.
  destruct (CreateUser_201_facts c s w Hcreated)
    as (user & Husers & _ & Hresp & Hid & _).
  exists (user_fields user). split; [exact Hresp|]. split.
  - unfold user_fields. simpl. now rewrite Hid.
  - unfold ListUsers, listed_objects. simpl. rewrite map_map. simpl.
    apply list_elem_of_fmap. exists user. split; [done|].
    apply elem_of_range_users. exists (next_id w). unfold stored.
    rewrite Husers. apply lookup_insert_eq.
Qed.

Lemma CreateUserVPN_elsewhere vm user w :
  same_elsewhere (namespace vm) (cluster w) (cluster (CreateUserVPN vm user w).2).
Proof.
  unfold CreateUserVPN, generateWireGuardKeys, rand_Read.
  case_decide; simpl; [|apply same_elsewhere_refl].
  unfold generateWireGuardConfig.
  match goal with |- context [createVPNPod vm ?u ?w0] =>
    pose proof (createVPNPod_effect vm u w0) as (_ & _ & Hns & _);
    destruct (createVPNPod vm u w0) as [[[pod|e]|v] w3]
  end; simpl in *; exact Hns.
Qed.

(** X16.  No handler reaches outside the namespace of its manager: the
    pods and config maps of every other namespace are what they were, and the
    manager itself is never replaced. *)
Theorem handle_namespace (r : Request) (c : Context) (s : Server) (w : World) :
  vpnManager (handle r c s w).1.1 = vpnManager s
  ∧ same_elsewhere (namespace (vpnManager s)) (cluster w) (cluster (handle r c s w).1.2).
Proof.
  destruct r; simpl.
  - split; [done | apply same_elsewhere_refl].
  - unfold CreateUser.
    destruct (ShouldBindJSON c) as [req|e]; simpl; [|split; [done | apply same_elsewhere_refl]].
    destruct (user_exists req (range_users s)); simpl;
      [split; [done | apply same_elsewhere_refl]|].
    unfold NewUser, uuid_New, rand_Read.
    case_decide; simpl; [|split; [done | apply same_elsewhere_refl]].
    match goal with |- context [CreateUserVPN ?vm ?u ?w0] =>
      pose proof (CreateUserVPN_elsewhere vm u w0) as Hns;
      destruct (CreateUserVPN vm u w0) as [[user' [[e|]|v]] w2]
    end; simpl in *; (split; [done | exact Hns]).
  - unfold GetUser. destruct (users s !! Param c "id") as [user|]; simpl;
      [|split; [done | apply same_elsewhere_refl]].
    destruct (negb _); simpl; [|split; [done | apply same_elsewhere_refl]].
    unfold GetPodStatus, on_cluster.
    pose proof (Pods_Get_effect (namespace (vpnManager s)) (PodName user) (cluster w))
      as (_ & _ & _ & Hns & _).
    destruct (Pods_Get _ _ (cluster w)) as [[pod|err] cl']; simpl in *;
      (split; [done | exact Hns]).
  - unfold DeleteUser. destruct (users s !! Param c "id") as [user|]; simpl;
      [|split; [done | apply same_elsewhere_refl]].
    pose proof (DeleteUserVPN_effect (vpnManager s) user w) as (_ & _ & Hns & _).
    destruct (DeleteUserVPN _ user w) as [[err|] w']; simpl in *;
      (split; [done | exact Hns]).
  - unfold GetUserConfig. destruct (users s !! Param c "id") as [user|]; simpl;
      [destruct (String.eqb _ _); simpl|]; (split; [done | apply same_elsewhere_refl]).
  - split; [done | apply same_elsewhere_refl].
Qed.

End LifeCycle.

(** ** Statistics and gauges *)

Lemma range_users_stored (s : Server) (k : string) (u : User) :
  stored s k u →
  range_users s ≡ₚ u :: range_users (set_users (delete k (users s)) s).
Proof.
  intros Hk. unfold range_users. simpl.
  rewrite <-(map_to_list_delete (users s) k u Hk). reflexivity.
Qed.

Lemma range_users_insert (s : Server) (k : string) (u' : User) :
  range_users (set_users (<[k := u']> (users s)) s)
  ≡ₚ u' :: range_users (set_users (delete k (users s)) s).
Proof.
  unfold range_users. simpl. rewrite <-insert_delete_eq.
  rewrite map_to_list_insert by apply lookup_delete_eq. reflexivity.
Qed.

Lemma count_status_Permutation (st : string) (l1 l2 : list User) :
  l1 ≡ₚ l2 → count_status st l1 = count_status st l2.
Proof. intros Hp. unfold count_status. now rewrite Hp. Qed.

Lemma count_status_cons (st : string) (u : User) (l : list User) :
  count_status st (u :: l) = (if decide (Status u = st) then 1 else 0) + count_status st l.
Proof. unfold count_status. rewrite filter_cons. case_decide; simpl; lia. Qed.

Lemma wrap64_add_r (a b : Z) : wrap64 (a + wrap64 b) = wrap64 (a + b).
Proof. rewrite Z.add_comm, wrap64_add_l. f_equal. lia. Qed.

Lemma calculateStats_eq (s : Server) :
  calculateStats s =
  {| TotalUsers := wrap64 (Z.of_nat (size (users s)));
     ActiveUsers := wrap64 (count_status "active" (range_users s));
     InactiveUsers := wrap64 (count_status "inactive" (range_users s));
     SuspendedUsers := wrap64 (count_status "suspended" (range_users s));
     TotalDataUsage := wrap64 (Zsum DataUsage (range_users s));
     TotalConnections := wrap64 (Zsum ConnectionCount (range_users s)) |}.
Proof.
  unfold calculateStats. now rewrite calculateStats_loop_wrap, length_range_users.
Qed.

(** X17.  The statistics do not depend on the order in which the map of
    users is traversed: the loop of calculateStats gives the same result on
    every ordering of the stored records. *)
Theorem calculateStats_any_order (s : Server) (l : list User) :
  l ≡ₚ range_users s → calculateStats_loop l = calculateStats s.
Proof. intros Hp. unfold calculateStats. now apply calculateStats_loop_Permutation. Qed.

Lemma updateUserMetrics_loop (l : list User) :
  fold_left updateUserMetrics_step l (0, 0, 0) =
  (wrap64 (count_status "active" l), wrap64 (count_status "inactive" l),
   wrap64 (count_status "suspended" l)).
Proof.
  induction l as [|x l IH] using rev_ind; [reflexivity|].
  rewrite fold_left_app. simpl. rewrite IH. clear IH.
  rewrite !count_status_snoc. unfold updateUserMetrics_step.
  rewrite !wrap64_add_l.
  destruct (String.eqb (Status x) "active") eqn:Ha.
  { apply String.eqb_eq in Ha. rewrite Ha. simpl. now rewrite !Z.add_0_r. }
  destruct (String.eqb (Status x) "inactive") eqn:Hi.
  { apply String.eqb_eq in Hi. rewrite Hi. simpl. now rewrite !Z.add_0_r. }
  destruct (String.eqb (Status x) "suspended") eqn:Hs.
  { apply String.eqb_eq in Hs. rewrite Hs. simpl. now rewrite !Z.add_0_r. }
  apply String.eqb_neq in Ha, Hi, Hs.
  rewrite !decide_False by done. now rewrite !Z.add_0_r.
Qed.

(** X18.  The user gauges and the statistics agree: the active, inactive
    and suspended counts that updateUserMetrics hands to the gauges are the
    counters of calculateStats, and so is the total as long as the number of
    records fits 64 bits. *)
Theorem updateUserMetrics_agrees (s : Server) :
  updateUserMetrics s =
    (Z.of_nat (size (users s)), ActiveUsers (calculateStats s),
     InactiveUsers (calculateStats s), SuspendedUsers (calculateStats s))
  ∧ (Z.of_nat (size (users s)) < 2 ^ 63 →
     updateUserMetrics s =
       (TotalUsers (calculateStats s), ActiveUsers (calculateStats s),
        InactiveUsers (calculateStats s), SuspendedUsers (calculateStats s))).
Proof.
  assert (Heq : updateUserMetrics s =
    (Z.of_nat (size (users s)), ActiveUsers (calculateStats s),
     InactiveUsers (calculateStats s), SuspendedUsers (calculateStats s))).
  { unfold updateUserMetrics. rewrite updateUserMetrics_loop, calculateStats_eq. reflexivity. }
  split; [exact Heq|]. intros Hsize. rewrite Heq. f_equal. f_equal. f_equal.
  rewrite calculateStats_eq. simpl. symmetry. apply wrap64_small. unfold in_int64. lia.
Qed.

(** X19.  Telemetry on a stored record shows in the statistics: after
    AddDataUsage the total data usage has grown by the bytes added, after
    IncrementConnectionCount the total of connections has grown by one (both
    in 64-bit arithmetic), and no other counter has moved. *)
Theorem telemetry_in_stats (s : Server) (k : string) (u : User) (bytes : Z) (w : World) :
  stored s k u →
  let s1 := set_users (<[k := AddDataUsage bytes u w]> (users s)) s in
  let s2 := set_users (<[k := IncrementConnectionCount u w]> (users s)) s in
  calculateStats s1 =
    {| TotalUsers := TotalUsers (calculateStats s);
       ActiveUsers := ActiveUsers (calculateStats s);
       InactiveUsers := InactiveUsers (calculateStats s);
       SuspendedUsers := SuspendedUsers (calculateStats s);
       TotalDataUsage := wrap64 (TotalDataUsage (calculateStats s) + bytes);
       TotalConnections := TotalConnections (calculateStats s) |}
  ∧ calculateStats s2 =
    {| TotalUsers := TotalUsers (calculateStats s);
       ActiveUsers := ActiveUsers (calculateStats s);
       InactiveUsers := InactiveUsers (calculateStats s);
       SuspendedUsers := SuspendedUsers (calculateStats s);
       TotalDataUsage := TotalDataUsage (calculateStats s);
       TotalConnections := wrap64 (TotalConnections (calculateStats s) + 1) |}.
Proof.
  intros Hk s1 s2.
  pose proof (range_users_stored s k u Hk) as Hold.
  assert (Hsize : ∀ u', size (<[k := u']> (users s)) = size (users s)).
  { intros u'. apply map_size_insert_Some. unfold stored in Hk. eauto. }
  split.
  - pose proof (range_users_insert s k (AddDataUsage bytes u w)) as Hnew. fold s1 in Hnew.
    rewrite (calculateStats_eq s1), (calculateStats_eq s). simpl.
    rewrite Hsize.
    rewrite !(count_status_Permutation _ _ _ Hnew), !(count_status_Permutation _ _ _ Hold).
    rewrite !(Zsum_Permutation _ _ _ Hnew), !(Zsum_Permutation _ _ _ Hold).
    rewrite !count_status_cons. simpl. f_equal.
    rewrite !wrap64_add_l. f_equal. lia.
  - pose proof (range_users_insert s k (IncrementConnectionCount u w)) as Hnew. fold s2 in Hnew.
    rewrite (calculateStats_eq s2), (calculateStats_eq s). simpl.
    rewrite Hsize.
    rewrite !(count_status_Permutation _ _ _ Hnew), !(count_status_Permutation _ _ _ Hold).
    rewrite !(Zsum_Permutation _ _ _ Hnew), !(Zsum_Permutation _ _ _ Hold).
    rewrite !count_status_cons. simpl. f_equal.
    rewrite !wrap64_add_l. f_equal. lia.
Qed.

(** X20.  Looking at a user can change the statistics: when GetUser
    replaces the status active of a record by the phase of its pod (say
    Running), the record is no longer counted as active, while the number of
    users stays the same. *)
Theorem GetUser_leaves_active_count (c : Context) (s : Server) (w : World) (u u' : User) :
  Z.of_nat (size (users s)) < 2 ^ 63 →
  stored s (Param c "id") u →
  Status u = "active" →
  stored (GetUser c s w).1.1 (Param c "id") u' →
  Status u' ≠ "active" →
  ActiveUsers (calculateStats (GetUser c s w).1.1) = ActiveUsers (calculateStats s) - 1
  ∧ TotalUsers (calculateStats (GetUser c s w).1.1) = TotalUsers (calculateStats s).
Proof.
  intros Hsize Hu Hact Hu' Hnot.
  destruct (GetUser_registry c s w) as [Hsame | (u0 & st & Hu0 & Hnew)].
  { rewrite Hsame in Hu'. unfold stored in *. congruence. }
  assert (u0 = u) as -> by (unfold stored in *; congruence).
  rewrite Hnew in Hu' |- *.
  assert (u' = set_Status st u) as ->.
  { unfold stored in Hu'. simpl in Hu'. rewrite lookup_insert_eq in Hu'. congruence. }
  pose proof (range_users_stored s _ u Hu) as Hold.
  pose proof (range_users_insert s (Param c "id") (set_Status st u)) as Hins.
  rewrite !calculateStats_eq. simpl.
  rewrite (map_size_insert_Some _ _ (users s)) by (unfold stored in Hu; eauto).
  split; [|done].
  rewrite (count_status_Permutation _ _ _ Hins), (count_status_Permutation _ _ _ Hold).
  rewrite !count_status_cons.
  rewrite decide_False by exact Hnot. rewrite decide_True by exact Hact.
  pose proof (count_status_le "active"
                (range_users (set_users (delete (Param c "id") (users s)) s))) as Hle.
  assert (Hlen : Z.of_nat (length (range_users
                   (set_users (delete (Param c "id") (users s)) s)))
                 < Z.of_nat (size (users s))).
  { rewrite length_range_users. simpl.
    rewrite map_size_delete. unfold stored in Hu. rewrite Hu.
    assert (size (users s) ≠ O).
    { intros H0. apply map_size_empty_inv in H0. rewrite H0, lookup_empty in Hu. done. }
    lia. }
  rewrite !wrap64_small by (unfold in_int64; lia). lia.
Qed.

(** ** The rendered configuration, read back *)

Lemma lacksb_lacks (c : ascii) (s : string) : lacksb c s = true → lacks c s.
Proof.
  induction s as [|d s IH]; simpl; [done|].
  intros [Hd Hs]%andb_true_iff. split; [|auto].
  apply negb_true_iff in Hd. now apply Ascii.eqb_neq in Hd.
Qed.

Lemma lacks_lacksb (c : ascii) (s : string) : lacks c s → lacksb c s = true.
Proof.
  induction s as [|d s IH]; simpl; [done|].
  intros [Hd Hs]. apply andb_true_iff. split; [|auto].
  apply negb_true_iff. now apply Ascii.eqb_neq.
Qed.

Lemma lacks_append (c : ascii) (a b : string) :
  lacks c a → lacks c b → lacks c (a +:+ b).
Proof. induction a as [|d a IH]; simpl; [done|]. intros [? ?] ?. split; auto. Qed.

Lemma enc_not_space (v : Z) : base64.enc v ≠ " "%char.
Proof.
  unfold base64.enc.
  assert (Hn : (Z.to_nat (Z.land v 63) < 64)%nat).
  { change 63 with (Z.ones 6). rewrite Z.land_ones by lia.
    pose proof (Z.mod_pos_bound v (2 ^ 6)). lia. }
  revert Hn. generalize (Z.to_nat (Z.land v 63)). intros n Hn.
  do 64 (destruct n as [|n]; [vm_compute; discriminate|]). lia.
Qed.

(** The base64 text of any bytes has no blank in it. *)
Lemma base64_lacks_space (l : list byte) : lacks " " (base64.EncodeToString l).
Proof.
  assert (Hall : ∀ n l, (length l ≤ n)%nat → lacks " " (base64.EncodeToString l)).
  { clear l. induction n as [n IH] using lt_wf_ind. intros l Hl.
    destruct l as [|a [|b [|c rest]]]; simpl.
    - done.
    - pose proof enc_not_space. split_and!; try done; discriminate.
    - pose proof enc_not_space. split_and!; try done; discriminate.
    - pose proof enc_not_space. split_and!; try done.
      apply (IH (length rest)); [simpl in Hl; lia | done]. }
  exact (Hall (length l) l (le_n _)).
Qed.

(** A pattern with a blank and without a line feed does not match at the
    start of a text that has no blank before its first line feed. *)
Lemma after_prefix_blank (p s t : string) :
  lacks LF p → ¬ lacks " " p → lacks " " s →
  after_prefix p (s +:+ String LF t) = None.
Proof.
  revert s. induction p as [|c p IH]; intros s Hlf Hblank Hs; simpl in *.
  { now destruct Hblank. }
  destruct Hlf as [Hc Hlf].
  destruct s as [|d s]; simpl.
  - apply Ascii.eqb_neq in Hc. now rewrite Hc.
  - destruct Hs as [Hd Hs]. destruct (Ascii.eqb c d) eqn:Hcd; [|done].
    apply Ascii.eqb_eq in Hcd. subst d.
    apply IH; [done | | done]. intros Hp. apply Hblank. done.
Qed.

Lemma config_address_skip (c : ascii) (rest : string) :
  after_prefix "Address = " (String c rest) = None →
  config_address (String c rest) = config_address rest.
Proof. intros Hnone. simpl in *. now rewrite Hnone. Qed.

Lemma config_address_after_key (priv rest : string) :
  lacks " " priv →
  config_address (priv +:+ String LF ("Address = " +:+ rest)) = Some (until_slash rest).
Proof.
  intros Hpriv. induction priv as [|d priv IH].
  - reflexivity.
  - change (String d priv +:+ String LF ("Address = " +:+ rest))
      with (String d (priv +:+ String LF ("Address = " +:+ rest))).
    rewrite config_address_skip.
    + apply IH. now destruct Hpriv.
    + change (String d (priv +:+ String LF ("Address = " +:+ rest)))
        with (String d priv +:+ String LF ("Address = " +:+ rest)).
      apply after_prefix_blank; [apply lacksb_lacks; reflexivity | | done].
      intros Hp%lacks_lacksb. discriminate Hp.
Qed.

Lemma until_slash_append (s rest : string) :
  lacks "/" s → until_slash (s +:+ String "/" rest) = s.
Proof.
  induction s as [|d s IH]; simpl; [reflexivity|].
  intros [Hd Hs]. apply Ascii.eqb_neq in Hd. rewrite Hd. now rewrite IH.
Qed.

(** The text generateWireGuardConfig renders, piece by piece. *)
Lemma Sprintf_wg_template (a b c d e f : string) :
  fmt.Sprintf wg_template [fmt.Str a; fmt.Str b; fmt.Str c; fmt.Str d; fmt.Str e; fmt.Str f]
  = "[Interface]
PrivateKey = " +:+ (a +:+ String LF ("Address = " +:+ (b +:+ String "/" ("24
ListenPort = " +:+ (c +:+ "
PostUp = iptables -A FORWARD -i %i -j ACCEPT; iptables -t nat -A POSTROUTING -o eth0 -j MASQUERADE
PostDown = iptables -D FORWARD -i %i -j ACCEPT; iptables -t nat -D POSTROUTING -o eth0 -j MASQUERADE

[Peer]
PublicKey = " +:+ (d +:+ "
AllowedIPs = 0.0.0.0/0
Endpoint = " +:+ (e +:+ ":" +:+ (f +:+ "
PersistentKeepalive = 25
")))))))).
Proof. vm_compute. reflexivity. Qed.

Lemma userIP_lacks_slash (user : User) : lacks "/" (userIP user).
Proof.
  unfold userIP.
  assert (Hall : forallb (λ n, lacksb "/" (fmt.Sprintf "10.0.0.%d" [fmt.Int (Z.of_nat n + 1)]))
                   (seq 0 254) = true) by (vm_compute; reflexivity).
  rewrite forallb_forall in Hall.
  assert (Hrange : 0 <= Z.rem (len (ID user)) 254 < 254).
  { unfold len. apply Z.rem_bound_pos; lia. }
  specialize (Hall (Z.to_nat (Z.rem (len (ID user)) 254))).
  rewrite Z2Nat.id in Hall by lia.
  apply lacksb_lacks, Hall, in_seq. lia.
Qed.

(** X21.  Reading back what was rendered: whenever the private key has no
    blank in it (a base64 text never has), the address line of the text
    generateWireGuardConfig returns reads the address computed for the
    user, and that address is between 10.0.0.1 and 10.0.0.254. *)
Theorem generateWireGuardConfig_address (w : World) (user : User) (keys : WireGuardKeys) :
  lacks " " (keys_PrivateKey keys) →
  ∃ cfg n,
    generateWireGuardConfig w user keys = inl cfg
    ∧ config_address cfg = Some (userIP user)
    ∧ userIP user = fmt.Sprintf "10.0.0.%d" [fmt.Int n]
    ∧ 1 <= n <= 254.
Proof.
  intros Hkey. unfold generateWireGuardConfig.
  eexists _, (Z.rem (len (ID user)) 254 + 1). split; [reflexivity|].
  split; [|split; [reflexivity|]].
  - rewrite Sprintf_wg_template.
    change (config_address ("[Interface]
PrivateKey = " +:+ ?x)) with (config_address x).
    rewrite config_address_after_key by done.
    rewrite until_slash_append; [done | apply userIP_lacks_slash].
  - assert (0 <= Z.rem (len (ID user)) 254 < 254); [|lia].
    unfold len. apply Z.rem_bound_pos; lia.
Qed.

Section ReadBack.

Context `{!Curve}.

Lemma CreateUser_base64_key (c : Context) (s : Server) (w : World) :
  (CreateUser c s w).1.1 = s ∨
  ∃ user bytes,
    (CreateUser c s w).1.1 = set_users (<[ID user := user]> (users s)) s
    ∧ PrivateKey user = base64.EncodeToString bytes.
Proof.
  unfold CreateUser.
  destruct (ShouldBindJSON c) as [req|e]; [|now left].
  destruct (user_exists req (range_users s)); [now left|].
  destruct (NewUser _ _ w) as [[user w1]|]; [|now left].
  destruct (CreateUserVPN _ user w1) as [[user' [[e|]|v]] w2] eqn:Hvpn;
    [now left | | now left].
  apply CreateUserVPN_ok in Hvpn as (_ & _ & _ & _ & _ & _ & Hkey & _).
  right. exists user', (take 32 (entropy w1)). now split.
Qed.

(** Every private key a reachable server stores is a base64 text. *)
Lemma reachable_base64_key (s : Server) (k : string) (u : User) :
  reachable s → stored s k u → ∃ bytes, PrivateKey u = base64.EncodeToString bytes.
Proof.
  intros Hs. revert k u.
  induction Hs as [vm | r c s w Hs IH]; intros k u.
  { unfold stored. simpl. now rewrite lookup_empty. }
  destruct r; simpl; try apply IH.
  - destruct (CreateUser_base64_key c s w) as [-> | (user & bytes & -> & Hkey)]; [apply IH|].
    unfold stored. simpl. rewrite lookup_insert.
    case_decide; [intros [= <-]; now exists bytes | apply IH].
  - destruct (GetUser_registry c s w) as [-> | (u0 & st & Hu & ->)]; [apply IH|].
    unfold stored. simpl. rewrite lookup_insert.
    case_decide; [intros [= <-]; exact (IH _ _ Hu) | apply IH].
  - destruct (DeleteUser_registry c s w) as [-> | ->]; [apply IH|].
    unfold stored. simpl. intros Hk.
    apply lookup_delete_Some in Hk as [_ Hk]. exact (IH _ _ Hk).
  - unfold GetUserConfig.
    destruct (users s !! _); [destruct (String.eqb _ _)|]; apply IH.
Qed.

(** X22.  Whatever requests a server has handled, and whatever the platform,
    the clock and the random source did meanwhile, the configuration of
    every record it stores reads the address 10.0.0.37: all users are given
    the same tunnel address. *)
Theorem reachable_assignedAddress (s : Server) (k : string) (u : User) :
  reachable s → stored s k u → assignedAddress u = Some "10.0.0.37".
Proof.
  intros Hs Hk.
  destruct (reachable_base64_key s k u Hs Hk) as [bytes Hkey].
  pose proof (reachable_userIP s k u Hs Hk) as Hip.
  apply reachable_Inv in Hs as [Hwf _].
  destruct (Hwf _ _ Hk) as (_ & _ & _ & port & endpoint & Hcfg).
  unfold assignedAddress. rewrite Hcfg, Sprintf_wg_template.
  change (config_address ("[Interface]
PrivateKey = " +:+ ?x)) with (config_address x).
  rewrite config_address_after_key by (rewrite Hkey; apply base64_lacks_space).
  rewrite until_slash_append by apply userIP_lacks_slash.
  now rewrite Hip.
Qed.

End ReadBack.

(** ** The reducer of the user interface *)

Lemma id_differs_spec (payload : string) (user : JSON) :
  frontend.id_differs payload user = true ↔ frontend.user_id user ≠ Some (JStr payload).
Proof.
  unfold frontend.id_differs.
  destruct (frontend.user_id user) as [[]|]; try (split; [discriminate | done]).
  rewrite negb_true_iff. split.
  - intros Hne [= ->]. now rewrite String.eqb_refl in Hne.
  - intros Hne. apply String.eqb_neq. congruence.
Qed.

Lemma filter_idem {A} (f : A → bool) (l : list A) :
  List.filter f (List.filter f l) = List.filter f l.
Proof.
  induction l as [|a l IH]; simpl; [done|].
  destruct (f a) eqn:Hf; simpl; [rewrite Hf; now f_equal | done].
Qed.

Lemma filter_all {A} (f : A → bool) (l : list A) :
  (∀ a, In a l → f a = true) → List.filter f l = l.
Proof.
  induction l as [|a l IH]; simpl; [done|]. intros Hall.
  rewrite (Hall a) by now left. f_equal. apply IH. auto.
Qed.

Lemma filter_Permutation' {A} (f : A → bool) (l1 l2 : list A) :
  l1 ≡ₚ l2 → List.filter f l1 ≡ₚ List.filter f l2.
Proof.
  induction 1 as [|a l1 l2 _ IH|a b l|l1 l2 l3 _ IH1 _ IH2]; simpl.
  - done.
  - destruct (f a); [now constructor | done].
  - destruct (f a), (f b); try done. constructor.
  - now rewrite IH1.
Qed.

Lemma user_id_user_json (u : User) : frontend.user_id (user_json u) = Some (JStr (ID u)).
Proof. reflexivity. Qed.

(** X23.  DELETE_USER keeps, in their order, exactly the users whose id is
    not the string given: a user of the list survives if and only if its id
    field is missing, is not a string, or is another string.  Dispatching
    the same deletion again changes nothing, and no other field of the
    state is touched. *)
Theorem DELETE_USER_spec (state : frontend.State) (id : string) :
  let state' := frontend.userReducer state (frontend.DELETE_USER id) in
  (∀ user, In user (frontend.st_users state') ↔
           In user (frontend.st_users state) ∧ frontend.user_id user ≠ Some (JStr id))
  ∧ frontend.userReducer state' (frontend.DELETE_USER id) = state'
  ∧ (length (frontend.st_users state') ≤ length (frontend.st_users state))%nat
  ∧ frontend.st_loading state' = frontend.st_loading state
  ∧ frontend.st_error state' = frontend.st_error state
  ∧ frontend.st_stats state' = frontend.st_stats state.
Proof.
  simpl. split_and!; try done.
  - intros user. rewrite filter_In, id_differs_spec. done.
  - unfold frontend.userReducer. simpl. now rewrite filter_idem.
  - induction (frontend.st_users state) as [|a l IH]; simpl; [done|].
    destruct (frontend.id_differs id a); simpl; lia.
Qed.

(** X24.  What the three fetching actions leave in the loading flag.
    fetchUsers always ends with the flag cleared, whether the request
    succeeded or failed, and a failed createUser clears it too; a
    successful createUser appends the user and leaves the flag set,
    whatever it was before, since ADD_USER does not reset it. *)
Theorem createUser_leaves_loading (state : frontend.State) :
  (∀ result, frontend.st_loading
               (frontend.dispatch_all state (frontend.fetchUsers result)) = false)
  ∧ (∀ message,
       let state' := frontend.dispatch_all state (frontend.createUser (inr message)) in
       frontend.st_loading state' = false
       ∧ frontend.st_error state' = Some message
       ∧ frontend.st_users state' = frontend.st_users state)
  ∧ (∀ user,
       let state' := frontend.dispatch_all state (frontend.createUser (inl user)) in
       frontend.st_loading state' = true
       ∧ frontend.st_users state' = (frontend.st_users state ++ [user])%list
       ∧ frontend.st_error state' = frontend.st_error state
       ∧ ∀ userId outcome stats,
           frontend.st_loading
             (frontend.dispatch_all state'
                (frontend.deleteUser userId outcome ++ frontend.fetchStats stats)%list)
           = true).
Proof.
  split_and!.
  - now intros [users|message].
  - done.
  - intros user. simpl. split_and!; try done.
    now intros userId [e|] [stats|e'].
Qed.

(** X25.  Adding a user and then deleting it by its id gives the list back,
    provided the id of the user is a string no user of the list carries. *)
Theorem ADD_USER_then_DELETE_USER (state : frontend.State) (user : JSON) (id : string) :
  frontend.user_id user = Some (JStr id) →
  (∀ other, In other (frontend.st_users state) → frontend.user_id other ≠ Some (JStr id)) →
  frontend.dispatch_all state [frontend.ADD_USER user; frontend.DELETE_USER id] = state.
Proof.
  intros Hid Hfresh. destruct state as [us ld er stt]. simpl in *.
  unfold frontend.dispatch_all. simpl. f_equal.
  rewrite List.filter_app. simpl.
  assert (Hgone : frontend.id_differs id user = false).
  { unfold frontend.id_differs. rewrite Hid. now rewrite String.eqb_refl. }
  rewrite Hgone, app_nil_r. apply filter_all.
  intros a Ha. apply id_differs_spec. auto.
Qed.

Section InSync.

Context `{!Curve}.

(** The users of the body of GET /users. *)
Lemma data_users_ListUsers (c : Context) (s : Server) (w : World) :
  frontend.data_users (ListUsers c s w).2 = map user_json (range_users s).
Proof. reflexivity. Qed.

(** X26.  The interface follows a creation.  If the list of the interface
    holds the users GET /users would return, in any order, and a POST is
    answered 201 with an identifier no record had, then after createUser
    has dispatched the user of the response the list again holds the users
    GET /users returns from the new server. *)
Theorem createUser_in_sync (c c1 c2 : Context) (s : Server) (w w1 w2 : World)
    (state : frontend.State) :
  status (CreateUser c s w).2 = StatusCreated →
  users s !! next_id w = None →
  frontend.st_users state ≡ₚ frontend.data_users (ListUsers c1 s w1).2 →
  ∃ user,
    frontend.data_user (CreateUser c s w).2 = Some user
    ∧ frontend.st_users (frontend.dispatch_all state (frontend.createUser (inl user)))
      ≡ₚ frontend.data_users (ListUsers c2 (CreateUser c s w).1.1 w2).2.
Proof.
  intros Hst Hfresh Hsync.
  destruct (CreateUser_201_facts c s w Hst) as (u & Hus & _ & Hresp & _).
  exists (user_json u). split; [now rewrite Hresp|].
  rewrite data_users_ListUsers in *. simpl. rewrite Hsync.
  unfold range_users. rewrite Hus.
  rewrite map_to_list_insert by done. simpl.
  rewrite <-Permutation_cons_append. done.
Qed.

End InSync.

(** X27.  The interface follows a deletion.  On a reachable server, if the
    list of the interface holds the users GET /users would return and a
    DELETE is answered 200, then after deleteUser has dispatched the
    identifier the list holds the users GET /users returns from the new
    server: exactly one entry has gone. *)
Theorem deleteUser_in_sync `{!Curve} (c c1 c2 : Context) (s : Server) (w w1 w2 : World)
    (state : frontend.State) :
  reachable s →
  status (DeleteUser c s w).2 = StatusOK →
  frontend.st_users state ≡ₚ frontend.data_users (ListUsers c1 s w1).2 →
  let state' := frontend.dispatch_all state (frontend.deleteUser (Param c "id") None) in
  frontend.st_users state'
    ≡ₚ frontend.data_users (ListUsers c2 (DeleteUser c s w).1.1 w2).2
  ∧ S (length (frontend.st_users state')) = length (frontend.st_users state).
Proof.
  intros Hs Hst Hsync. apply reachable_Inv in Hs as [Hwf _].
  assert (Hk : ∃ u, stored s (Param c "id") u
                    ∧ (DeleteUser c s w).1.1 = set_users (delete (Param c "id") (users s)) s).
  { unfold DeleteUser in *. unfold stored.
    destruct (users s !! Param c "id") as [u|]; [|discriminate]. now exists u. }
  destruct Hk as (u & Hk & ->).
  rewrite !data_users_ListUsers in *.
  assert (Hrest : List.filter (frontend.id_differs (Param c "id")) (frontend.st_users state)
                  ≡ₚ map user_json (range_users (set_users (delete (Param c "id") (users s)) s))).
  { rewrite (filter_Permutation' _ _ _ Hsync).
    rewrite (filter_Permutation' _ _ _
               (Permutation_map user_json (range_users_stored s _ u Hk))).
    simpl.
    assert (Hgone : frontend.id_differs (Param c "id") (user_json u) = false).
    { unfold frontend.id_differs. rewrite user_id_user_json.
      destruct (Hwf _ _ Hk) as (-> & _). now rewrite String.eqb_refl. }
    rewrite Hgone. rewrite filter_all; [done|].
    intros j Hj. apply in_map_iff in Hj as (u' & <- & Hu').
    apply list_elem_of_In, elem_of_range_users in Hu' as [k' Hk'].
    unfold stored in Hk'. simpl in Hk'.
    apply lookup_delete_Some in Hk' as [Hne Hk'].
    apply id_differs_spec. rewrite user_id_user_json.
    destruct (Hwf _ _ Hk') as (-> & _). congruence. }
  simpl. split; [exact Hrest|].
  rewrite Hrest, Hsync, !length_map.
  now rewrite (range_users_stored s _ u Hk).
Qed.

(** ** IsActive and the statistics *)

Lemma count_status_IsActive (l : list User) :
  count_status "active" l = Z.of_nat (length (List.filter IsActive l)).
Proof.
  unfold count_status. f_equal.
  induction l as [|u l IH]; [reflexivity|].
  rewrite filter_cons. simpl. unfold IsActive at 1.
  destruct (String.eqb_spec (Status u) "active") as [Heq|Hne].
  - rewrite decide_True by done. simpl. now rewrite IH.
  - rewrite decide_False by done. exact IH.
Qed.

(** X28.  The two notions of an active user agree: as long as the number
    of records fits 64 bits, the ActiveUsers counter of calculateStats is
    the number of stored records for which IsActive returns true.  A record
    whose status was overwritten by a pod phase is counted by neither. *)
Theorem ActiveUsers_IsActive (s : Server) :
  Z.of_nat (size (users s)) < 2 ^ 63 →
  ActiveUsers (calculateStats s)
    = Z.of_nat (length (List.filter IsActive (range_users s)))
  ∧ ∀ u, u ∈ range_users s → Status u = PodRunning → IsActive u = false.
Proof.
  intros Hsize. split.
  - rewrite calculateStats_eq. simpl. rewrite <-count_status_IsActive.
    apply wrap64_small. pose proof (count_status_le "active" (range_users s)).
    rewrite length_range_users in *. unfold in_int64. lia.
  - intros u _ Hst. unfold IsActive. now rewrite Hst.
Qed.

(** ** The listing and what the dashboard derives from it *)

Lemma range_users_ids (s : Server) :
  (∀ k u, stored s k u → ID u = k) →
  map ID (range_users s) = (map_to_list (users s)).*1.
Proof.
  intros Hwf. unfold range_users.
  assert (Hall : Forall (λ p, ID p.2 = p.1) (map_to_list (users s))).
  { apply Forall_forall. intros [k u] Hin. apply elem_of_map_to_list in Hin.
    exact (Hwf k u Hin). }
  induction Hall as [|[k u] l Hku _ IH]; [reflexivity|].
  rewrite !fmap_cons. simpl. f_equal; [exact Hku | exact IH].
Qed.

(** X29.  On a server reached through the handlers the listing names every
    stored record once: the id fields of the objects ListUsers returns are
    pairwise distinct, and they are exactly the keys of the map of users. *)
Theorem ListUsers_ids `{!Curve} (c : Context) (s : Server) (w : World) :
  reachable s →
  let ids := map ID (range_users s) in
  map frontend.user_id (frontend.data_users (ListUsers c s w).2)
    = map (λ id, Some (JStr id)) ids
  ∧ NoDup ids
  ∧ ∀ k, k ∈ ids ↔ is_Some (users s !! k).
Proof.
  intros Hs. apply reachable_Inv in Hs as [Hwf _]. cbv zeta.
  assert (Hids : map ID (range_users s) = (map_to_list (users s)).*1).
  { apply range_users_ids. intros k u Hk. now destruct (Hwf k u Hk). }
  split_and!.
  - rewrite data_users_ListUsers, !map_map. reflexivity.
  - rewrite Hids. apply NoDup_fst_map_to_list.
  - intros k. rewrite Hids, list_elem_of_fmap. split.
    + intros [[k' u] [-> Hin]]. apply elem_of_map_to_list in Hin. now exists u.
    + intros [u Hu]. exists (k, u). split; [done | now apply elem_of_map_to_list].
Qed.

Lemma is_active_user_json (u : User) : dashboard.is_active (user_json u) = IsActive u.
Proof. reflexivity. Qed.

Lemma activeUsers_user_json (l : list User) :
  dashboard.activeUsers (map user_json l) = length (List.filter IsActive l).
Proof.
  unfold dashboard.activeUsers. induction l as [|u l IH]; [reflexivity|].
  change (map user_json (u :: l)) with (user_json u :: map user_json l).
  change (List.filter dashboard.is_active (user_json u :: map user_json l))
    with (if dashboard.is_active (user_json u)
          then user_json u :: List.filter dashboard.is_active (map user_json l)
          else List.filter dashboard.is_active (map user_json l)).
  change (List.filter IsActive (u :: l))
    with (if IsActive u then u :: List.filter IsActive l else List.filter IsActive l).
  rewrite is_active_user_json.
  destruct (IsActive u); simpl; now rewrite IH.
Qed.

(** X30.  The cards of the dashboard agree with the statistics of the
    server: when the list of the interface holds the users GET /users
    returns, in any order, and their number fits 64 bits, the Active Users
    card shows the ActiveUsers counter of calculateStats and the Total Users
    card its TotalUsers counter. *)
Theorem dashboard_agrees (c : Context) (s : Server) (w : World) (state : frontend.State) :
  Z.of_nat (size (users s)) < 2 ^ 63 →
  frontend.st_users state ≡ₚ frontend.data_users (ListUsers c s w).2 →
  Z.of_nat (dashboard.activeUsers (frontend.st_users state)) = ActiveUsers (calculateStats s)
  ∧ Z.of_nat (dashboard.totalUsers (frontend.st_users state)) = TotalUsers (calculateStats s).
Proof.
  intros Hsize Hsync. rewrite data_users_ListUsers in Hsync.
  rewrite calculateStats_eq. simpl. split.
  - unfold dashboard.activeUsers.
    rewrite (Permutation_length (filter_Permutation' _ _ _ Hsync)).
    fold (dashboard.activeUsers (map user_json (range_users s))).
    rewrite activeUsers_user_json, <-count_status_IsActive.
    symmetry. apply wrap64_small.
    pose proof (count_status_le "active" (range_users s)).
    rewrite length_range_users in *. unfold in_int64. lia.
  - unfold dashboard.totalUsers.
    rewrite (Permutation_length Hsync), length_map, length_range_users.
    symmetry. apply wrap64_small. unfold in_int64. lia.
Qed.

(** ** The further properties at concrete runs *)

Import Scenario.

(** X1 at the server that holds alice. *)
Lemma registry_invariant_witness :
  reachable s1
  ∧ (∀ k u, stored s1 k u → ID u = k ∧ String.length k = 36%nat)
  ∧ (∀ k1 k2 u1 u2, stored s1 k1 u1 → stored s1 k2 u2 →
       Username u1 = Username u2 ∨ Email u1 = Email u2 → k1 = k2).
Proof. split; [exact s1_reachable | exact (registry_invariant s1 s1_reachable)]. Defined.

(** X2 at a request that carries alice's email under another name. *)
Lemma CreateUser_409_exactly_witness :
  ShouldBindJSON (post "alicia" "alice@x.com")
    = inl {| req_Username := "alicia"; req_Email := "alice@x.com" |}
  ∧ (status (CreateUser (post "alicia" "alice@x.com") s1 w1).2 = StatusConflict ↔
     ∃ k u, stored s1 k u ∧ (Username u = "alicia" ∨ Email u = "alice@x.com"))
  ∧ (status (CreateUser (post "alicia" "alice@x.com") s1 w1).2 = StatusConflict →
     (CreateUser (post "alicia" "alice@x.com") s1 w1).1 = (s1, w1)).
Proof.
  split; [reflexivity|].
  exact (CreateUser_409_exactly (post "alicia" "alice@x.com") s1 w1
           {| req_Username := "alicia"; req_Email := "alice@x.com" |} eq_refl).
Defined.

(** X4 at a random source of 40 bytes. *)
Lemma CreateUser_entropy_exhausted_witness :
  status (CreateUser (post "alice" "alice@x.com") s0 w_dry).2 = StatusInternalServerError
  ∧ (CreateUser (post "alice" "alice@x.com") s0 w_dry).1.1 = s0
  ∧ cluster (CreateUser (post "alice" "alice@x.com") s0 w_dry).1.2 = cluster w_dry.
Proof.
  assert (Hnew : user_exists {| req_Username := "alice"; req_Email := "alice@x.com" |}
                   (range_users s0) = false) by (vm_compute; reflexivity).
  assert (Hent : (length (entropy w_dry) < 48)%nat) by (vm_compute; lia).
  exact (CreateUser_entropy_exhausted (post "alice" "alice@x.com") s0 w_dry
           {| req_Username := "alice"; req_Email := "alice@x.com" |} eq_refl Hnew Hent).
Defined.

(** X5 at a platform that refuses the config map. *)
Lemma CreateUser_configMap_refused_witness :
  let c := post "alice" "alice@x.com" in
  let ns := namespace (vpnManager s0) in
  let id := next_id w_configMap_refused in
  status (CreateUser c s0 w_configMap_refused).2 = StatusInternalServerError
  ∧ (CreateUser c s0 w_configMap_refused).1.1 = s0
  ∧ configMaps (cluster (CreateUser c s0 w_configMap_refused).1.2)
    = configMaps (cluster w_configMap_refused)
  ∧ pods (cluster (CreateUser c s0 w_configMap_refused).1.2)
    = pods (cluster w_configMap_refused)
  ∧ calls (cluster (CreateUser c s0 w_configMap_refused).1.2) =
      CreateConfigMap ns (configMap_name id) :: calls (cluster w_configMap_refused).
Proof.
  assert (Hnew : user_exists {| req_Username := "alice"; req_Email := "alice@x.com" |}
                   (range_users s0) = false) by (vm_compute; reflexivity).
  assert (Hent : (48 ≤ length (entropy w_configMap_refused))%nat) by (vm_compute; lia).
  assert (Hcm : is_Some (is_fault (hd Proceed (script (cluster w_configMap_refused))))
                ∨ is_Some (configMaps (cluster w_configMap_refused)
                             !! (namespace (vpnManager s0),
                                 configMap_name (next_id w_configMap_refused))))
    by (left; eexists; reflexivity).
  exact (CreateUser_configMap_refused (post "alice" "alice@x.com") s0 w_configMap_refused
           {| req_Username := "alice"; req_Email := "alice@x.com" |} eq_refl Hnew Hent Hcm).
Defined.

(** X7 at alice's creation on the empty server. *)
Lemma CreateUser_provisions_witness :
  let c := post "alice" "alice@x.com" in
  let ns := namespace (vpnManager s0) in
  let id := next_id w0 in
  ∃ user,
    stored (CreateUser c s0 w0).1.1 id user
    ∧ ID user = id
    ∧ Status user = "active" ∧ DataUsage user = 0 ∧ ConnectionCount user = 0
    ∧ PodName user = pod_name id ∧ PodIP user = ""
    ∧ (∃ cm, configMaps (cluster (CreateUser c s0 w0).1.2) !! (ns, configMap_name id) = Some cm
             ∧ cm_Data cm = [("wg0.conf", ConfigData user)])
    ∧ (∃ pod, pods (cluster (CreateUser c s0 w0).1.2) !! (ns, PodName user) = Some pod
              ∧ pod_Phase pod = PodRunning)
    ∧ configMaps (cluster w0) !! (ns, configMap_name id) = None
    ∧ pods (cluster w0) !! (ns, pod_name id) = None.
Proof.
  assert (Hst : status after_alice.2 = StatusCreated) by (vm_compute; reflexivity).
  exact (CreateUser_provisions (post "alice" "alice@x.com") s0 w0 Hst).
Defined.

(** X8 at a pod that reports running at the fourth poll, after a failed
    poll and two pending ones, and at a platform that would report the pod
    running at once while the CPU limit reads lots. *)
Lemma CreateUser_awaits_running_witness :
  let c := post "alice" "alice@x.com" in
  status (CreateUser c s0 w_slow).2 = StatusCreated
  ∧ (CreateUser c s0 w_lots).2
    = {| status := StatusInternalServerError; headers := []; body := NoBody |}
  ∧ calls (cluster (CreateUser c s0 w_lots).1.2)
    = CreateConfigMap (namespace (vpnManager s0)) (configMap_name (next_id w_lots))
        :: calls (cluster w_lots).
Proof.
  assert (Hnew : user_exists {| req_Username := "alice"; req_Email := "alice@x.com" |}
                   (range_users s0) = false) by (vm_compute; reflexivity).
  assert (Hent : (48 ≤ length (entropy w_slow))%nat) by (vm_compute; lia).
  assert (Hcm : is_fault (hd Proceed (script (cluster w_slow))) = None) by reflexivity.
  assert (Hfree : configMaps (cluster w_slow)
                    !! (namespace (vpnManager s0), configMap_name (next_id w_slow)) = None)
    by (vm_compute; reflexivity).
  assert (Hpod : is_fault (hd Proceed (tail (script (cluster w_slow)))) = None)
    by reflexivity.
  assert (Hfree' : pods (cluster w_slow)
                     !! (namespace (vpnManager s0), pod_name (next_id w_slow)) = None)
    by (vm_compute; reflexivity).
  assert (Hq : valid_quantities w_slow)
    by (apply valid_quantities_check; vm_compute; reflexivity).
  assert (Hpolls : existsb reports_running (polls_of w_slow) = true)
    by (vm_compute; reflexivity).
  assert (Hent2 : (48 ≤ length (entropy w_lots))%nat) by (vm_compute; lia).
  assert (Hcm2 : is_fault (hd Proceed (script (cluster w_lots))) = None) by reflexivity.
  assert (Hfree2 : configMaps (cluster w_lots)
                     !! (namespace (vpnManager s0), configMap_name (next_id w_lots)) = None)
    by (vm_compute; reflexivity).
  assert (Hpod2 : is_fault (hd Proceed (tail (script (cluster w_lots)))) = None)
    by reflexivity.
  assert (Hfree2' : pods (cluster w_lots)
                      !! (namespace (vpnManager s0), pod_name (next_id w_lots)) = None)
    by (vm_compute; reflexivity).
  assert (Hq2 : ¬ valid_quantities w_lots).
  { intros Hv. apply valid_quantities_check in Hv. vm_compute in Hv. discriminate Hv. }
  split.
  - exact (proj2 (proj1 (CreateUser_awaits_running (post "alice" "alice@x.com") s0 w_slow
                           {| req_Username := "alice"; req_Email := "alice@x.com" |}
                           eq_refl Hnew Hent Hcm Hfree Hpod Hfree'))
                 (conj Hq Hpolls)).
  - exact (proj2 (proj2 (CreateUser_awaits_running (post "alice" "alice@x.com") s0 w_lots
                           {| req_Username := "alice"; req_Email := "alice@x.com" |}
                           eq_refl Hnew Hent2 Hcm2 Hfree2 Hpod2 Hfree2'))
                 Hq2).
Defined.

(** X9 at a pod that is still pending at the fifth poll. *)
Lemma CreateUser_never_ready_witness :
  let c := post "alice" "alice@x.com" in
  let ns := namespace (vpnManager s0) in
  let id := next_id w_pending in
  (CreateUser c s0 w_pending).2 =
    c_JSON StatusInternalServerError [("error", JStr "Failed to create VPN")]
  ∧ (CreateUser c s0 w_pending).1.1 = s0
  ∧ is_Some (configMaps (cluster (CreateUser c s0 w_pending).1.2) !! (ns, configMap_name id))
  ∧ is_Some (pods (cluster (CreateUser c s0 w_pending).1.2) !! (ns, pod_name id))
  ∧ calls (cluster (CreateUser c s0 w_pending).1.2) =
      (replicate 5 (GetPod ns (pod_name id))
       ++ CreatePod ns (pod_name id) :: CreateConfigMap ns (configMap_name id)
       :: calls (cluster w_pending))%list.
Proof.
  assert (Hnew : user_exists {| req_Username := "alice"; req_Email := "alice@x.com" |}
                   (range_users s0) = false) by (vm_compute; reflexivity).
  assert (Hent : (48 ≤ length (entropy w_pending))%nat) by (vm_compute; lia).
  assert (Hq : valid_quantities w_pending)
    by (apply valid_quantities_check; vm_compute; reflexivity).
  assert (Hcm : is_fault (hd Proceed (script (cluster w_pending))) = None) by reflexivity.
  assert (Hfree : configMaps (cluster w_pending)
                    !! (namespace (vpnManager s0), configMap_name (next_id w_pending)) = None)
    by (vm_compute; reflexivity).
  assert (Hpod : is_fault (hd Proceed (tail (script (cluster w_pending)))) = None)
    by reflexivity.
  assert (Hfree' : pods (cluster w_pending)
                     !! (namespace (vpnManager s0), pod_name (next_id w_pending)) = None)
    by (vm_compute; reflexivity).
  assert (Hpolls : existsb reports_running (polls_of w_pending) = false)
    by (vm_compute; reflexivity).
  exact (CreateUser_never_ready (post "alice" "alice@x.com") s0 w_pending
           {| req_Username := "alice"; req_Email := "alice@x.com" |}
           eq_refl Hnew Hent Hq Hcm Hfree Hpod Hfree' Hpolls).
Defined.

(** X12 at alice, whose pod the platform shows running. *)
Lemma GetUser_reconciles_status_witness :
  let c := with_id alice_id in
  ∃ user,
    stored s1 (Param c "id") user
    ∧ ∃ st,
        users (GetUser c s1 w1).1.1 = <[Param c "id" := set_Status st user]> (users s1)
        ∧ (GetUser c s1 w1).2 = c_JSON StatusOK [("user", user_json (set_Status st user))]
        ∧ (st = Status user
           ∨ (PodName user ≠ ""
              ∧ ∃ pod, pods (cluster (GetUser c s1 w1).1.2)
                         !! (namespace (vpnManager s1), PodName user) = Some pod
                       ∧ st = pod_Phase pod))
        ∧ configMaps (cluster (GetUser c s1 w1).1.2) = configMaps (cluster w1)
        ∧ dom (pods (cluster (GetUser c s1 w1).1.2)) = dom (pods (cluster w1)).
Proof.
  assert (Hname : Username <$> users s1 !! Param (with_id alice_id) "id" = Some "alice")
    by (vm_compute; reflexivity).
  unfold stored.
  destruct (users s1 !! Param (with_id alice_id) "id") as [u|] eqn:Hu;
    [|discriminate Hname].
  exists u. split; [reflexivity|].
  exact (GetUser_reconciles_status (with_id alice_id) s1 w1 u Hu).
Defined.

(** X13 at the server that holds alice. *)
Lemma GetUserConfig_reachable_witness :
  let c := with_id alice_id in
  (GetUserConfig c s1 w1).1 = (s1, w1)
  ∧ (status (GetUserConfig c s1 w1).2 = StatusOK ↔ is_Some (users s1 !! Param c "id"))
  ∧ (∀ user, stored s1 (Param c "id") user →
       ConfigData user ≠ ""
       ∧ (GetUserConfig c s1 w1).2 =
           {| status := StatusOK;
              headers :=
                [("Content-Disposition",
                  "attachment; filename=vpn-" +:+ Username user +:+ ".conf");
                 ("Content-Type", "text/plain")];
              body := StringBody (ConfigData user) |}).
Proof. exact (GetUserConfig_reachable (with_id alice_id) s1 w1 s1_reachable). Defined.

Lemma with_script_configMaps (sc : list Outcome) (w : World) :
  configMaps (cluster (with_script sc w)) = configMaps (cluster w).
Proof. reflexivity. Qed.

(** X14 at alice, created on the empty server and deleted at once. *)
Lemma create_then_delete_witness :
  let c := post "alice" "alice@x.com" in
  let c' := with_id alice_id in
  let w' := with_script [] (CreateUser c s0 w0).1.2 in
  (DeleteUser c' (CreateUser c s0 w0).1.1 w').1.1 = s0
  ∧ status (DeleteUser c' (CreateUser c s0 w0).1.1 w').2 = StatusOK
  ∧ is_Some (configMaps (cluster (DeleteUser c' (CreateUser c s0 w0).1.1 w').1.2)
               !! (namespace (vpnManager s0), configMap_name (next_id w0))).
Proof.
  assert (Hst : status after_alice.2 = StatusCreated) by (vm_compute; reflexivity).
  assert (Hid : Param (with_id alice_id) "id" = next_id w0) by (vm_compute; reflexivity).
  assert (Hfresh : users s0 !! next_id w0 = None) by (vm_compute; reflexivity).
  exact (create_then_delete (post "alice" "alice@x.com") (with_id alice_id) s0 w0
           (with_script [] (CreateUser (post "alice" "alice@x.com") s0 w0).1.2)
           Hst Hid Hfresh
           (with_script_configMaps [] (CreateUser (post "alice" "alice@x.com") s0 w0).1.2)).
Defined.

(** X15 at alice's creation. *)
Lemma CreateUser_response_listed_witness :
  let c := post "alice" "alice@x.com" in
  ∃ fields,
    (CreateUser c s0 w0).2 =
      c_JSON StatusCreated
        [("message", JStr "User created successfully"); ("user", JObj fields)]
    ∧ field "id" fields = Some (JStr (next_id w0))
    ∧ fields ∈ listed_objects (ListUsers (with_id "") (CreateUser c s0 w0).1.1 w1).2.
Proof.
  assert (Hst : status after_alice.2 = StatusCreated) by (vm_compute; reflexivity).
  exact (CreateUser_response_listed (post "alice" "alice@x.com") (with_id "") s0 w0 w1 Hst).
Defined.

(** X17 at the registry filled by hand, traversed backwards. *)
Lemma calculateStats_any_order_witness :
  calculateStats_loop (rev (range_users sample)) = calculateStats sample.
Proof.
  assert (Hp : rev (range_users sample) ≡ₚ range_users sample)
    by (symmetry; apply Permutation_rev).
  exact (calculateStats_any_order sample (rev (range_users sample)) Hp).
Defined.

(** X19 at ann, with 24 more bytes and one more connection. *)
Lemma telemetry_in_stats_witness :
  let u := record "a" "ann" "active" 1000 3 in
  let s1 := set_users (<["a" := AddDataUsage 24 u w0]> (users sample)) sample in
  let s2 := set_users (<["a" := IncrementConnectionCount u w0]> (users sample)) sample in
  calculateStats s1 =
    {| TotalUsers := TotalUsers (calculateStats sample);
       ActiveUsers := ActiveUsers (calculateStats sample);
       InactiveUsers := InactiveUsers (calculateStats sample);
       SuspendedUsers := SuspendedUsers (calculateStats sample);
       TotalDataUsage := wrap64 (TotalDataUsage (calculateStats sample) + 24);
       TotalConnections := TotalConnections (calculateStats sample) |}
  ∧ calculateStats s2 =
    {| TotalUsers := TotalUsers (calculateStats sample);
       ActiveUsers := ActiveUsers (calculateStats sample);
       InactiveUsers := InactiveUsers (calculateStats sample);
       SuspendedUsers := SuspendedUsers (calculateStats sample);
       TotalDataUsage := TotalDataUsage (calculateStats sample);
       TotalConnections := wrap64 (TotalConnections (calculateStats sample) + 1) |}.
Proof.
  assert (Hk : stored sample "a" (record "a" "ann" "active" 1000 3))
    by (vm_compute; reflexivity).
  exact (telemetry_in_stats sample "a" (record "a" "ann" "active" 1000 3) 24 w0 Hk).
Defined.

(** X20 at alice, active when created and Running once looked at. *)
Lemma GetUser_leaves_active_count_witness :
  let c := with_id alice_id in
  ActiveUsers (calculateStats (GetUser c s1 w1).1.1) = ActiveUsers (calculateStats s1) - 1
  ∧ TotalUsers (calculateStats (GetUser c s1 w1).1.1) = TotalUsers (calculateStats s1).
Proof.
  assert (Hsize : Z.of_nat (size (users s1)) < 2 ^ 63) by (vm_compute; reflexivity).
  assert (Hbefore : Status <$> users s1 !! Param (with_id alice_id) "id" = Some "active")
    by (vm_compute; reflexivity).
  assert (Hafter : Status <$> users (GetUser (with_id alice_id) s1 w1).1.1
                                !! Param (with_id alice_id) "id" = Some "Running")
    by (vm_compute; reflexivity).
  destruct (users s1 !! Param (with_id alice_id) "id") as [u|] eqn:Hu;
    [|discriminate Hbefore].
  destruct (users (GetUser (with_id alice_id) s1 w1).1.1 !! Param (with_id alice_id) "id")
    as [u'|] eqn:Hu'; [|discriminate Hafter].
  assert (Hactive : Status u = "active") by (now inversion Hbefore).
  assert (Hrunning : Status u' ≠ "active").
  { inversion Hafter as [Hr]. rewrite Hr. discriminate. }
  exact (GetUser_leaves_active_count (with_id alice_id) s1 w1 u u'
           Hsize Hu Hactive Hu' Hrunning).
Defined.

(** X21 at a 44-character key and the record of ann. *)
Lemma generateWireGuardConfig_address_witness :
  ∃ cfg n,
    generateWireGuardConfig w0 (record "a" "ann" "active" 1000 3)
      {| keys_PrivateKey := "ERITFBUWFxgZGhscHR4fICEiIyQlJicoKSorLC0uLzA=";
         keys_PublicKey := "TSe87jE1xJRLKNJ92Amwe+EMNRYNIBMcqn6FV1SY0Hw=" |} = inl cfg
    ∧ config_address cfg = Some (userIP (record "a" "ann" "active" 1000 3))
    ∧ userIP (record "a" "ann" "active" 1000 3) = fmt.Sprintf "10.0.0.%d" [fmt.Int n]
    ∧ 1 <= n <= 254.
Proof.
  assert (Hkey : lacks " " "ERITFBUWFxgZGhscHR4fICEiIyQlJicoKSorLC0uLzA=")
    by (apply lacksb_lacks; reflexivity).
  exact (generateWireGuardConfig_address w0 (record "a" "ann" "active" 1000 3)
           {| keys_PrivateKey := "ERITFBUWFxgZGhscHR4fICEiIyQlJicoKSorLC0uLzA=";
              keys_PublicKey := "TSe87jE1xJRLKNJ92Amwe+EMNRYNIBMcqn6FV1SY0Hw=" |} Hkey).
Defined.

(** X22 at alice. *)
Lemma reachable_assignedAddress_witness :
  ∃ u, stored s1 alice_id u ∧ assignedAddress u = Some "10.0.0.37".
Proof.
  assert (Hname : Username <$> users s1 !! alice_id = Some "alice")
    by (vm_compute; reflexivity).
  unfold stored.
  destruct (users s1 !! alice_id) as [u|] eqn:Hu; [|discriminate Hname].
  exists u. split; [reflexivity|].
  exact (reachable_assignedAddress s1 alice_id u s1_reachable Hu).
Defined.

(** X25 at a list that holds ann, to which ben is added. *)
Lemma ADD_USER_then_DELETE_USER_witness :
  frontend.dispatch_all one_user [frontend.ADD_USER ben; frontend.DELETE_USER "b"] = one_user.
Proof.
  assert (Hfresh : ∀ other, In other (frontend.st_users one_user) →
                            frontend.user_id other ≠ Some (JStr "b")).
  { intros other [<-|[]]. discriminate. }
  exact (ADD_USER_then_DELETE_USER one_user ben "b" eq_refl Hfresh).
Defined.

(** X26 at alice's creation, seen from an interface that had fetched the
    empty list. *)
Lemma createUser_in_sync_witness :
  ∃ user,
    frontend.data_user (CreateUser (post "alice" "alice@x.com") s0 w0).2 = Some user
    ∧ frontend.st_users
        (frontend.dispatch_all (fetched s0) (frontend.createUser (inl user)))
      ≡ₚ frontend.data_users
           (ListUsers (with_id "") (CreateUser (post "alice" "alice@x.com") s0 w0).1.1 w1).2.
Proof.
  assert (Hst : status after_alice.2 = StatusCreated) by (vm_compute; reflexivity).
  assert (Hfresh : users s0 !! next_id w0 = None) by (vm_compute; reflexivity).
  assert (Hsync : frontend.st_users (fetched s0)
                  ≡ₚ frontend.data_users (ListUsers (with_id "") s0 w0).2)
    by exact (Permutation_refl _).
  exact (createUser_in_sync (post "alice" "alice@x.com") (with_id "") (with_id "")
           s0 w0 w0 w1 (fetched s0) Hst Hfresh Hsync).
Defined.

(** X27 at alice's deletion, seen from an interface that had fetched her. *)
Lemma deleteUser_in_sync_witness :
  let c := with_id alice_id in
  let state' := frontend.dispatch_all (fetched s1) (frontend.deleteUser (Param c "id") None) in
  frontend.st_users state'
    ≡ₚ frontend.data_users (ListUsers (with_id "") (DeleteUser c s1 w_unreachable).1.1 w1).2
  ∧ S (length (frontend.st_users state')) = length (frontend.st_users (fetched s1)).
Proof.
  assert (Hst : status alice_deleted.2 = StatusOK) by (vm_compute; reflexivity).
  assert (Hsync : frontend.st_users (fetched s1)
                  ≡ₚ frontend.data_users (ListUsers (with_id "") s1 w0).2)
    by exact (Permutation_refl _).
  exact (deleteUser_in_sync (with_id alice_id) (with_id "") (with_id "")
           s1 w_unreachable w0 w1 (fetched s1) s1_reachable Hst Hsync).
Defined.

(** X28 at the registry filled by hand, where one record of four is active
    and one is Running. *)
Lemma ActiveUsers_IsActive_witness :
  ActiveUsers (calculateStats sample)
    = Z.of_nat (length (List.filter IsActive (range_users sample)))
  ∧ ∀ u, u ∈ range_users sample → Status u = PodRunning → IsActive u = false.
Proof.
  assert (Hsize : Z.of_nat (size (users sample)) < 2 ^ 63) by (vm_compute; reflexivity).
  exact (ActiveUsers_IsActive sample Hsize).
Defined.

(** X29 at the server that holds alice and bob. *)
Lemma ListUsers_ids_witness :
  let ids := map ID (range_users s2) in
  map frontend.user_id (frontend.data_users (ListUsers (with_id "") s2 w0).2)
    = map (λ id, Some (JStr id)) ids
  ∧ NoDup ids
  ∧ ∀ k, k ∈ ids ↔ is_Some (users s2 !! k).
Proof. exact (ListUsers_ids (with_id "") s2 w0 s2_reachable). Defined.

(** X30 at an interface that has fetched the registry filled by hand. *)
Lemma dashboard_agrees_witness :
  Z.of_nat (dashboard.activeUsers (frontend.st_users (fetched sample)))
    = ActiveUsers (calculateStats sample)
  ∧ Z.of_nat (dashboard.totalUsers (frontend.st_users (fetched sample)))
    = TotalUsers (calculateStats sample).
Proof.
  assert (Hsize : Z.of_nat (size (users sample)) < 2 ^ 63) by (vm_compute; reflexivity).
  assert (Hsync : frontend.st_users (fetched sample)
                  ≡ₚ frontend.data_users (ListUsers (with_id "") sample w0).2)
    by exact (Permutation_refl _).
  exact (dashboard_agrees (with_id "") sample w0 (fetched sample) Hsize Hsync).
Defined.
